(** * Teams bot: event correlation and subscription routing

    A shallow embedding of [src/utils/botHandler.ts] (the inbound activity
    router) and of the blocks [sendMessage], [subscribeToReplies]
    (registered as [threadSubscription]) and [mentionsSubscription],
    together with the properties of the routing engine.

    JavaScript values are modelled as follows: an optional field is an
    [option]; a string is a [string]; truthiness is written out
    ([truthy]); the application key-value store [kv.app] is a
    [gmap string bool], the block-scoped store [kv.block] is one
    [gmap string string] per block id; [async] code is sequenced in the
    monad [Flow], which threads the stores, may throw, and records the
    calls to [messaging.sendToBlocks] and [events.emit] in a trace. *)

From Stdlib Require Import ZArith Ascii String.
From stdpp Require Import base option list gmap strings.

Local Open Scope string_scope.
Set Warnings "-register-all".

(** ** JavaScript string primitives used by the source *)

Module JS.

(** [s.startsWith(p)] *)
Definition startsWith (s p : string) : bool := String.prefix p s.

(** [s.includes(sub)] *)
Fixpoint includes (s sub : string) : bool :=
  String.prefix sub s ||
  match s with
  | EmptyString => false
  | String _ s' => includes s' sub
  end.

(** [s.split(sep)] for a one-character separator: never the empty list. *)
Fixpoint split (sep : ascii) (s : string) : list string :=
  match s with
  | EmptyString => [EmptyString]
  | String c s' =>
      if Ascii.eqb c sep then EmptyString :: split sep s'
      else match split sep s' with
           | [] => [String c EmptyString]
           | seg :: rest => String c seg :: rest
           end
  end.

(** Removes [p] from the front of [s] when [s] starts with it. *)
Fixpoint strip_prefix (p s : string) : option string :=
  match p with
  | EmptyString => Some s
  | String a p' =>
      match s with
      | EmptyString => None
      | String b s' => if Ascii.eqb a b then strip_prefix p' s' else None
      end
  end.

(** [s.replace(/^p/, "")] for a literal [p]. *)
Definition replace_prefix (p s : string) : string :=
  match strip_prefix p s with
  | Some rest => rest
  | None => s
  end.

(** The character class [\d]. *)
Definition is_digit (c : ascii) : bool :=
  (48 <=? nat_of_ascii c)%nat && (nat_of_ascii c <=? 57)%nat.

(** The longest run of digits at the front of [s] (a greedy [\d*]). *)
Fixpoint take_digits (s : string) : string :=
  match s with
  | EmptyString => EmptyString
  | String c s' => if is_digit c then String c (take_digits s') else EmptyString
  end.

(** [/;messageid=(\d+)/] anchored at the first character: the capture. *)
Definition match_messageid_here (s : string) : option string :=
  match strip_prefix ";messageid=" s with
  | Some rest =>
      match take_digits rest with
      | EmptyString => None
      | digits => Some digits
      end
  | None => None
  end.

(** [s.match(/;messageid=(\d+)/)]: capture group 1 of the leftmost match. *)
Fixpoint match_messageid (s : string) : option string :=
  match match_messageid_here s with
  | Some digits => Some digits
  | None =>
      match s with
      | EmptyString => None
      | String _ s' => match_messageid s'
      end
  end.

(** Truthiness of an optional string: [undefined] and [""] are falsy. *)
Definition truthy (o : option string) : bool :=
  match o with
  | Some s => negb (String.eqb s EmptyString)
  | None => false
  end.

(** Strict equality [a === b] of two optional strings. *)
Definition strict_eq (a b : option string) : bool :=
  bool_decide (a = b).

(** Template-literal interpolation [`${o}`] of an optional string. *)
Definition interpolate (o : option string) : string :=
  match o with
  | Some s => s
  | None => "undefined"
  end.

(** A JSON value, as far as the router looks into one. *)
Inductive Value :=
| VNull
| VBool (b : bool)
| VNum (n : Z)
| VStr (s : string)
| VArr (items : list Value)
| VObj (fields : list (string * Value)).

(** Truthiness of an optional JSON value: objects and arrays are truthy. *)
Definition truthy_value (o : option Value) : bool :=
  match o with
  | None | Some VNull => false
  | Some (VBool b) => b
  | Some (VNum n) => negb (n =? 0)%Z
  | Some (VStr s) => negb (String.eqb s EmptyString)
  | Some (VArr _) | Some (VObj _) => true
  end.

End JS.

(** ** The Bot Framework activity, as far as the router reads it *)

Record ChannelAccount := {
  acc_id : option string;
  acc_name : option string;
  acc_aadObjectId : option string }.

Record ConversationAccount := { conv_id : option string }.

Record Entity := {
  ent_type : option string;
  ent_mentioned : option ChannelAccount }.

Record MessageReaction := { reaction_type : option string }.

Record ChannelData := { teamsChannelId : option string }.

(** [ActivityTypes]: the four kinds the router switches on, and the rest. *)
Inductive ActivityType :=
| Message
| MessageReactionT
| ConversationUpdate
| Invoke
| OtherType (tag : string).

Record Activity := {
  act_type : ActivityType;
  act_id : option string;
  act_replyToId : option string;
  act_conversation : option ConversationAccount;
  act_from : option ChannelAccount;
  act_text : option string;
  act_value : option JS.Value;
  act_name : option string;
  act_entities : option (list Entity);
  act_channelData : option ChannelData;
  act_reactionsAdded : option (list MessageReaction);
  act_reactionsRemoved : option (list MessageReaction);
  act_timestamp : option string;
  act_attachments : option (list JS.Value);
  act_serviceUrl : option string }.

(** [activity.conversation?.id] *)
Definition conversation_id (a : Activity) : option string :=
  act_conversation a ≫= conv_id.

(** [activity.from?.id] *)
Definition from_id (a : Activity) : option string :=
  act_from a ≫= acc_id.

(** [activity.channelData?.teamsChannelId] *)
Definition channel_id (a : Activity) : option string :=
  act_channelData a ≫= teamsChannelId.

(** ** Messages between the router and the blocks, and emitted events *)

(** The [body] of [messaging.sendToBlocks]; a field the source does not set
    is [None]. *)
Record Body := {
  b_type : string;
  b_action : option string;
  b_reactionType : option string;
  b_actionId : option string;
  b_actionData : option JS.Value;
  b_activity : Activity;
  b_text : option string;
  b_from : option ChannelAccount;
  b_replyToId : option string;
  b_activityId : option string;
  b_conversationId : option string;
  b_conversation : option ConversationAccount;
  b_channelData : option ChannelData;
  b_timestamp : option string }.

(** The payload of [events.emit], one constructor per emitting site. *)
Inductive Payload :=
| ReactionEvent (reactionType action : option string) (type : string)
    (userId userAadObjectId activityId conversationId timestamp : option string)
| ActionEvent (actionId : option string) (actionData : option JS.Value)
    (type : string)
    (userId userAadObjectId activityId conversationId timestamp : option string)
| ReplyEvent (text : option string) (attachments : option (list JS.Value))
    (userId userName userAadObjectId activityId timestamp : option string)
| MentionEvent (text activityId channelId serviceUrl conversationId : option string)
    (from : option ChannelAccount) (timestamp : option string)
| MessageSent (activityId conversationId channelId timestamp : string).

(** What a run hands to the host: internal messages and emitted events. *)
Inductive Out :=
| SendToBlocks (blockIds : list string) (body : Body)
| Emit (block : string) (payload : Payload)
    (parentEventId outputKey : option string).

(** ** The host: stores and block registry *)

Record Block := {
  blk_id : string;
  blk_typeId : string;
  blk_channelId : option string }.

Record World := {
  kv_app : gmap string bool;
  kv_block : gmap string (gmap string string);
  registry : list Block }.

Inductive Res (A : Type) :=
| Ok (a : A)
| Err (msg : string).
Arguments Ok {A} a.
Arguments Err {A} msg.

Record Outcome (A : Type) := {
  result : Res A;
  world : World;
  trace : list Out }.
Arguments result {A} _.
Arguments world {A} _.
Arguments trace {A} _.

Definition Flow (A : Type) : Type := World → Outcome A.

Definition ret {A} (a : A) : Flow A :=
  λ w, {| result := Ok a; world := w; trace := [] |}.

Definition throw {A} (msg : string) : Flow A :=
  λ w, {| result := Err msg; world := w; trace := [] |}.

Definition bind {A B} (m : Flow A) (k : A → Flow B) : Flow B :=
  λ w,
    let o := m w in
    match result o with
    | Ok a =>
        let o' := k a (world o) in
        {| result := result o'; world := world o'; trace := trace o ++ trace o' |}
    | Err msg => {| result := Err msg; world := world o; trace := trace o |}
    end.

Notation "'let!' x ':=' m 'in' k" := (bind m (λ x, k))
  (at level 10, x name, m at level 100, k at level 200, only parsing).
Notation "m ;;; k" := (bind m (λ _, k))
  (at level 100, right associativity, only parsing).

(** [for (const x of xs) { await body(x) }] *)
Fixpoint for_of {A} (xs : list A) (body : A → Flow unit) : Flow unit :=
  match xs with
  | [] => ret tt
  | x :: xs' => body x ;;; for_of xs' body
  end.

(** [kv.app.list({ keyPrefix })]: the pairs whose key starts with the prefix. *)
Definition kv_app_list (keyPrefix : string) : Flow (list (string * bool)) :=
  λ w, ret (filter (λ p, Is_true (JS.startsWith p.1 keyPrefix))
                   (map_to_list (kv_app w))) w.

(** [kv.app.set({ key, value })] *)
Definition kv_app_set (key : string) (value : bool) : Flow unit :=
  λ w, ret tt {| kv_app := <[key := value]> (kv_app w);
                 kv_block := kv_block w; registry := registry w |}.

(** The block-scoped store of one block. *)
Definition block_store (w : World) (block : string) : gmap string string :=
  default ∅ (kv_block w !! block).

(** [kv.block.get(key)] in the scope of [block]; a missing key reads as
    absent. *)
Definition kv_block_get (block : string) (key : option string)
  : Flow (option string) :=
  λ w, ret (key ≫= λ k, block_store w block !! k) w.

(** [kv.block.set({ key, value })] in the scope of [block]. *)
Definition kv_block_set (block key value : string) : Flow unit :=
  λ w, ret tt {| kv_app := kv_app w;
                 kv_block := <[block := <[key := value]> (block_store w block)]>
                               (kv_block w);
                 registry := registry w |}.

(** [blocks.list({ typeIds: [typeId] })] *)
Definition blocks_list (typeId : string) : Flow (list Block) :=
  λ w, ret (filter (λ b, blk_typeId b = typeId) (registry w)) w.

(** [messaging.sendToBlocks({ blockIds, body })] *)
Definition sendToBlocks (blockIds : list string) (body : Body) : Flow unit :=
  λ w, {| result := Ok tt; world := w; trace := [SendToBlocks blockIds body] |}.

(** [events.emit(payload, { parentEventId, outputKey })] from [block]. *)
Definition events_emit (block : string) (payload : Payload)
    (parentEventId outputKey : option string) : Flow unit :=
  λ w, {| result := Ok tt; world := w;
          trace := [Emit block payload parentEventId outputKey] |}.

(** ** [src/utils/botHandler.ts] *)

(** [(await kv.app.list({ keyPrefix: prefix })).pairs.map(({ key }) =>
    key.split("|")[2])]: the third [|]-separated segment of every key under
    the prefix ([None] is [undefined], for a key with fewer segments). *)
Definition subscribedBlockIds (prefix : string) : Flow (list (option string)) :=
  let! pairs := kv_app_list prefix in
  ret ((λ p : string * bool, JS.split "|" p.1 !! 2%nat) <$> pairs).

(** [subscribedBlockIds.filter((id) => existingBlockIds.has(id))] where
    [existingBlockIds = new Set(blocks.map((b) => b.id))]; [undefined] is in
    no set of block ids. *)
Definition validBlockIds (subscribed : list (option string))
    (existing : list Block) : list string :=
  omap (λ o : option string,
          o ≫= λ i, if bool_decide (i ∈ blk_id <$> existing) then Some i else None)
       subscribed.

(** [m.mentioned?.id?.includes("28:")] *)
Definition mentions_bot_prefix (m : Entity) : bool :=
  match ent_mentioned m ≫= acc_id with
  | Some i => JS.includes i "28:"
  | None => false
  end.

(** [entities.filter(e => e.type === "mention").some(m => ...)] *)
Definition botMentioned (a : Activity) : bool :=
  let entities := default [] (act_entities a) in
  let mentions :=
    filter (λ e, Is_true (JS.strict_eq (ent_type e) (Some "mention"))) entities in
  existsb mentions_bot_prefix mentions.

(** The reply target of a message: [activity.replyToId], or else the
    [;messageid=] of the conversation id when it differs from [activity.id]. *)
Definition message_replyToId (a : Activity) : option string :=
  match conversation_id a with
  | Some conversationId =>
      if negb (JS.truthy (act_replyToId a))
         && JS.truthy (Some conversationId) && JS.truthy (act_id a)
      then
        match JS.match_messageid conversationId with
        | Some messageId =>
            if negb (JS.strict_eq (Some messageId) (act_id a))
            then Some messageId
            else act_replyToId a
        | None => act_replyToId a
        end
      else act_replyToId a
  | None => act_replyToId a
  end.

(** [fromId && fromId.includes(botAppId)] with
    [botAppId = botId.replace(/^28:/, "")] *)
Definition isFromBot (a : Activity) (botId : string) : bool :=
  let botAppId := JS.replace_prefix "28:" botId in
  match from_id a with
  | Some fromId => JS.truthy (Some fromId) && JS.includes fromId botAppId
  | None => false
  end.

Definition mention_body (a : Activity) : Body :=
  {| b_type := "mention"; b_action := None; b_reactionType := None;
     b_actionId := None; b_actionData := None;
     b_activity := a; b_text := act_text a; b_from := act_from a;
     b_replyToId := None; b_activityId := None; b_conversationId := None;
     b_conversation := act_conversation a;
     b_channelData := act_channelData a; b_timestamp := act_timestamp a |}.

Definition submit_body (a : Activity) (replyToId : option string) : Body :=
  {| b_type := "action"; b_action := None; b_reactionType := None;
     b_actionId :=
       Some (if JS.truthy (act_name a) then JS.interpolate (act_name a)
             else "submit");
     b_actionData := act_value a;
     b_activity := a; b_text := None; b_from := act_from a;
     b_replyToId := None; b_activityId := replyToId;
     b_conversationId := conversation_id a; b_conversation := None;
     b_channelData := None; b_timestamp := act_timestamp a |}.

Definition reply_body (a : Activity) (replyToId conversationId : option string)
  : Body :=
  {| b_type := "reply"; b_action := None; b_reactionType := None;
     b_actionId := None; b_actionData := None;
     b_activity := a; b_text := act_text a; b_from := act_from a;
     b_replyToId := replyToId; b_activityId := None;
     b_conversationId := conversationId;
     b_conversation := act_conversation a;
     b_channelData := act_channelData a; b_timestamp := act_timestamp a |}.

Definition reaction_body (a : Activity) (action : string)
    (reaction : MessageReaction) : Body :=
  {| b_type := "reaction"; b_action := Some action;
     b_reactionType := reaction_type reaction;
     b_actionId := None; b_actionData := None;
     b_activity := a; b_text := None; b_from := act_from a;
     b_replyToId := None; b_activityId := act_replyToId a;
     b_conversationId := conversation_id a; b_conversation := None;
     b_channelData := act_channelData a; b_timestamp := act_timestamp a |}.

Definition invoke_body (a : Activity) : Body :=
  {| b_type := "action"; b_action := None; b_reactionType := None;
     b_actionId := act_name a;
     b_actionData :=
       Some (if JS.truthy_value (act_value a)
             then default (JS.VObj []) (act_value a) else JS.VObj []);
     b_activity := a; b_text := None; b_from := act_from a;
     b_replyToId := None; b_activityId := act_replyToId a;
     b_conversationId := conversation_id a; b_conversation := None;
     b_channelData := None; b_timestamp := act_timestamp a |}.

(** The first half of [handleMessageActivity]: the mention route. *)
Definition routeMention (a : Activity) : Flow unit :=
  if botMentioned a then
    let! mentionBlocks := blocks_list "mentionsSubscription" in
    if (0 <? length mentionBlocks)%nat then
      let mentionChannelId := channel_id a in
      let targetBlockIds :=
        blk_id <$>
          (filter (λ block,
                     let filterChannelId := blk_channelId block in
                     Is_true (negb (JS.truthy filterChannelId)
                              || JS.strict_eq filterChannelId mentionChannelId))
                  mentionBlocks) in
      if (0 <? length targetBlockIds)%nat
      then sendToBlocks targetBlockIds (mention_body a)
      else ret tt
    else ret tt
  else ret tt.

(** The second half of [handleMessageActivity]: the thread routes. *)
Definition routeThread (a : Activity) (botId : string) : Flow unit :=
  let replyToId := message_replyToId a in
  if JS.truthy replyToId then
    if isFromBot a botId then ret tt
    else if JS.truthy_value (act_value a) then
      let prefix := "events|" +:+ JS.interpolate replyToId +:+ "|" in
      let! subscribed := subscribedBlockIds prefix in
      if (0 <? length subscribed)%nat then
        let! sendMessageBlocks := blocks_list "sendMessage" in
        let valid := validBlockIds subscribed sendMessageBlocks in
        if (0 <? length valid)%nat
        then sendToBlocks valid (submit_body a replyToId)
        else ret tt
      else ret tt
    else
      let conversationId := conversation_id a in
      if negb (JS.truthy conversationId) then ret tt
      else
        let prefix := "replies|" +:+ JS.interpolate conversationId +:+ "|" in
        let! subscribed := subscribedBlockIds prefix in
        if (0 <? length subscribed)%nat then
          let! threadBlocks := blocks_list "threadSubscription" in
          let valid := validBlockIds subscribed threadBlocks in
          if (0 <? length valid)%nat
          then sendToBlocks valid (reply_body a replyToId conversationId)
          else ret tt
        else ret tt
  else ret tt.

Definition handleMessageActivity (a : Activity) (botId : string) : Flow unit :=
  routeMention a ;;; routeThread a botId.

Definition handleReactionActivity (a : Activity) : Flow unit :=
  let reactionsAdded := default [] (act_reactionsAdded a) in
  let reactionsRemoved := default [] (act_reactionsRemoved a) in
  let replyToId := act_replyToId a in
  if negb (JS.truthy replyToId) then ret tt
  else
    let prefix := "events|" +:+ JS.interpolate replyToId +:+ "|" in
    let! subscribed := subscribedBlockIds prefix in
    if (length subscribed =? 0)%nat then ret tt
    else
      let! reactionBlocks := blocks_list "sendMessage" in
      let valid := validBlockIds subscribed reactionBlocks in
      if (length valid =? 0)%nat then ret tt
      else
        for_of reactionsAdded
          (λ reaction, sendToBlocks valid (reaction_body a "add" reaction)) ;;;
        for_of reactionsRemoved
          (λ reaction, sendToBlocks valid (reaction_body a "remove" reaction)).

Definition handleInvokeActivity (a : Activity) : Flow unit :=
  let replyToId := act_replyToId a in
  if negb (JS.truthy replyToId) then ret tt
  else
    let prefix := "events|" +:+ JS.interpolate replyToId +:+ "|" in
    let! subscribed := subscribedBlockIds prefix in
    if (length subscribed =? 0)%nat then ret tt
    else
      let! actionBlocks := blocks_list "sendMessage" in
      let valid := validBlockIds subscribed actionBlocks in
      if (length valid =? 0)%nat then ret tt
      else sendToBlocks valid (invoke_body a).

Definition handleBotActivity (a : Activity) (appId : string) : Flow unit :=
  match act_type a with
  | Message => handleMessageActivity a appId
  | MessageReactionT => handleReactionActivity a
  | ConversationUpdate => ret tt
  | Invoke => handleInvokeActivity a
  | OtherType _ => ret tt
  end.

(** ** The outbound platform calls, as far as registration depends on them *)

(** What the remote platform answers during one [onEvent]: the outcome of
    [getBotAccessToken], the outcome of the POST of [sendMessageToChannel]
    (the [id] and [activityId] of the JSON reply, or the error text), and the
    clock. *)
Record Platform := {
  token_reply : Res string;
  post_reply : Res (string * string);
  now : string }.

Record SendResult := { activityId : string; conversationId : string }.

(** [getBotAccessToken]: the fetch either yields a token or throws. *)
Definition getBotAccessToken (p : Platform) : Flow string :=
  match token_reply p with
  | Ok t => ret t
  | Err e => throw ("Failed to get bot token: " +:+ e)
  end.

(** [sendMessageToChannel]: posts into the given conversation, or creates a
    new one when [message.conversationId] is falsy. *)
Definition sendMessageToChannel (p : Platform)
    (message_conversationId : option string) : Flow SendResult :=
  if JS.truthy message_conversationId then
    match post_reply p with
    | Ok (result_id, _) =>
        ret {| activityId := result_id;
               conversationId := JS.interpolate message_conversationId |}
    | Err e => throw ("Failed to send reply to thread: " +:+ e)
    end
  else
    match post_reply p with
    | Ok (result_id, result_activityId) =>
        ret {| activityId := result_activityId; conversationId := result_id |}
    | Err e => throw ("Failed to send message to channel: " +:+ e)
    end.

(** ** [src/blocks/messaging/sendMessage.ts] *)

Module sendMessage.

Record InputConfig := {
  cfg_channelId : string;
  cfg_text : option string;
  cfg_attachments : option (list JS.Value);
  cfg_conversationId : option string }.

(** [inputs.default.onEvent]; [block] is [input.block.id], [eventId] is
    [input.event.id]. The two writes of the [Promise.all] go to different
    stores and commute; they are sequenced here. The wrapping of the cards
    into attachments has no part in what is stored or emitted. *)
Definition onEvent (p : Platform) (block eventId : string) (cfg : InputConfig)
  : Flow unit :=
  if negb (JS.truthy (cfg_text cfg))
     && match cfg_attachments cfg with
        | None => true
        | Some cards => (length cards =? 0)%nat
        end
  then throw "Message must have either text content or adaptive cards"
  else
    let! accessToken := getBotAccessToken p in
    let! result := sendMessageToChannel p (cfg_conversationId cfg) in
    let eventsKey := "events|" +:+ activityId result +:+ "|" +:+ block in
    kv_block_set block (activityId result) eventId ;;;
    kv_app_set eventsKey true ;;;
    events_emit block
      (MessageSent (activityId result) (conversationId result)
                   (cfg_channelId cfg) (now p))
      None None.

Definition onInternalMessage (block : string) (data : Body) : Flow unit :=
  let! parentEventId := kv_block_get block (b_activityId data) in
  if negb (JS.truthy parentEventId) then ret tt
  else
    let emit_common (mk : string → option string → option string →
                          option string → option string → option string →
                          Payload) :=
      events_emit block
        (mk (b_type data) (b_from data ≫= acc_id)
            (b_from data ≫= acc_aadObjectId)
            (b_activityId data) (b_conversationId data) (b_timestamp data))
        parentEventId (Some "events") in
    (if String.eqb (b_type data) "reaction"
     then emit_common (ReactionEvent (b_reactionType data) (b_action data))
     else ret tt) ;;;
    (if String.eqb (b_type data) "action"
     then emit_common (ActionEvent (b_actionId data) (b_actionData data))
     else ret tt).

End sendMessage.

(** ** [src/blocks/subscriptions/subscribeToReplies.ts] *)

Module subscribeToReplies.

(** [inputs.subscribe.onEvent]; [conversationId] is
    [input.event.inputConfig.conversationId]. The two writes of the
    [Promise.all] go to different stores and commute; they are sequenced
    here. *)
Definition onEvent (block eventId conversationId : string) : Flow unit :=
  let appKey := "replies|" +:+ conversationId +:+ "|" +:+ block in
  kv_block_set block conversationId eventId ;;;
  kv_app_set appKey true.

Definition onInternalMessage (block : string) (replyData : Body) : Flow unit :=
  let! parentEventId := kv_block_get block (b_conversationId replyData) in
  if negb (JS.truthy parentEventId) then ret tt
  else
    events_emit block
      (ReplyEvent (b_text replyData)
         (act_attachments (b_activity replyData))
         (b_from replyData ≫= acc_id)
         (b_from replyData ≫= acc_name)
         (b_from replyData ≫= acc_aadObjectId)
         (act_id (b_activity replyData))
         (b_timestamp replyData))
      parentEventId None.

End subscribeToReplies.

(** ** [src/blocks/subscriptions/mentionsSubscription.ts] *)

Module mentionsSubscription.

Definition onInternalMessage (block : string) (mentionData : Body) : Flow unit :=
  events_emit block
    (MentionEvent (b_text mentionData)
       (act_id (b_activity mentionData))
       (b_channelData mentionData ≫= teamsChannelId)
       (act_serviceUrl (b_activity mentionData))
       (b_conversation mentionData ≫= conv_id)
       (b_from mentionData)
       (b_timestamp mentionData))
    None None.

End mentionsSubscription.

(** ** The host's side of [messaging.sendToBlocks] *)

(** The [onInternalMessage] handler of a block type, by the name the type is
    registered under in the [blocks] dictionary; the other block types have
    none. *)
Definition onInternalMessage (typeId block : string) (body : Body) : Flow unit :=
  if String.eqb typeId "sendMessage"
  then sendMessage.onInternalMessage block body
  else if String.eqb typeId "threadSubscription"
  then subscribeToReplies.onInternalMessage block body
  else if String.eqb typeId "mentionsSubscription"
  then mentionsSubscription.onInternalMessage block body
  else ret tt.

(** The host hands a body to the block with the given id. What the host
    does with an id that names no block is not in the source; it is dropped
    here. The router addresses blocks of the registry only (see
    [addressed_block]), so the case does not arise from its sends. *)
Definition deliver_to (body : Body) (i : string) : Flow unit :=
  λ w,
    match List.find (λ b, bool_decide (blk_id b = i)) (registry w) with
    | Some b => onInternalMessage (blk_typeId b) i body w
    | None => ret tt w
    end.

(** The host delivers one [sendToBlocks] call to every listed block. *)
Definition deliver (o : Out) : Flow unit :=
  match o with
  | SendToBlocks ids body => for_of ids (deliver_to body)
  | Emit _ _ _ _ => ret tt
  end.

(** One webhook delivery end to end: the router runs on the activity, then
    the host delivers the internal messages it sent, in order, in the world
    the router left. The trace holds what the blocks emit; a throw of the
    router is a throw of the whole. *)
Definition process (a : Activity) (appId : string) : Flow unit :=
  λ w,
    let o := handleBotActivity a appId w in
    let d := for_of (trace o) deliver (world o) in
    {| result := match result o with
                 | Ok _ => result d
                 | Err msg => Err msg
                 end;
       world := world d;
       trace := trace d |}.

(** * Notions used in the statements *)

Local Open Scope list_scope.
Local Open Scope nat_scope.

(** A computation that only reads the stores: it returns, and leaves the
    world as it found it. The router is one (see [handleBotActivity_quiet]). *)
Definition quiet {A} (m : Flow A) : Prop :=
  ∀ w, (∃ a, result (m w) = Ok a) ∧ world (m w) = w.

(** The blocks of one type currently in the registry. *)
Definition live (typeId : string) (w : World) : list Block :=
  filter (λ b, blk_typeId b = typeId) (registry w).

(** The subscriber segments found in the index under a key prefix. *)
Definition index_lookup (prefix : string) (index : gmap string bool)
  : list (option string) :=
  (λ p : string * bool, JS.split "|" p.1 !! 2%nat) <$>
    filter (λ p, Is_true (JS.startsWith p.1 prefix)) (map_to_list index).

(** The mention subscribers that pass the channel filter for [a]. *)
Definition mention_targets (a : Activity) (w : World) : list Block :=
  filter (λ block,
            Is_true (negb (JS.truthy (blk_channelId block))
                     || JS.strict_eq (blk_channelId block) (channel_id a)))
         (live "mentionsSubscription" w).

(** The live subscribers of one type registered under a key prefix. *)
Definition live_subscribers (prefix typeId : string) (w : World) : list string :=
  validBlockIds (index_lookup prefix (kv_app w)) (live typeId w).

(** The outcomes of the thread half of [handleMessageActivity]. *)
Inductive thread_route (a : Activity) (botId : string) (w : World)
  : list Out → Prop :=
| thread_none :
    thread_route a botId w []
| thread_action r ids :
    message_replyToId a = Some r →
    JS.truthy (Some r) = true →
    isFromBot a botId = false →
    JS.truthy_value (act_value a) = true →
    ids = live_subscribers ("events|" +:+ r +:+ "|") "sendMessage" w →
    ids ≠ [] →
    thread_route a botId w [SendToBlocks ids (submit_body a (Some r))]
| thread_reply r c ids :
    message_replyToId a = Some r →
    JS.truthy (Some r) = true →
    isFromBot a botId = false →
    JS.truthy_value (act_value a) = false →
    conversation_id a = Some c →
    JS.truthy (Some c) = true →
    ids = live_subscribers ("replies|" +:+ c +:+ "|") "threadSubscription" w →
    ids ≠ [] →
    thread_route a botId w [SendToBlocks ids (reply_body a (Some r) (Some c))].

(** One fan-out: every body goes, in order, to all of [ids]; with no
    recipient nothing is sent. *)
Definition dispatch (ids : list string) (bodies : list Body) : list Out :=
  match ids with
  | [] => []
  | _ => SendToBlocks ids <$> bodies
  end.

(** The mention fan-out of a message: to the mention subscribers that pass
    the channel filter, when the message mentions a bot. *)
Definition mention_dispatch (a : Activity) (w : World) : list Out :=
  if botMentioned a
  then dispatch (blk_id <$> mention_targets a w) [mention_body a]
  else [].

(** The per-recipient deliveries of a trace: [sendToBlocks] hands its body
    to every listed block id, in order. *)
Definition deliveries (t : list Out) : list (string * Body) :=
  t ≫= λ o,
    match o with
    | SendToBlocks ids body => (λ i, (i, body)) <$> ids
    | Emit _ _ _ _ => []
    end.

(** Is [o] an internal message whose [body.type] is [ty]? *)
Definition is_sent (ty : string) (o : Out) : bool :=
  match o with
  | SendToBlocks _ body => String.eqb (b_type body) ty
  | Emit _ _ _ _ => false
  end.

(** How many internal messages of type [ty] a trace holds. *)
Definition sent_count (ty : string) (t : list Out) : nat :=
  length (filter (λ o, Is_true (is_sent ty o)) t).

(** A run that does nothing: it returns, writes nothing and hands nothing
    to the host. *)
Definition noop (w : World) : Outcome unit :=
  {| result := Ok tt; world := w; trace := [] |}.

(** [s] holds no [|], the separator of the index keys. *)
Fixpoint pipe_free (s : string) : bool :=
  match s with
  | EmptyString => true
  | String c s' => negb (Ascii.eqb c "|") && pipe_free s'
  end.

(** The serialized correlation key [namespace|anchor|subscriber]. *)
Definition subscription_key (ns anchor subscriber : string) : string :=
  ns +:+ "|" +:+ anchor +:+ "|" +:+ subscriber.

(** An index all of whose keys were built from three [|]-free parts. *)
Definition wf_index (index : gmap string bool) : Prop :=
  ∀ k v, index !! k = Some v →
    ∃ ns anchor subscriber,
      k = subscription_key ns anchor subscriber ∧
      pipe_free ns = true ∧ pipe_free anchor = true ∧
      pipe_free subscriber = true.

(** The event a message-sender block [i] emits for one reaction change of
    [a], as a child of the event it has on record for the reacted message. *)
Definition reaction_event (a : Activity) (action : string)
    (r : MessageReaction) (w : World) (i : string) : Out :=
  Emit i
    (ReactionEvent (reaction_type r) (Some action) "reaction"
       (from_id a) (act_from a ≫= acc_aadObjectId)
       (act_replyToId a) (conversation_id a) (act_timestamp a))
    (act_replyToId a ≫= λ k, block_store w i !! k) (Some "events").

(** ** Sample data for the scenarios *)

Definition account (i : string) : ChannelAccount :=
  {| acc_id := Some i; acc_name := None; acc_aadObjectId := None |}.

Definition mention_of (i : string) : Entity :=
  {| ent_type := Some "mention"; ent_mentioned := Some (account i) |}.

Definition reaction (ty : string) : MessageReaction :=
  {| reaction_type := Some ty |}.

Definition sample_activity (kind : ActivityType)
    (i replyTo conv : option string) (sender : string)
    (v : option JS.Value) (ents : list Entity) (channel : option string)
    (added removed : list MessageReaction) : Activity :=
  {| act_type := kind; act_id := i; act_replyToId := replyTo;
     act_conversation := Some {| conv_id := conv |};
     act_from := Some (account sender);
     act_text := Some "hello"; act_value := v; act_name := None;
     act_entities := Some ents;
     act_channelData := Some {| teamsChannelId := channel |};
     act_reactionsAdded := Some added; act_reactionsRemoved := Some removed;
     act_timestamp := Some "2025-01-01T00:00:00Z";
     act_attachments := None; act_serviceUrl := None |}.

Definition block_of (i ty : string) (channel : option string) : Block :=
  {| blk_id := i; blk_typeId := ty; blk_channelId := channel |}.

(** A host with one block of each subscribing type and empty stores. *)
Definition fresh_world : World :=
  {| kv_app := ∅; kv_block := ∅;
     registry := [block_of "S1" "sendMessage" None;
                  block_of "S2" "sendMessage" None;
                  block_of "T1" "threadSubscription" None;
                  block_of "M1" "mentionsSubscription" (Some "19:abc");
                  block_of "M2" "mentionsSubscription" None] |}.

(** The platform accepts the message and names it activity [7]. *)
Definition platform_ok : Platform :=
  {| token_reply := Ok "token"; post_reply := Ok ("conv1", "7");
     now := "2025-01-01T00:00:00Z" |}.

Definition text_message : sendMessage.InputConfig :=
  {| sendMessage.cfg_channelId := "19:abc";
     sendMessage.cfg_text := Some "deploy?";
     sendMessage.cfg_attachments := None;
     sendMessage.cfg_conversationId := None |}.

(** The host after the block [i] was deleted: the registry forgets it, the
    stores keep what it wrote. *)
Definition delete_block (i : string) (w : World) : World :=
  {| kv_app := kv_app w; kv_block := kv_block w;
     registry := filter (λ b, blk_id b ≠ i) (registry w) |}.

(** Both message senders have sent a message the platform named [7]. *)
Definition two_senders_world : World :=
  world (sendMessage.onEvent platform_ok "S2" "evtB" text_message
           (world (sendMessage.onEvent platform_ok "S1" "evtA" text_message
                     fresh_world))).

(** A [like] added to message [7]. *)
Definition like_on_7 : Activity :=
  sample_activity MessageReactionT (Some "9") (Some "7") (Some "conv1")
    "user1" None [] None [reaction "like"] [].

(** * The other blocks and the HTTP endpoint *)

(** ** Effects beyond the router's: changed-message events and responses *)

(** The body of [http.respond]. *)
Inductive ResponseBody :=
| EmptyBody
| ErrorBody (error : string)
| ManifestZip (appId : string).

(** What the app hands to the host: the effects of the router and of the
    subscribing blocks ([Routed]), the event of the update and delete blocks
    ([events.emit({ activityId, conversationId, timestamp })]), and
    [http.respond(requestId, { statusCode, body })]. *)
Inductive AppOut :=
| Routed (o : Out)
| EmitChanged (block activityId conversationId timestamp : string)
| Respond (statusCode : nat) (body : ResponseBody).

Record AppOutcome (A : Type) := {
  app_result : Res A;
  app_world : World;
  app_trace : list AppOut }.
Arguments app_result {A} _.
Arguments app_world {A} _.
Arguments app_trace {A} _.

Definition App (A : Type) : Type := World → AppOutcome A.

Definition app_ret {A} (a : A) : App A :=
  λ w, {| app_result := Ok a; app_world := w; app_trace := [] |}.

Definition app_throw {A} (msg : string) : App A :=
  λ w, {| app_result := Err msg; app_world := w; app_trace := [] |}.

Definition app_bind {A B} (m : App A) (k : A → App B) : App B :=
  λ w,
    let o := m w in
    match app_result o with
    | Ok a =>
        let o' := k a (app_world o) in
        {| app_result := app_result o'; app_world := app_world o';
           app_trace := app_trace o ++ app_trace o' |}
    | Err msg =>
        {| app_result := Err msg; app_world := app_world o;
           app_trace := app_trace o |}
    end.

Notation "'run!' x ':=' m 'in' k" := (app_bind m (λ x, k))
  (at level 10, x name, m at level 100, k at level 200, only parsing).
Notation "m 'then!' k" := (app_bind m (λ _, k))
  (at level 100, right associativity, only parsing).

(** A computation of the router or of a subscribing block, run as part of
    the app. *)
Definition lift {A} (m : Flow A) : App A :=
  λ w, let o := m w in
       {| app_result := result o; app_world := world o;
          app_trace := Routed <$> trace o |}.

(** [events.emit({ activityId, conversationId, timestamp })] from [block]. *)
Definition emit_changed (block activityId conversationId timestamp : string)
  : App unit :=
  λ w, {| app_result := Ok tt; app_world := w;
          app_trace := [EmitChanged block activityId conversationId timestamp] |}.

(** [http.respond(input.request.requestId, { statusCode, body })] *)
Definition respond (statusCode : nat) (body : ResponseBody) : App unit :=
  λ w, {| app_result := Ok tt; app_world := w;
          app_trace := [Respond statusCode body] |}.

(** [updateBotMessage]: the PUT either succeeds or throws with the error
    text of the reply. *)
Definition updateBotMessage (put_reply : Res unit) : App unit :=
  match put_reply with
  | Ok _ => app_ret tt
  | Err e => app_throw ("Failed to update message: " +:+ e)
  end.

(** [deleteBotMessage]: the DELETE either succeeds or throws with the error
    text of the reply. *)
Definition deleteBotMessage (delete_reply : Res unit) : App unit :=
  match delete_reply with
  | Ok _ => app_ret tt
  | Err e => app_throw ("Failed to delete message: " +:+ e)
  end.

(** ** The block [updateMessage] *)

Module updateMessage.

Record InputConfig := {
  cfg_conversationId : string;
  cfg_activityId : string;
  cfg_text : option string;
  cfg_attachments : option (list JS.Value) }.

(** [inputs.default.onEvent]; [put_reply] is the platform's answer to the
    PUT. The token is fetched before the content is validated. *)
Definition onEvent (p : Platform) (put_reply : Res unit) (block : string)
    (cfg : InputConfig) : App unit :=
  run! accessToken := lift (getBotAccessToken p) in
  if negb (JS.truthy (cfg_text cfg))
     && match cfg_attachments cfg with
        | None => true
        | Some cards => (length cards =? 0)%nat
        end
  then app_throw
         "Updated message must have either text content or adaptive cards"
  else
    updateBotMessage put_reply then!
    emit_changed block (cfg_activityId cfg) (cfg_conversationId cfg) (now p).

End updateMessage.

(** ** The block [deleteMessage] *)

Module deleteMessage.

Record InputConfig := {
  cfg_conversationId : string;
  cfg_activityId : string }.

(** [inputs.default.onEvent]; [delete_reply] is the platform's answer to
    the DELETE. *)
Definition onEvent (p : Platform) (delete_reply : Res unit) (block : string)
    (cfg : InputConfig) : App unit :=
  run! accessToken := lift (getBotAccessToken p) in
  deleteBotMessage delete_reply then!
  emit_changed block (cfg_activityId cfg) (cfg_conversationId cfg) (now p).

End deleteMessage.

(** ** The HTTP endpoint of the app *)

Module Http.

(** [s.endsWith(suffix)] *)
Fixpoint endsWith (s suffix : string) : bool :=
  String.eqb s suffix ||
  match s with
  | EmptyString => false
  | String _ s' => endsWith s' suffix
  end.

(** [input.request]; the body is what the caller sent, parsed: [None] is a
    request without a JSON body ([undefined] or [null]). *)
Record Request := {
  req_path : string;
  req_headers : gmap string string;
  req_body : option Activity }.

(** [verifyBotFrameworkRequest]: a header that starts with ["Bearer "] is
    accepted; the token and the expected app id are not looked at. *)
Definition verifyBotFrameworkRequest (authHeader _expectedAppId : string)
  : bool :=
  JS.startsWith authHeader "Bearer ".

(** [input.request.headers["authorization"] ||
    input.request.headers["Authorization"]] *)
Definition authHeader (req : Request) : option string :=
  if JS.truthy (req_headers req !! "authorization")
  then req_headers req !! "authorization"
  else req_headers req !! "Authorization".

(** [http.onRequest]; [icons_ok] tells whether both icon downloads of the
    manifest endpoint succeed, [appId] is [input.app.config.appId]. The body
    goes to [handleBotActivity] as it is: the [activity.type] of its [switch]
    throws a [TypeError] on a missing body, before anything is routed and
    before [http.respond]. *)
Definition onRequest (icons_ok : bool) (appId : string) (req : Request)
  : App unit :=
  let requestPath := req_path req in
  if String.eqb requestPath "/messages" || endsWith requestPath "/messages"
  then
    if negb (JS.truthy (authHeader req))
    then respond 401 (ErrorBody "Missing authorization")
    else if negb (verifyBotFrameworkRequest (JS.interpolate (authHeader req))
                    appId)
    then respond 403 (ErrorBody "Invalid authorization")
    else
      match req_body req with
      | None =>
          app_throw
            "TypeError: Cannot read properties of undefined (reading 'type')"
      | Some activity =>
          lift (handleBotActivity activity appId) then!
          respond 200 EmptyBody
      end
  else if String.eqb requestPath "/manifest.zip"
          || endsWith requestPath "/manifest.zip"
  then
    if icons_ok then respond 200 (ManifestZip appId)
    else app_throw "Failed to download icons from GitHub"
  else respond 404 (ErrorBody "Endpoint not found").

End Http.

(** ** Notions used in the further statements *)

(** The status codes of the responses in a trace. *)
Definition responses (t : list AppOut) : list nat :=
  t ≫= λ o, match o with Respond status _ => [status] | _ => [] end.

(** The router's and blocks' effects in a trace. *)
Definition routed (t : list AppOut) : list Out :=
  t ≫= λ o, match o with Routed o' => [o'] | _ => [] end.

(** Every character of [s] is a decimal digit. *)
Fixpoint all_digits (s : string) : bool :=
  match s with
  | EmptyString => true
  | String c s' => JS.is_digit c && all_digits s'
  end.

(** [s] does not begin with a decimal digit. *)
Definition no_leading_digit (s : string) : bool :=
  match s with
  | EmptyString => true
  | String c _ => negb (JS.is_digit c)
  end.

(** The event a mention subscriber [i] emits for the mention [a]. *)
Definition mention_event (a : Activity) (i : string) : Out :=
  Emit i
    (MentionEvent (act_text a) (act_id a) (channel_id a) (act_serviceUrl a)
       (conversation_id a) (act_from a) (act_timestamp a))
    None None.

(** An empty update: neither text nor cards. *)
Definition empty_update : updateMessage.InputConfig :=
  {| updateMessage.cfg_conversationId := "conv1";
     updateMessage.cfg_activityId := "7";
     updateMessage.cfg_text := None;
     updateMessage.cfg_attachments := Some [] |}.

(** An empty message: neither text nor cards. *)
Definition empty_message : sendMessage.InputConfig :=
  {| sendMessage.cfg_channelId := "19:abc";
     sendMessage.cfg_text := Some "";
     sendMessage.cfg_attachments := None;
     sendMessage.cfg_conversationId := None |}.

(** The token endpoint refuses. *)
Definition platform_down : Platform :=
  {| token_reply := Err "invalid_client"; post_reply := Err "unreachable";
     now := "2025-01-01T00:00:00Z" |}.

(** A request with one header and the activity [a] as its body. *)
Definition request_with (path key value : string) (a : Activity)
  : Http.Request :=
  {| Http.req_path := path; Http.req_headers := {[key := value]};
     Http.req_body := Some a |}.

(** A request with one header and no body. *)
Definition request_without_body (path key value : string) : Http.Request :=
  {| Http.req_path := path; Http.req_headers := {[key := value]};
     Http.req_body := None |}.

(** An index in which every key was built from three [|]-free parts and
    whose subscriber has a parent event on record for the anchor. *)
Definition coherent (w : World) : Prop :=
  ∀ k v, kv_app w !! k = Some v →
    ∃ ns anchor block,
      k = subscription_key ns anchor block ∧
      pipe_free ns = true ∧ pipe_free anchor = true ∧
      pipe_free block = true ∧
      is_Some (block_store w block !! anchor).

(** * Properties *)

(** ** The monad *)

Section FlowLaws.
Context {A B : Type}.

Lemma bind_ok (m : Flow A) (k : A → Flow B) w a :
  result (m w) = Ok a →
  bind m k w =
    {| result := result (k a (world (m w)));
       world := world (k a (world (m w)));
       trace := trace (m w) ++ trace (k a (world (m w))) |}.
Proof. intros H. unfold bind. by rewrite H. Qed.

Lemma bind_ret_l (a : A) (k : A → Flow B) w : bind (ret a) k w = k a w.
Proof. unfold bind, ret; simpl. by destruct (k a w). Qed.

Lemma bind_pure (m : Flow A) (k : A → Flow B) w a :
  m w = ret a w → bind m k w = k a w.
Proof. intros H. unfold bind. rewrite H; simpl. by destruct (k a w). Qed.
End FlowLaws.

Lemma quiet_ret {A} (a : A) : quiet (ret a).
Proof. intros w; simpl; eauto. Qed.

Lemma quiet_bind {A B} (m : Flow A) (k : A → Flow B) :
  quiet m → (∀ a, quiet (k a)) → quiet (bind m k).
Proof.
  intros Hm Hk w. destruct (Hm w) as [[a Ha] Hw].
  rewrite (bind_ok _ _ _ _ Ha); simpl. rewrite Hw. apply Hk.
Qed.

Lemma quiet_for_of {A} (xs : list A) body :
  (∀ x, quiet (body x)) → quiet (for_of xs body).
Proof.
  intros Hb. induction xs as [|x xs IH]; simpl.
  - apply quiet_ret.
  - apply quiet_bind; auto.
Qed.

Lemma blocks_list_live typeId w :
  blocks_list typeId w = ret (live typeId w) w.
Proof. reflexivity. Qed.

Lemma subscribedBlockIds_lookup prefix w :
  subscribedBlockIds prefix w = ret (index_lookup prefix (kv_app w)) w.
Proof. reflexivity. Qed.

Lemma elem_of_validBlockIds i subscribed existing :
  i ∈ validBlockIds subscribed existing ↔
  Some i ∈ subscribed ∧ ∃ b, b ∈ existing ∧ blk_id b = i.
Proof.
  unfold validBlockIds. rewrite list_elem_of_omap. split.
  - intros ([j|] & Hin & Hj); simpl in Hj; [|done].
    case_bool_decide as Hex; simplify_eq.
    split; [done|]. apply list_elem_of_fmap in Hex as (b & -> & Hb). eauto.
  - intros (Hin & b & Hb & <-). exists (Some (blk_id b)). split; [done|].
    simpl. rewrite bool_decide_eq_true_2; [done|].
    apply list_elem_of_fmap. eauto.
Qed.

Lemma length_pos_false {A} (l : list A) :
  (0 <? length l)%nat = false ↔ l = [].
Proof. destruct l; simpl; split; intros; done. Qed.

Lemma length_zero_true {A} (l : list A) :
  (length l =? 0)%nat = true ↔ l = [].
Proof. destruct l; simpl; split; intros; done. Qed.

(** ** What one run of the router sends *)

Lemma for_of_send {A} (xs : list A) ids (f : A → Body) w :
  for_of xs (λ x, sendToBlocks ids (f x)) w =
    {| result := Ok tt; world := w;
       trace := (λ x, SendToBlocks ids (f x)) <$> xs |}.
Proof.
  induction xs as [|x xs IH]; simpl; [done|].
  unfold bind; simpl. by rewrite IH.
Qed.

Lemma routeMention_run a w :
  routeMention a w =
    {| result := Ok tt; world := w;
       trace :=
         if botMentioned a then
           match mention_targets a w with
           | [] => []
           | _ => [SendToBlocks (blk_id <$> mention_targets a w) (mention_body a)]
           end
         else [] |}.
Proof.
  unfold routeMention, mention_targets.
  destruct (botMentioned a); [|done].
  rewrite (bind_pure _ _ _ _ (blocks_list_live _ _)).
  destruct (0 <? length (live "mentionsSubscription" w))%nat eqn:Hlive.
  - destruct (filter _ (live "mentionsSubscription" w)) as [|b bs]; done.
  - apply length_pos_false in Hlive. by rewrite Hlive.
Qed.

Lemma truthy_Some o : JS.truthy o = true → ∃ s, o = Some s.
Proof. destruct o; [eauto|done]. Qed.

Lemma routeThread_run a botId w :
  result (routeThread a botId w) = Ok tt ∧
  world (routeThread a botId w) = w ∧
  thread_route a botId w (trace (routeThread a botId w)).
Proof.
  unfold routeThread.
  destruct (JS.truthy (message_replyToId a)) eqn:Hr;
    [|repeat split; constructor].
  destruct (truthy_Some _ Hr) as [r Hr']. rewrite Hr' in *.
  destruct (isFromBot a botId) eqn:Hbot; [repeat split; constructor|].
  destruct (JS.truthy_value (act_value a)) eqn:Hval.
  - rewrite (bind_pure _ _ _ _ (subscribedBlockIds_lookup _ _)).
    destruct (0 <? length _)%nat eqn:Hsub; [|repeat split; constructor].
    rewrite (bind_pure _ _ _ _ (blocks_list_live _ _)).
    destruct (0 <? length (validBlockIds _ _))%nat eqn:Hvalid;
      [|repeat split; constructor].
    repeat split. simpl. eapply thread_action; eauto.
    intros Hnil. unfold live_subscribers in Hnil.
    cbn [JS.interpolate] in Hvalid. by rewrite Hnil in Hvalid.
  - destruct (JS.truthy (conversation_id a)) eqn:Hc; cbn [negb];
      [|repeat split; constructor].
    destruct (truthy_Some _ Hc) as [c Hc']. rewrite Hc' in *.
    rewrite (bind_pure _ _ _ _ (subscribedBlockIds_lookup _ _)).
    destruct (0 <? length _)%nat eqn:Hsub; [|repeat split; constructor].
    rewrite (bind_pure _ _ _ _ (blocks_list_live _ _)).
    destruct (0 <? length (validBlockIds _ _))%nat eqn:Hvalid;
      [|repeat split; constructor].
    repeat split. simpl. eapply thread_reply; eauto.
    intros Hnil. unfold live_subscribers in Hnil.
    cbn [JS.interpolate] in Hvalid. by rewrite Hnil in Hvalid.
Qed.

Lemma handleMessageActivity_run a botId w :
  result (handleMessageActivity a botId w) = Ok tt ∧
  world (handleMessageActivity a botId w) = w ∧
  trace (handleMessageActivity a botId w) =
    trace (routeMention a w) ++ trace (routeThread a botId w).
Proof.
  unfold handleMessageActivity, bind.
  destruct (routeThread_run a botId w) as (Hres & Hw & _).
  rewrite routeMention_run; cbn [result world trace].
  by rewrite Hres, Hw.
Qed.

Lemma handleReactionActivity_run a w :
  handleReactionActivity a w =
    {| result := Ok tt; world := w;
       trace :=
         if JS.truthy (act_replyToId a) then
           let ids :=
             live_subscribers
               ("events|" +:+ JS.interpolate (act_replyToId a) +:+ "|")
               "sendMessage" w in
           match ids with
           | [] => []
           | _ =>
               ((λ r, SendToBlocks ids (reaction_body a "add" r)) <$>
                  default [] (act_reactionsAdded a)) ++
               ((λ r, SendToBlocks ids (reaction_body a "remove" r)) <$>
                  default [] (act_reactionsRemoved a))
           end
         else [] |}.
Proof.
  unfold handleReactionActivity, live_subscribers.
  destruct (JS.truthy (act_replyToId a)); cbn [negb]; [|done].
  rewrite (bind_pure _ _ _ _ (subscribedBlockIds_lookup _ _)).
  destruct (length _ =? 0)%nat eqn:Hsub.
  { apply length_zero_true in Hsub. by rewrite Hsub. }
  rewrite (bind_pure _ _ _ _ (blocks_list_live _ _)).
  destruct (validBlockIds _ _) as [|i ids] eqn:Hvalid; [done|].
  cbn [length Nat.eqb]. unfold bind.
  by rewrite !(for_of_send _ _ (reaction_body a _)).
Qed.

Lemma handleInvokeActivity_run a w :
  handleInvokeActivity a w =
    {| result := Ok tt; world := w;
       trace :=
         if JS.truthy (act_replyToId a) then
           let ids :=
             live_subscribers
               ("events|" +:+ JS.interpolate (act_replyToId a) +:+ "|")
               "sendMessage" w in
           match ids with
           | [] => []
           | _ => [SendToBlocks ids (invoke_body a)]
           end
         else [] |}.
Proof.
  unfold handleInvokeActivity, live_subscribers.
  destruct (JS.truthy (act_replyToId a)); cbn [negb]; [|done].
  rewrite (bind_pure _ _ _ _ (subscribedBlockIds_lookup _ _)).
  destruct (length _ =? 0)%nat eqn:Hsub.
  { apply length_zero_true in Hsub. by rewrite Hsub. }
  rewrite (bind_pure _ _ _ _ (blocks_list_live _ _)).
  by destruct (validBlockIds _ _) as [|i ids] eqn:Hvalid.
Qed.

(** The router only reads: it never throws and never writes a store. *)
Lemma handleBotActivity_quiet a appId : quiet (handleBotActivity a appId).
Proof.
  intros w. unfold handleBotActivity. destruct (act_type a).
  - destruct (handleMessageActivity_run a appId w) as (-> & -> & _); eauto.
  - rewrite handleReactionActivity_run; simpl; eauto.
  - simpl; eauto.
  - rewrite handleInvokeActivity_run; simpl; eauto.
  - simpl; eauto.
Qed.

(** The traces of the routes, as fan-outs to the live subscribers. *)
Lemma routeMention_dispatch a w :
  trace (routeMention a w) = mention_dispatch a w.
Proof.
  rewrite routeMention_run. cbn [trace]. unfold mention_dispatch, dispatch.
  destruct (botMentioned a); [|done]. by destruct (mention_targets a w).
Qed.

Lemma routeThread_action_run a botId w r :
  message_replyToId a = Some r → JS.truthy (Some r) = true →
  isFromBot a botId = false → JS.truthy_value (act_value a) = true →
  trace (routeThread a botId w) =
    dispatch (live_subscribers ("events|" +:+ r +:+ "|") "sendMessage" w)
      [submit_body a (Some r)].
Proof.
  intros Hr Htr Hbot Hval. unfold routeThread.
  rewrite Hr, Htr, Hbot, Hval. cbn [JS.interpolate].
  rewrite (bind_pure _ _ _ _ (subscribedBlockIds_lookup _ _)).
  unfold live_subscribers, dispatch.
  destruct (index_lookup _ _) as [|o l] eqn:Hlookup; [done|].
  cbn [length Nat.ltb Nat.leb].
  rewrite (bind_pure _ _ _ _ (blocks_list_live _ _)).
  by destruct (validBlockIds _ _).
Qed.

Lemma routeThread_reply_run a botId w r c :
  message_replyToId a = Some r → JS.truthy (Some r) = true →
  isFromBot a botId = false → JS.truthy_value (act_value a) = false →
  conversation_id a = Some c → JS.truthy (Some c) = true →
  trace (routeThread a botId w) =
    dispatch (live_subscribers ("replies|" +:+ c +:+ "|") "threadSubscription" w)
      [reply_body a (Some r) (Some c)].
Proof.
  intros Hr Htr Hbot Hval Hc Htc. unfold routeThread.
  rewrite Hr, Htr, Hbot, Hval, Hc, Htc. cbn [negb JS.interpolate].
  rewrite (bind_pure _ _ _ _ (subscribedBlockIds_lookup _ _)).
  unfold live_subscribers, dispatch.
  destruct (index_lookup _ _) as [|o l] eqn:Hlookup; [done|].
  cbn [length Nat.ltb Nat.leb].
  rewrite (bind_pure _ _ _ _ (blocks_list_live _ _)).
  by destruct (validBlockIds _ _).
Qed.

Lemma handleMessageActivity_trace a botId w :
  trace (handleMessageActivity a botId w) =
    mention_dispatch a w ++ trace (routeThread a botId w).
Proof.
  destruct (handleMessageActivity_run a botId w) as (_ & _ & ->).
  by rewrite routeMention_dispatch.
Qed.

Lemma handleReactionActivity_dispatch a w r :
  act_replyToId a = Some r → JS.truthy (Some r) = true →
  trace (handleReactionActivity a w) =
    dispatch (live_subscribers ("events|" +:+ r +:+ "|") "sendMessage" w)
      ((reaction_body a "add" <$> default [] (act_reactionsAdded a)) ++
       (reaction_body a "remove" <$> default [] (act_reactionsRemoved a))).
Proof.
  intros Hr Htr. rewrite handleReactionActivity_run. cbn [trace].
  rewrite Hr, Htr. cbn [JS.interpolate]. cbn zeta. unfold dispatch.
  destruct (live_subscribers _ _ _); [done|].
  by rewrite fmap_app, <- !list_fmap_compose.
Qed.

Lemma handleInvokeActivity_dispatch a w r :
  act_replyToId a = Some r → JS.truthy (Some r) = true →
  trace (handleInvokeActivity a w) =
    dispatch (live_subscribers ("events|" +:+ r +:+ "|") "sendMessage" w)
      [invoke_body a].
Proof.
  intros Hr Htr. rewrite handleInvokeActivity_run. cbn [trace].
  rewrite Hr, Htr. cbn [JS.interpolate]. cbn zeta. unfold dispatch.
  by destruct (live_subscribers _ _ _).
Qed.

(** ** Reactions and card invokes without an explicit reply target *)

(** The [;messageid=] fallback lives in the message handler only. *)
Example message_fallback_applies :
  message_replyToId
    (sample_activity Message (Some "43") None
       (Some "19:abc@thread.tacv2;messageid=42") "user1" None [] None [] [])
  = Some "42".
Proof. reflexivity. Qed.

(** C10. For a reaction or an invoke activity whose [replyToId] is absent
    (or empty) the router does nothing at all, whatever the conversation id
    holds: the [;messageid=<digits>] fallback is not consulted. *)
Theorem fallback_only_for_messages (a : Activity) (appId : string) (w : World) :
  act_type a = MessageReactionT ∨ act_type a = Invoke →
  JS.truthy (act_replyToId a) = false →
  handleBotActivity a appId w = noop w.
Proof.
  intros [Hty|Hty] Hreply; unfold handleBotActivity; rewrite Hty.
  - rewrite handleReactionActivity_run. by rewrite Hreply.
  - rewrite handleInvokeActivity_run. by rewrite Hreply.
Qed.

Lemma fallback_only_for_messages_witness :
  let a := sample_activity MessageReactionT (Some "43") None
             (Some "19:abc@thread.tacv2;messageid=42") "user1" None [] None
             [reaction "like"] [] in
  JS.match_messageid "19:abc@thread.tacv2;messageid=42" = Some "42" ∧
  handleBotActivity a "bot" fresh_world = noop fresh_world.
Proof.
  split; [reflexivity|].
  apply fallback_only_for_messages; [left; reflexivity | reflexivity].
Defined.

(** ** The parent-event mapping of a block *)

Lemma kv_block_get_run block key w :
  kv_block_get block key w = ret (key ≫= λ k, block_store w block !! k) w.
Proof. reflexivity. Qed.

(** C7. When the block has no originating event recorded for the anchor of
    an incoming internal message, [onInternalMessage] of [sendMessage] and of
    [subscribeToReplies] emits nothing, writes nothing and does not throw;
    and a block that never registered anything resolves every anchor to
    absent. *)
Theorem absent_parent_is_noop (block : string) (data : Body) (w : World) :
  (result (kv_block_get block (b_activityId data) w) = Ok None →
   sendMessage.onInternalMessage block data w = noop w) ∧
  (result (kv_block_get block (b_conversationId data) w) = Ok None →
   subscribeToReplies.onInternalMessage block data w = noop w) ∧
  (kv_block w !! block = None →
   ∀ anchor, result (kv_block_get block anchor w) = Ok None).
Proof.
  repeat split.
  - intros Habs. unfold sendMessage.onInternalMessage.
    rewrite (bind_pure _ _ _ _ (kv_block_get_run _ _ _)).
    rewrite kv_block_get_run in Habs; simpl in Habs.
    injection Habs as ->. reflexivity.
  - intros Habs. unfold subscribeToReplies.onInternalMessage.
    rewrite (bind_pure _ _ _ _ (kv_block_get_run _ _ _)).
    rewrite kv_block_get_run in Habs; simpl in Habs.
    injection Habs as ->. reflexivity.
  - intros Hnone anchor. rewrite kv_block_get_run; simpl.
    unfold block_store. rewrite Hnone; simpl.
    destruct anchor as [k|]; simpl; [by rewrite lookup_empty | done].
Qed.

Lemma absent_parent_is_noop_witness :
  let reply := sample_activity Message (Some "5") (Some "3") (Some "conv1")
                 "user1" None [] None [] [] in
  let on_7 := reaction_body like_on_7 "add" (reaction "like") in
  let in_conv1 := reply_body reply (Some "3") (Some "conv1") in
  sendMessage.onInternalMessage "S1" on_7 fresh_world = noop fresh_world ∧
  subscribeToReplies.onInternalMessage "T1" in_conv1 fresh_world
    = noop fresh_world ∧
  result (kv_block_get "S1" (Some "7") fresh_world) = Ok None.
Proof.
  intros reply on_7 in_conv1. split; [|split].
  - apply (proj1 (absent_parent_is_noop "S1" on_7 fresh_world)).
    reflexivity.
  - apply (proj1 (proj2 (absent_parent_is_noop "T1" in_conv1 fresh_world))).
    reflexivity.
  - apply (proj2 (proj2 (absent_parent_is_noop "S1" on_7 fresh_world))).
    reflexivity.
Defined.

(** With a parent on record the same message does produce an event. *)
Example recorded_parent_emits :
  let w := world (sendMessage.onEvent platform_ok "S1" "evtP" text_message
                    fresh_world) in
  trace (sendMessage.onInternalMessage "S1"
           (reaction_body like_on_7 "add" (reaction "like")) w)
  = [Emit "S1"
       (ReactionEvent (Some "like") (Some "add") "reaction" (Some "user1")
          None (Some "7") (Some "conv1") (Some "2025-01-01T00:00:00Z"))
       (Some "evtP") (Some "events")].
Proof. reflexivity. Qed.

(** ** Registration *)

Lemma subscribeToReplies_onEvent_run block eventId conversationId w :
  subscribeToReplies.onEvent block eventId conversationId w =
    {| result := Ok tt;
       world :=
         {| kv_app := <["replies|" +:+ conversationId +:+ "|" +:+ block := true]>
                        (kv_app w);
            kv_block := <[block := <[conversationId := eventId]>
                                     (block_store w block)]> (kv_block w);
            registry := registry w |};
       trace := [] |}.
Proof. reflexivity. Qed.

(** What a run of [sendMessage]'s [onEvent] leaves behind: either it throws
    before any write, or it records the activity id the platform returned.
    Which of the two depends on the platform's answers and on the input
    only. *)
Lemma sendMessage_onEvent_run p cfg :
  (∃ msg, ∀ block eventId w,
     sendMessage.onEvent p block eventId cfg w =
       {| result := Err msg; world := w; trace := [] |}) ∨
  (∃ r, ∀ block eventId w,
     sendMessage.onEvent p block eventId cfg w =
       {| result := Ok tt;
          world :=
            {| kv_app := <["events|" +:+ activityId r +:+ "|" +:+ block := true]>
                           (kv_app w);
               kv_block := <[block := <[activityId r := eventId]>
                                        (block_store w block)]> (kv_block w);
               registry := registry w |};
          trace := [Emit block
                      (MessageSent (activityId r) (conversationId r)
                         (sendMessage.cfg_channelId cfg) (now p))
                      None None] |}).
Proof.
  unfold sendMessage.onEvent.
  destruct (negb _ && _); [left; eauto|].
  unfold getBotAccessToken, sendMessageToChannel, bind.
  destruct (token_reply p) as [t|e]; simpl; [|left; eauto].
  destruct (JS.truthy (sendMessage.cfg_conversationId cfg));
    destruct (post_reply p) as [[rid raid]|e]; simpl;
    first [ left; eexists; reflexivity
          | right; eexists {| activityId := _; conversationId := _ |};
            reflexivity ].
Qed.

(** C1 (as the code has it). The parent-event mapping is last-write-wins:
    a registration stores its own originating event for the anchor in the
    block's scope, replacing whatever was recorded there. After two
    subscriptions of one block to one conversation the second event is the
    parent; and whenever [sendMessage] reports a sent activity, that
    activity's parent is the event that triggered this send. *)
Theorem registration_overwrites_parent :
  (∀ w block conversationId eventA eventB,
     let w1 := world (subscribeToReplies.onEvent block eventA conversationId w) in
     let w2 := world (subscribeToReplies.onEvent block eventB conversationId w1) in
     result (kv_block_get block (Some conversationId) w2) = Ok (Some eventB)) ∧
  (∀ p block eventId cfg w aid cid ch ts,
     Emit block (MessageSent aid cid ch ts) None None
       ∈ trace (sendMessage.onEvent p block eventId cfg w) →
     result (kv_block_get block (Some aid)
               (world (sendMessage.onEvent p block eventId cfg w)))
     = Ok (Some eventId)).
Proof.
  split.
  - intros w block c eA eB w1 w2. subst w1 w2.
    rewrite kv_block_get_run; simpl.
    unfold block_store at 1; simpl.
    rewrite lookup_insert_eq; simpl. by rewrite lookup_insert_eq.
  - intros p block e cfg w aid cid ch ts Hin.
    destruct (sendMessage_onEvent_run p cfg) as [[msg Hrun]|[r Hrun]];
      rewrite Hrun in *; simpl in Hin.
    + by apply elem_of_nil in Hin.
    + apply list_elem_of_singleton in Hin. injection Hin as -> _ _ _.
      rewrite kv_block_get_run; simpl. unfold block_store at 1; simpl.
      rewrite lookup_insert_eq; simpl. by rewrite lookup_insert_eq.
Qed.

Lemma registration_overwrites_parent_witness :
  let w1 := world (sendMessage.onEvent platform_ok "S1" "evtA" text_message
                     fresh_world) in
  let w2 := world (sendMessage.onEvent platform_ok "S1" "evtB" text_message w1) in
  result (kv_block_get "S1" (Some "7") w1) = Ok (Some "evtA") ∧
  result (kv_block_get "S1" (Some "7") w2) = Ok (Some "evtB").
Proof.
  intros w1 w2. split.
  - apply (proj2 registration_overwrites_parent platform_ok "S1" "evtA"
             text_message fresh_world "7" "conv1" "19:abc"
             "2025-01-01T00:00:00Z").
    apply list_elem_of_singleton. reflexivity.
  - apply (proj2 registration_overwrites_parent platform_ok "S1" "evtB"
             text_message w1 "7" "conv1" "19:abc" "2025-01-01T00:00:00Z").
    apply list_elem_of_singleton. reflexivity.
Defined.

(** C1 as stated fails: a second subscription of the same block
    to the same conversation replaces the recorded event. *)
Lemma write_once_counterexample :
  let w1 := world (subscribeToReplies.onEvent "T1" "evtA" "conv1" fresh_world) in
  let w2 := world (subscribeToReplies.onEvent "T1" "evtB" "conv1" w1) in
  result (kv_block_get "T1" (Some "conv1") w1) = Ok (Some "evtA") ∧
  result (kv_block_get "T1" (Some "conv1") w2) = Ok (Some "evtB") ∧
  result (kv_block_get "T1" (Some "conv1") w2) ≠ Ok (Some "evtA").
Proof. repeat split. discriminate. Qed.

(** ** Counting the internal messages of a run by type *)

Lemma sent_count_app ty t1 t2 :
  sent_count ty (t1 ++ t2) = sent_count ty t1 + sent_count ty t2.
Proof. unfold sent_count. by rewrite filter_app, length_app. Qed.

Lemma sent_count_fmap_other {A} ty ty' ids (f : A → Body) (xs : list A) :
  (∀ x, b_type (f x) = ty') → ty' ≠ ty →
  sent_count ty ((λ x, SendToBlocks ids (f x)) <$> xs) = 0.
Proof.
  intros Hty Hne. unfold sent_count. induction xs as [|x xs IH]; [done|].
  rewrite fmap_cons, filter_cons_False; [done|].
  simpl. rewrite Hty. by apply Is_true_false, String.eqb_neq.
Qed.

Lemma sent_count_one ty ids body :
  sent_count ty [SendToBlocks ids body] =
    if String.eqb (b_type body) ty then 1 else 0.
Proof.
  unfold sent_count. simpl. destruct (String.eqb (b_type body) ty) eqn:E.
  - rewrite filter_cons_True; [done|]. by apply Is_true_true.
  - rewrite filter_cons_False; [done|]. by apply Is_true_false.
Qed.

(** The mention half sends at most one message, of type ["mention"]. *)
Lemma routeMention_sent ty a w :
  sent_count ty (trace (routeMention a w)) =
    if String.eqb "mention" ty && botMentioned a
    then match mention_targets a w with [] => 0 | _ => 1 end
    else 0.
Proof.
  rewrite routeMention_run; cbn [trace].
  destruct (botMentioned a); [|by rewrite andb_false_r].
  rewrite andb_true_r.
  destruct (mention_targets a w); [by destruct (String.eqb "mention" ty)|].
  by rewrite sent_count_one.
Qed.

(** The thread half sends at most one message, a reply or an action. *)
Lemma routeThread_sent a botId w :
  let t := trace (routeThread a botId w) in
  sent_count "mention" t = 0 ∧ sent_count "reaction" t = 0 ∧
  sent_count "reply" t + sent_count "action" t ≤ 1 ∧
  (JS.truthy (message_replyToId a) = false →
   sent_count "reply" t = 0 ∧ sent_count "action" t = 0).
Proof.
  intros t. subst t.
  destruct (routeThread_run a botId w) as (_ & _ & Hroute).
  destruct Hroute as [|r ids Hr Htr _ _ _ _|r c ids Hr Htr _ _ _ _ _ _].
  - split_and!; [done|done|cbn; lia|done].
  - rewrite !sent_count_one. simpl.
    split_and!; [done|done|lia|]. intros Hf. rewrite Hr in Hf. congruence.
  - rewrite !sent_count_one. simpl.
    split_and!; [done|done|lia|]. intros Hf. rewrite Hr in Hf. congruence.
Qed.

(** ** Classification of a message: the self-reference guard *)

Lemma message_replyToId_self a conv messageId :
  conversation_id a = Some conv →
  JS.match_messageid conv = Some messageId →
  act_id a = Some messageId →
  message_replyToId a = act_replyToId a.
Proof.
  intros Hconv Hmatch Hid. unfold message_replyToId.
  rewrite Hconv, Hmatch, Hid. unfold JS.strict_eq.
  rewrite bool_decide_eq_true_2 by done. simpl.
  by destruct (negb _ && _ && _).
Qed.

(** C2 (as the code has it). The self-reference guard covers the reply
    target parsed from the conversation id only: a message without an
    explicit [replyToId] whose conversation id names the message itself is
    routed neither as a reply nor as an action. *)
Theorem self_reference_guard_on_fallback
    (a : Activity) (appId : string) (w : World) (conv messageId : string) :
  act_type a = Message →
  JS.truthy (act_replyToId a) = false →
  conversation_id a = Some conv →
  JS.match_messageid conv = Some messageId →
  act_id a = Some messageId →
  sent_count "reply" (trace (handleBotActivity a appId w)) = 0 ∧
  sent_count "action" (trace (handleBotActivity a appId w)) = 0.
Proof.
  intros Hty Hreply Hconv Hmatch Hid.
  unfold handleBotActivity. rewrite Hty.
  destruct (handleMessageActivity_run a appId w) as (_ & _ & ->).
  rewrite !sent_count_app, !routeMention_sent. simpl.
  destruct (routeThread_sent a appId w) as (_ & _ & _ & Hnone).
  rewrite (message_replyToId_self a conv messageId) in Hnone by done.
  destruct (Hnone Hreply) as [-> ->]. done.
Qed.

Lemma self_reference_guard_on_fallback_witness :
  let a := sample_activity Message (Some "42") None
             (Some "19:abc@thread.tacv2;messageid=42") "user1" None [] None
             [] [] in
  let w := world (subscribeToReplies.onEvent "T1" "evtP"
                    "19:abc@thread.tacv2;messageid=42" fresh_world) in
  sent_count "reply" (trace (handleBotActivity a "bot" w)) = 0 ∧
  sent_count "action" (trace (handleBotActivity a "bot" w)) = 0.
Proof.
  intros a w.
  apply (self_reference_guard_on_fallback a "bot" w
           "19:abc@thread.tacv2;messageid=42" "42"); reflexivity.
Defined.

(** C2 as stated fails for an explicit [replyToId]: a message
    that names itself as its reply target is routed as a reply, and as an
    action when it carries a value. *)
Lemma self_reference_counterexample :
  let reply := sample_activity Message (Some "5") (Some "5") (Some "conv1")
                 "user1" None [] None [] [] in
  let submit := sample_activity Message (Some "7") (Some "7") (Some "conv1")
                  "user1" (Some (JS.VObj [("approve", JS.VBool true)]))
                  [] None [] [] in
  let w1 := world (subscribeToReplies.onEvent "T1" "evtP" "conv1" fresh_world) in
  let w2 := world (sendMessage.onEvent platform_ok "S1" "evtQ" text_message w1) in
  (message_replyToId reply = act_id reply ∧
   trace (handleBotActivity reply "bot" w2) =
     [SendToBlocks ["T1"] (reply_body reply (Some "5") (Some "conv1"))]) ∧
  (message_replyToId submit = act_id submit ∧
   trace (handleBotActivity submit "bot" w2) =
     [SendToBlocks ["S1"] (submit_body submit (Some "7"))]).
Proof. vm_compute. repeat split. Qed.

(** ** Classification: which routes exclude each other *)

Lemma sent_count_two ty ids1 body1 ids2 body2 :
  sent_count ty [SendToBlocks ids1 body1; SendToBlocks ids2 body2] =
    (if String.eqb (b_type body1) ty then 1 else 0) +
    (if String.eqb (b_type body2) ty then 1 else 0).
Proof.
  change [SendToBlocks ids1 body1; SendToBlocks ids2 body2]
    with ([SendToBlocks ids1 body1] ++ [SendToBlocks ids2 body2]).
  by rewrite sent_count_app, !sent_count_one.
Qed.

Lemma dispatch_one ids body :
  ids ≠ [] → dispatch ids [body] = [SendToBlocks ids body].
Proof. by destruct ids. Qed.

(** C3 (as the code has it). One activity is fanned out at most once as a
    mention and at most once as a reply or an action, never as both of the
    latter; only messages are routed as mentions or replies and only
    reaction activities as reactions, which excludes every other route. The
    mention route is independent of the thread routes: a message that
    mentions the bot is sent to the mention subscribers that pass the
    channel filter whether or not it also has a reply target; and when it
    has one, is not from the bot and has live subscribers on the thread
    route, it is sent along both routes, first as a mention and then as an
    action (with a value) or as a reply (without). *)
Theorem routes_of_one_activity (a : Activity) (appId : string) (w : World) :
  let t := trace (handleBotActivity a appId w) in
  let mentioned := blk_id <$> mention_targets a w in
  let senders r :=
    live_subscribers ("events|" +:+ r +:+ "|") "sendMessage" w in
  let threads c :=
    live_subscribers ("replies|" +:+ c +:+ "|") "threadSubscription" w in
  sent_count "mention" t ≤ 1 ∧
  sent_count "reply" t + sent_count "action" t ≤ 1 ∧
  (act_type a ≠ Message → sent_count "mention" t = 0 ∧ sent_count "reply" t = 0) ∧
  (act_type a ≠ MessageReactionT → sent_count "reaction" t = 0) ∧
  (act_type a = MessageReactionT → sent_count "action" t = 0) ∧
  (act_type a = Message → botMentioned a = true → mention_targets a w ≠ [] →
   sent_count "mention" t = 1) ∧
  (act_type a = Message → botMentioned a = true → mention_targets a w ≠ [] →
   ∀ r, message_replyToId a = Some r → JS.truthy (Some r) = true →
        isFromBot a appId = false →
     (JS.truthy_value (act_value a) = true → senders r ≠ [] →
      t = [SendToBlocks mentioned (mention_body a);
           SendToBlocks (senders r) (submit_body a (Some r))] ∧
      sent_count "mention" t = 1 ∧ sent_count "action" t = 1) ∧
     (JS.truthy_value (act_value a) = false →
      ∀ c, conversation_id a = Some c → JS.truthy (Some c) = true →
           threads c ≠ [] →
      t = [SendToBlocks mentioned (mention_body a);
           SendToBlocks (threads c) (reply_body a (Some r) (Some c))] ∧
      sent_count "mention" t = 1 ∧ sent_count "reply" t = 1)).
Proof.
  intros t mentioned senders threads. subst t mentioned senders threads.
  unfold handleBotActivity.
  destruct (act_type a) eqn:Hty.
  - destruct (routeThread_sent a appId w) as (Hm0 & Hr0 & Hle & _).
    assert (∀ ty, sent_count ty (trace (handleMessageActivity a appId w)) =
                  sent_count ty (trace (routeMention a w)) +
                  sent_count ty (trace (routeThread a appId w))) as Hcount.
    { intros ty. destruct (handleMessageActivity_run a appId w) as (_ & _ & ->).
      apply sent_count_app. }
    split_and!.
    + rewrite Hcount, routeMention_sent, Hm0. simpl.
      destruct (botMentioned a), (mention_targets a w); simpl; lia.
    + rewrite !Hcount, !routeMention_sent. simpl. lia.
    + done.
    + intros _. rewrite Hcount, routeMention_sent, Hr0. done.
    + done.
    + intros _ Hm Hne. rewrite Hcount, routeMention_sent, Hm0, Hm. simpl.
      by destruct (mention_targets a w).
    + intros _ Hm Hne r Hr Htr Hbot.
      assert (mention_dispatch a w =
              [SendToBlocks (blk_id <$> mention_targets a w) (mention_body a)])
        as Hmention.
      { unfold mention_dispatch. rewrite Hm. apply dispatch_one.
        by destruct (mention_targets a w). }
      rewrite handleMessageActivity_trace, Hmention. split.
      * intros Hval Hlive.
        rewrite (routeThread_action_run _ _ _ r) by done.
        rewrite dispatch_one by done. cbn [app].
        by rewrite !sent_count_two.
      * intros Hval c Hc Htc Hlive.
        rewrite (routeThread_reply_run _ _ _ r c) by done.
        rewrite dispatch_one by done. cbn [app].
        by rewrite !sent_count_two.
  - rewrite handleReactionActivity_run; cbn [trace].
    destruct (JS.truthy (act_replyToId a)); [|split_and!; (done || cbn; lia)].
    cbn zeta. destruct (live_subscribers _ _ _) as [|i ids];
      [split_and!; (done || cbn; lia)|].
    rewrite !sent_count_app.
    rewrite !(sent_count_fmap_other _ "reaction") by done.
    split_and!; (done || lia).
  - split_and!; (done || cbn; lia).
  - rewrite handleInvokeActivity_run; cbn [trace].
    destruct (JS.truthy (act_replyToId a)); [|split_and!; (done || cbn; lia)].
    cbn zeta. destruct (live_subscribers _ _ _) as [|i ids];
      [split_and!; (done || cbn; lia)|].
    rewrite !sent_count_one. simpl. split_and!; (done || lia).
  - split_and!; (done || cbn; lia).
Qed.

Lemma mention_and_reply_targets :
  let a := sample_activity Message (Some "5") (Some "3") (Some "conv1")
             "user1" None [mention_of "28:bot"] (Some "19:xyz") [] [] in
  let w := world (subscribeToReplies.onEvent "T1" "evtP" "conv1" fresh_world) in
  mention_targets a w ≠ [] ∧
  live_subscribers ("replies|" +:+ "conv1" +:+ "|") "threadSubscription" w ≠ [].
Proof. vm_compute. split; discriminate. Qed.

Lemma routes_of_one_activity_witness :
  let a := sample_activity Message (Some "5") (Some "3") (Some "conv1")
             "user1" None [mention_of "28:bot"] (Some "19:xyz") [] [] in
  let w := world (subscribeToReplies.onEvent "T1" "evtP" "conv1" fresh_world) in
  let t := trace (handleBotActivity a "bot" w) in
  t = [SendToBlocks ["M2"] (mention_body a);
       SendToBlocks ["T1"] (reply_body a (Some "3") (Some "conv1"))] ∧
  sent_count "mention" t = 1 ∧ sent_count "reply" t = 1.
Proof.
  intros a w t.
  destruct (routes_of_one_activity a "bot" w) as (_ & _ & _ & _ & _ & _ & Hboth).
  destruct (Hboth eq_refl eq_refl (proj1 mention_and_reply_targets)
              "3" eq_refl eq_refl eq_refl) as [_ Hreply].
  apply (Hreply eq_refl "conv1" eq_refl eq_refl
           (proj2 mention_and_reply_targets)).
Defined.

(** C3 as stated fails: a message that mentions the bot and has
    a reply target is fanned out along the mention route and along the reply
    route. *)
Lemma exclusive_classification_counterexample :
  let a := sample_activity Message (Some "5") (Some "3") (Some "conv1")
             "user1" None [mention_of "28:bot"] (Some "19:xyz") [] [] in
  let w := world (subscribeToReplies.onEvent "T1" "evtP" "conv1" fresh_world) in
  trace (handleBotActivity a "bot" w) =
    [SendToBlocks ["M2"] (mention_body a);
     SendToBlocks ["T1"] (reply_body a (Some "3") (Some "conv1"))] ∧
  sent_count "mention" (trace (handleBotActivity a "bot" w)) = 1 ∧
  sent_count "reply" (trace (handleBotActivity a "bot" w)) = 1.
Proof. vm_compute. repeat split. Qed.

(** ** Mentions *)

(** What the mention test of the router accepts: some entity of type
    ["mention"] whose mentioned id contains ["28:"] somewhere. The bot's own
    id takes no part in it. *)
Lemma botMentioned_iff a :
  botMentioned a = true ↔
  ∃ e i, e ∈ default [] (act_entities a) ∧ ent_type e = Some "mention" ∧
         ent_mentioned e ≫= acc_id = Some i ∧ JS.includes i "28:" = true.
Proof.
  unfold botMentioned. rewrite existsb_exists. split.
  - intros (e & Hin & Hm). apply list_elem_of_In, list_elem_of_filter in Hin.
    destruct Hin as [Hty Hin]. unfold JS.strict_eq in Hty.
    apply bool_decide_unpack in Hty.
    unfold mentions_bot_prefix in Hm.
    destruct (ent_mentioned e ≫= acc_id) as [i|] eqn:Hi; [|done]. eauto 10.
  - intros (e & i & Hin & Hty & Hi & Hinc). exists e. split.
    + apply list_elem_of_In, list_elem_of_filter. split; [|done].
      unfold JS.strict_eq. by apply bool_decide_pack.
    + unfold mentions_bot_prefix. by rewrite Hi.
Qed.

(** C4 (the code at the failing inputs). A message that mentions another
    bot, or a user whose id merely contains ["28:"], is fanned out to the
    mention subscribers although the bot itself is not mentioned. *)
Theorem mention_of_another_identity_is_routed :
  let other_bot :=
    sample_activity Message (Some "5") None (Some "conv1") "user1" None
      [mention_of "28:22222222-bbbb"] (Some "19:xyz") [] [] in
  let some_user :=
    sample_activity Message (Some "6") None (Some "conv1") "user1" None
      [mention_of "29:1abc28:def"] (Some "19:xyz") [] [] in
  let appId := "11111111-aaaa" in
  trace (handleBotActivity other_bot appId fresh_world) =
    [SendToBlocks ["M2"] (mention_body other_bot)] ∧
  trace (handleBotActivity some_user appId fresh_world) =
    [SendToBlocks ["M2"] (mention_body some_user)] ∧
  JS.includes "28:22222222-bbbb" appId = false ∧
  JS.includes "29:1abc28:def" appId = false.
Proof. vm_compute. repeat split. Qed.

(** ** The liveness filter *)

Lemma elem_of_live b typeId w :
  b ∈ live typeId w ↔ b ∈ registry w ∧ blk_typeId b = typeId.
Proof. unfold live. rewrite list_elem_of_filter. tauto. Qed.

Lemma elem_of_live_subscribers i prefix typeId w :
  i ∈ live_subscribers prefix typeId w ↔
  Some i ∈ index_lookup prefix (kv_app w) ∧
  ∃ b, b ∈ registry w ∧ blk_typeId b = typeId ∧ blk_id b = i.
Proof.
  unfold live_subscribers. rewrite elem_of_validBlockIds.
  split; intros (Hin & b & Hb); split; try done; exists b.
  - destruct Hb as [Hb <-]. apply elem_of_live in Hb. tauto.
  - destruct Hb as (Hb & Hty & <-). split; [|done]. by apply elem_of_live.
Qed.

(** Every reply, action or reaction message of a run goes to the live
    subscribers under the key prefix of its own anchor. *)
Lemma dispatch_recipients a appId w ids body :
  SendToBlocks ids body ∈ trace (handleBotActivity a appId w) →
  b_type body = "mention" ∨
  (b_type body = "reply" ∧ ids ≠ [] ∧
   ids = live_subscribers
           ("replies|" +:+ JS.interpolate (b_conversationId body) +:+ "|")
           "threadSubscription" w) ∨
  ((b_type body = "action" ∨ b_type body = "reaction") ∧ ids ≠ [] ∧
   ids = live_subscribers
           ("events|" +:+ JS.interpolate (b_activityId body) +:+ "|")
           "sendMessage" w).
Proof.
  unfold handleBotActivity. destruct (act_type a).
  - destruct (handleMessageActivity_run a appId w) as (_ & _ & ->).
    rewrite elem_of_app, routeMention_run; cbn [trace]. intros [Hin|Hin].
    + left. destruct (botMentioned a); [|by apply elem_of_nil in Hin].
      destruct (mention_targets a w); [by apply elem_of_nil in Hin|].
      apply list_elem_of_singleton in Hin. by injection Hin as -> ->.
    + right. destruct (routeThread_run a appId w) as (_ & _ & Hroute).
      destruct Hroute as [|r ? Hr Htr _ _ -> Hne
                          |r c ? Hr Htr _ _ Hc _ -> Hne].
      * by apply elem_of_nil in Hin.
      * apply list_elem_of_singleton in Hin. injection Hin as -> ->.
        right. split_and!; [by left|done|done].
      * apply list_elem_of_singleton in Hin. injection Hin as -> ->.
        left. split_and!; done.
  - rewrite handleReactionActivity_run; cbn [trace]. intros Hin. right; right.
    destruct (JS.truthy (act_replyToId a)); [|by apply elem_of_nil in Hin].
    cbn zeta in Hin.
    destruct (live_subscribers _ _ _) as [|i l] eqn:Hlive;
      [by apply elem_of_nil in Hin|].
    apply elem_of_app in Hin as [Hin|Hin];
      apply list_elem_of_fmap in Hin as (r & Heq & _);
      injection Heq as -> ->; (split_and!; [by right|done|done]).
  - intros Hin. by apply elem_of_nil in Hin.
  - rewrite handleInvokeActivity_run; cbn [trace]. intros Hin. right; right.
    destruct (JS.truthy (act_replyToId a)); [|by apply elem_of_nil in Hin].
    cbn zeta in Hin.
    destruct (live_subscribers _ _ _) as [|i l] eqn:Hlive;
      [by apply elem_of_nil in Hin|].
    apply list_elem_of_singleton in Hin. injection Hin as -> ->.
    split_and!; [by left|done|done].
  - intros Hin. by apply elem_of_nil in Hin.
Qed.

(** The anchor of a reply is the conversation of the message, the anchor of
    an action or a reaction the reply target of the activity. *)
Lemma dispatch_anchor a appId w ids body :
  SendToBlocks ids body ∈ trace (handleBotActivity a appId w) →
  (b_type body = "reply" → b_conversationId body = conversation_id a) ∧
  (b_type body = "action" ∨ b_type body = "reaction" →
   b_activityId body =
     match act_type a with
     | Message => message_replyToId a
     | _ => act_replyToId a
     end).
Proof.
  unfold handleBotActivity. destruct (act_type a).
  - destruct (handleMessageActivity_run a appId w) as (_ & _ & ->).
    rewrite elem_of_app, routeMention_run; cbn [trace]. intros [Hin|Hin].
    + destruct (botMentioned a); [|by apply elem_of_nil in Hin].
      destruct (mention_targets a w); [by apply elem_of_nil in Hin|].
      apply list_elem_of_singleton in Hin. injection Hin as -> ->.
      split; [done|]. by intros [?|?].
    + destruct (routeThread_run a appId w) as (_ & _ & Hroute).
      destruct Hroute as [|r ? Hr _ _ _ _ _|r c ? Hr _ _ _ Hc _ _ _].
      * by apply elem_of_nil in Hin.
      * apply list_elem_of_singleton in Hin. injection Hin as -> ->.
        split; [done|]. by rewrite Hr.
      * apply list_elem_of_singleton in Hin. injection Hin as -> ->.
        split; [by rewrite Hc|]. by intros [?|?].
  - rewrite handleReactionActivity_run; cbn [trace]. intros Hin.
    destruct (JS.truthy (act_replyToId a)); [|by apply elem_of_nil in Hin].
    cbn zeta in Hin.
    destruct (live_subscribers _ _ _); [by apply elem_of_nil in Hin|].
    apply elem_of_app in Hin as [Hin|Hin];
      apply list_elem_of_fmap in Hin as (r & Heq & _);
      injection Heq as -> ->; by split.
  - by intros ?%elem_of_nil.
  - rewrite handleInvokeActivity_run; cbn [trace]. intros Hin.
    destruct (JS.truthy (act_replyToId a)); [|by apply elem_of_nil in Hin].
    cbn zeta in Hin.
    destruct (live_subscribers _ _ _); [by apply elem_of_nil in Hin|].
    apply list_elem_of_singleton in Hin. injection Hin as -> ->. by split.
  - by intros ?%elem_of_nil.
Qed.

(** C6. A reply goes to exactly the thread-subscriber blocks, an action or
    a reaction to exactly the message-sender blocks, that are found in the
    index under the key prefix of the anchor and are in the registry at the
    time of the dispatch, the anchor being the conversation of the message
    for a reply and the reply target of the activity for an action or a
    reaction. Every such run is pinned down: a reaction activity, a card
    invoke and a message with a reply target that is not from the bot send
    their bodies to that intersection, and nothing when it is empty; a
    subscriber that is in the index but not in the registry is not among
    the recipients; no reply, action or reaction is sent in any other way;
    and the router never throws and never writes. *)
Theorem liveness_filter (a : Activity) (appId : string) (w : World) :
  let t := trace (handleBotActivity a appId w) in
  let senders r :=
    validBlockIds (index_lookup ("events|" +:+ r +:+ "|") (kv_app w))
      (live "sendMessage" w) in
  let threads c :=
    validBlockIds (index_lookup ("replies|" +:+ c +:+ "|") (kv_app w))
      (live "threadSubscription" w) in
  result (handleBotActivity a appId w) = Ok tt ∧
  world (handleBotActivity a appId w) = w ∧
  (∀ prefix typeId i,
     i ∈ validBlockIds (index_lookup prefix (kv_app w)) (live typeId w) ↔
     Some i ∈ index_lookup prefix (kv_app w) ∧
     ∃ b, b ∈ registry w ∧ blk_typeId b = typeId ∧ blk_id b = i) ∧
  (act_type a = MessageReactionT →
   ∀ r, act_replyToId a = Some r → JS.truthy (Some r) = true →
     t = dispatch (senders r)
           ((reaction_body a "add" <$> default [] (act_reactionsAdded a)) ++
            (reaction_body a "remove" <$> default [] (act_reactionsRemoved a)))) ∧
  (act_type a = Invoke →
   ∀ r, act_replyToId a = Some r → JS.truthy (Some r) = true →
     t = dispatch (senders r) [invoke_body a]) ∧
  (act_type a = Message →
   ∀ r, message_replyToId a = Some r → JS.truthy (Some r) = true →
        isFromBot a appId = false →
     (JS.truthy_value (act_value a) = true →
      t = mention_dispatch a w ++
          dispatch (senders r) [submit_body a (Some r)]) ∧
     (JS.truthy_value (act_value a) = false →
      ∀ c, conversation_id a = Some c → JS.truthy (Some c) = true →
      t = mention_dispatch a w ++
          dispatch (threads c) [reply_body a (Some r) (Some c)])) ∧
  (∀ ids body, SendToBlocks ids body ∈ t →
     (b_type body = "reply" →
      b_conversationId body = conversation_id a ∧
      ids = threads (JS.interpolate (conversation_id a)) ∧ ids ≠ []) ∧
     (b_type body = "action" ∨ b_type body = "reaction" →
      let anchor := match act_type a with
                    | Message => message_replyToId a
                    | _ => act_replyToId a
                    end in
      b_activityId body = anchor ∧
      ids = senders (JS.interpolate anchor) ∧ ids ≠ [])).
Proof.
  intros t senders threads. subst t senders threads.
  destruct (handleBotActivity_quiet a appId w) as [[[] Hres] Hw].
  split_and!; [done|done|..].
  - intros prefix typeId i. apply elem_of_live_subscribers.
  - intros Hty r Hr Htr. unfold handleBotActivity. rewrite Hty.
    by apply handleReactionActivity_dispatch.
  - intros Hty r Hr Htr. unfold handleBotActivity. rewrite Hty.
    by apply handleInvokeActivity_dispatch.
  - intros Hty r Hr Htr Hbot. unfold handleBotActivity. rewrite Hty.
    rewrite handleMessageActivity_trace. split.
    + intros Hval. by rewrite (routeThread_action_run _ _ _ r).
    + intros Hval c Hc Htc. by rewrite (routeThread_reply_run _ _ _ r c).
  - intros ids body Hin.
    destruct (dispatch_anchor _ _ _ _ _ Hin) as [Hconv Hact].
    apply dispatch_recipients in Hin
        as [Hm|[(Hty & Hne & Hids)|(Hty & Hne & Hids)]].
    + split; intros Hty; [|destruct Hty as [Hty|Hty]]; congruence.
    + split; [|intros [Hty'|Hty']; congruence].
      intros _. rewrite <- (Hconv Hty). done.
    + split; [intros Hty'; destruct Hty; congruence|].
      intros _ anchor. subst anchor. rewrite <- (Hact Hty). done.
Qed.

Lemma stale_sender_is_indexed :
  Some "S2" ∈ index_lookup "events|7|"
                (kv_app (delete_block "S2" two_senders_world)).
Proof. vm_compute. repeat constructor. Qed.

Lemma liveness_filter_witness :
  let w := delete_block "S2" two_senders_world in
  let reply := sample_activity Message (Some "5") (Some "3") (Some "conv1")
                 "user1" None [] None [] [] in
  let w' := world (subscribeToReplies.onEvent "T1" "evtP" "conv1" fresh_world) in
  (Some "S2" ∈ index_lookup "events|7|" (kv_app w) ∧
   trace (handleBotActivity like_on_7 "bot" w) =
     [SendToBlocks ["S1"] (reaction_body like_on_7 "add" (reaction "like"))]) ∧
  trace (handleBotActivity reply "bot" w') =
    [SendToBlocks ["T1"] (reply_body reply (Some "3") (Some "conv1"))] ∧
  trace (handleBotActivity reply "bot" (delete_block "T1" w')) = [].
Proof.
  intros w reply w'. split; [split; [exact stale_sender_is_indexed|]|split].
  - destruct (liveness_filter like_on_7 "bot" w)
      as (_ & _ & _ & Hreaction & _).
    apply (Hreaction eq_refl "7" eq_refl eq_refl).
  - destruct (liveness_filter reply "bot" w')
      as (_ & _ & _ & _ & _ & Hmessage & _).
    destruct (Hmessage eq_refl "3" eq_refl eq_refl eq_refl) as [_ Hreply].
    apply (Hreply eq_refl "conv1" eq_refl eq_refl).
  - destruct (liveness_filter reply "bot" (delete_block "T1" w'))
      as (_ & _ & _ & _ & _ & Hmessage & _).
    destruct (Hmessage eq_refl "3" eq_refl eq_refl eq_refl) as [_ Hreply].
    apply (Hreply eq_refl "conv1" eq_refl eq_refl).
Defined.

(** ** The subscription index *)

Lemma pipe_free_cons c s :
  pipe_free (String c s) = true ↔ Ascii.eqb c "|" = false ∧ pipe_free s = true.
Proof. simpl. rewrite andb_true_iff, negb_true_iff. tauto. Qed.

Lemma split_pipe_free s : pipe_free s = true → JS.split "|" s = [s].
Proof.
  induction s as [|c s IH]; [done|].
  intros [Hc Hs]%pipe_free_cons. simpl. rewrite Hc.
  by rewrite (IH Hs).
Qed.

Lemma split_sep s t :
  pipe_free s = true →
  JS.split "|" (s +:+ "|" +:+ t) = s :: JS.split "|" t.
Proof.
  induction s as [|c s IH]; [done|].
  intros [Hc Hs]%pipe_free_cons. simpl. rewrite Hc.
  simpl in IH. by rewrite (IH Hs).
Qed.

(** The third segment of a key built from [|]-free parts is its subscriber. *)
Lemma split_subscription_key ns anchor subscriber :
  pipe_free ns = true → pipe_free anchor = true →
  pipe_free subscriber = true →
  JS.split "|" (subscription_key ns anchor subscriber) !! 2 = Some subscriber.
Proof.
  intros Hns Ha Hs. unfold subscription_key.
  rewrite (split_sep ns) by done. rewrite (split_sep anchor) by done.
  by rewrite split_pipe_free.
Qed.

Lemma append_nil_l s : "" +:+ s = s.
Proof. reflexivity. Qed.

Lemma append_cons c s t : String c s +:+ t = String c (s +:+ t).
Proof. reflexivity. Qed.

Lemma prefix_cons c d p q :
  String.prefix (String c p) (String d q) = true ↔
  c = d ∧ String.prefix p q = true.
Proof.
  simpl. destruct (Ascii.ascii_dec c d) as [->|Hne]; [tauto|].
  split; [done|]. by intros [? _].
Qed.

Lemma prefix_sep x y p q :
  pipe_free x = true → pipe_free y = true →
  String.prefix (x +:+ "|" +:+ p) (y +:+ "|" +:+ q) = true ↔
  x = y ∧ String.prefix p q = true.
Proof.
  revert y. induction x as [|c x IH]; intros [|d y] Hx Hy;
    rewrite ?append_nil_l, ?append_cons, prefix_cons.
  - tauto.
  - apply pipe_free_cons in Hy as [Hd _]. apply Ascii.eqb_neq in Hd.
    split; [by intros [? _]|by intros [? _]].
  - apply pipe_free_cons in Hx as [Hc _]. apply Ascii.eqb_neq in Hc.
    split; [by intros [? _]|by intros [? _]].
  - apply pipe_free_cons in Hx as [_ Hx]. apply pipe_free_cons in Hy as [_ Hy].
    rewrite (IH y Hx Hy). split.
    + by intros (-> & -> & ?).
    + intros [Heq ?]. by injection Heq as -> ->.
Qed.

(** A key built from [|]-free parts lies under the prefix of a namespace
    and an anchor exactly when it was built from them. *)
Lemma startsWith_subscription_key ns anchor ns' anchor' subscriber' :
  pipe_free ns = true → pipe_free anchor = true →
  pipe_free ns' = true → pipe_free anchor' = true →
  JS.startsWith (subscription_key ns' anchor' subscriber')
                (ns +:+ "|" +:+ anchor +:+ "|") = true ↔
  ns' = ns ∧ anchor' = anchor.
Proof.
  intros Hns Ha Hns' Ha'. unfold JS.startsWith, subscription_key.
  rewrite prefix_sep by done.
  change (anchor +:+ "|") with (anchor +:+ "|" +:+ "").
  rewrite prefix_sep by done. simpl.
  split; [by intros (-> & -> & _)|]. intros [-> ->].
  split_and!; try done. by destruct subscriber'.
Qed.

Lemma wf_index_empty : wf_index ∅.
Proof. intros k v Hk. by rewrite lookup_empty in Hk. Qed.

Lemma wf_index_insert index ns anchor subscriber :
  wf_index index →
  pipe_free ns = true → pipe_free anchor = true →
  pipe_free subscriber = true →
  wf_index (<[subscription_key ns anchor subscriber := true]> index).
Proof.
  intros Hwf Hns Ha Hs k v Hk.
  destruct (decide (subscription_key ns anchor subscriber = k)) as [<-|Hne].
  - eauto 10.
  - rewrite lookup_insert_ne in Hk by done. eauto.
Qed.

Lemma filter_none {A} (P : A → Prop) `{∀ x, Decision (P x)} (l : list A) :
  (∀ x, x ∈ l → ¬ P x) → filter P l = [].
Proof.
  induction l as [|x l IH]; intros Hl; [done|].
  rewrite filter_cons_False by (apply Hl; left).
  apply IH. intros y Hy. apply Hl. by right.
Qed.

(** How often a subscriber is found under a prefix. *)
Lemma occurrences_fresh (index : gmap string bool) ns anchor subscriber :
  wf_index index →
  pipe_free ns = true → pipe_free anchor = true →
  pipe_free subscriber = true →
  index !! subscription_key ns anchor subscriber = None →
  length (filter (λ o, o = Some subscriber)
            (index_lookup (ns +:+ "|" +:+ anchor +:+ "|") index)) = 0.
Proof.
  intros Hwf Hns Ha Hs Hfresh. apply length_zero_iff_nil.
  apply filter_none. intros o Hin Ho. subst o.
  unfold index_lookup in Hin.
  apply list_elem_of_fmap in Hin as ([k v] & Hseg & Hin).
  apply list_elem_of_filter in Hin as [Hpre Hin]. simpl in *.
  apply elem_of_map_to_list in Hin.
  destruct (Hwf k v Hin) as (ns' & a' & s' & -> & Hns' & Ha' & Hs').
  apply Is_true_true in Hpre.
  apply startsWith_subscription_key in Hpre as [-> ->]; [|done..].
  rewrite split_subscription_key in Hseg by done. injection Hseg as ->.
  congruence.
Qed.

Lemma occurrences_registered (index : gmap string bool) ns anchor subscriber :
  wf_index index →
  pipe_free ns = true → pipe_free anchor = true →
  pipe_free subscriber = true →
  length (filter (λ o, o = Some subscriber)
            (index_lookup (ns +:+ "|" +:+ anchor +:+ "|")
               (<[subscription_key ns anchor subscriber := true]> index))) = 1.
Proof.
  intros Hwf Hns Ha Hs.
  set (k := subscription_key ns anchor subscriber).
  assert (wf_index (delete k index)) as Hwf'.
  { intros k' v Hk'. apply lookup_delete_Some in Hk' as [_ Hk']. eauto. }
  pose proof (occurrences_fresh (delete k index) ns anchor subscriber
                Hwf' Hns Ha Hs (lookup_delete_eq _ _)) as Hrest.
  rewrite <- (insert_delete_eq index k true).
  unfold index_lookup in *.
  rewrite (map_to_list_insert (delete k index) k true)
    by apply lookup_delete_eq.
  rewrite filter_cons_True.
  2:{ simpl. apply Is_true_true. unfold k.
      by apply startsWith_subscription_key. }
  rewrite fmap_cons, filter_cons_True.
  2:{ simpl. unfold k. by rewrite split_subscription_key. }
  simpl. by rewrite Hrest.
Qed.

(** In a well-formed index no subscriber is found twice under a prefix. *)
Lemma index_lookup_NoDup (index : gmap string bool) ns anchor :
  wf_index index → pipe_free ns = true → pipe_free anchor = true →
  NoDup (index_lookup (ns +:+ "|" +:+ anchor +:+ "|") index).
Proof.
  intros Hwf Hns Ha. unfold index_lookup.
  apply NoDup_fmap_2_strong; [|apply NoDup_filter, NoDup_map_to_list].
  intros [k1 v1] [k2 v2] [Hp1 Hin1]%list_elem_of_filter
    [Hp2 Hin2]%list_elem_of_filter Hseg. simpl in *.
  apply elem_of_map_to_list in Hin1, Hin2.
  destruct (Hwf _ _ Hin1) as (ns1 & a1 & s1 & -> & ? & ? & ?).
  destruct (Hwf _ _ Hin2) as (ns2 & a2 & s2 & -> & ? & ? & ?).
  apply Is_true_true in Hp1, Hp2.
  apply startsWith_subscription_key in Hp1 as [-> ->]; [|done..].
  apply startsWith_subscription_key in Hp2 as [-> ->]; [|done..].
  rewrite !split_subscription_key in Hseg by done. injection Hseg as ->.
  congruence.
Qed.

Lemma validBlockIds_NoDup subscribed existing :
  NoDup subscribed → NoDup (validBlockIds subscribed existing).
Proof.
  unfold validBlockIds. induction 1 as [|o l Hfresh Hnd IH]; [constructor|].
  simpl. destruct o as [i|]; simpl; [|done].
  case_bool_decide; [|done]. simpl. constructor; [|done].
  intros Hin. apply Hfresh.
  apply list_elem_of_omap in Hin as ([j|] & Hj & Hval); simpl in Hval; [|done].
  case_bool_decide; by simplify_eq.
Qed.

(** ** Reactions *)

Lemma deliveries_app t1 t2 : deliveries (t1 ++ t2) = deliveries t1 ++ deliveries t2.
Proof. unfold deliveries. apply bind_app. Qed.

Lemma deliveries_fmap {A} ids (f : A → Body) (xs : list A) :
  deliveries ((λ x, SendToBlocks ids (f x)) <$> xs) =
    xs ≫= λ x, (λ i, (i, f x)) <$> ids.
Proof.
  unfold deliveries. induction xs as [|x xs IH]; [done|].
  rewrite fmap_cons, !bind_cons. by rewrite IH.
Qed.

Lemma length_bind_const {A B} (f : A → list B) (xs : list A) n :
  (∀ x, length (f x) = n) → length (xs ≫= f) = length xs * n.
Proof.
  intros Hf. induction xs as [|x xs IH]; [done|].
  rewrite bind_cons, length_app, Hf, IH. simpl. lia.
Qed.

Lemma for_of_quiet {A} (xs : list A) (body : A → Flow unit) w :
  (∀ x, quiet (body x)) →
  for_of xs body w =
    {| result := Ok tt; world := w; trace := xs ≫= λ x, trace (body x w) |}.
Proof.
  intros Hq. induction xs as [|x xs IH]; [done|].
  cbn [for_of]. destruct (Hq x w) as [[[] Hres] Hw].
  rewrite (bind_ok _ _ _ _ Hres), Hw, IH. cbn [result world trace].
  by rewrite bind_cons.
Qed.

Lemma sendMessage_onInternalMessage_run block data w :
  sendMessage.onInternalMessage block data w =
    {| result := Ok tt; world := w;
       trace :=
         let parentEventId := b_activityId data ≫= λ k, block_store w block !! k in
         if JS.truthy parentEventId then
           (if String.eqb (b_type data) "reaction"
            then [Emit block
                    (ReactionEvent (b_reactionType data) (b_action data)
                       (b_type data) (b_from data ≫= acc_id)
                       (b_from data ≫= acc_aadObjectId) (b_activityId data)
                       (b_conversationId data) (b_timestamp data))
                    parentEventId (Some "events")]
            else []) ++
           (if String.eqb (b_type data) "action"
            then [Emit block
                    (ActionEvent (b_actionId data) (b_actionData data)
                       (b_type data) (b_from data ≫= acc_id)
                       (b_from data ≫= acc_aadObjectId) (b_activityId data)
                       (b_conversationId data) (b_timestamp data))
                    parentEventId (Some "events")]
            else [])
         else [] |}.
Proof.
  unfold sendMessage.onInternalMessage.
  rewrite (bind_pure _ _ _ _ (kv_block_get_run _ _ _)). cbn zeta.
  destruct (JS.truthy _); [|done]. cbn [negb]. unfold bind.
  by destruct (String.eqb (b_type data) "reaction"),
              (String.eqb (b_type data) "action").
Qed.

Lemma quiet_subscribeToReplies_onInternalMessage block data :
  quiet (subscribeToReplies.onInternalMessage block data).
Proof.
  intros w. unfold subscribeToReplies.onInternalMessage.
  rewrite (bind_pure _ _ _ _ (kv_block_get_run _ _ _)).
  destruct (JS.truthy _); simpl; eauto.
Qed.

(** The blocks only read their store when a message comes in. *)
Lemma quiet_onInternalMessage typeId block body :
  quiet (onInternalMessage typeId block body).
Proof.
  intros w. unfold onInternalMessage.
  destruct (String.eqb typeId "sendMessage").
  { rewrite sendMessage_onInternalMessage_run; simpl; eauto. }
  destruct (String.eqb typeId "threadSubscription").
  { apply quiet_subscribeToReplies_onInternalMessage. }
  destruct (String.eqb typeId "mentionsSubscription"); simpl; eauto.
Qed.

Lemma quiet_deliver_to body i : quiet (deliver_to body i).
Proof.
  intros w. unfold deliver_to. destruct (List.find _ _).
  - apply quiet_onInternalMessage.
  - simpl; eauto.
Qed.

Lemma find_block (l : list Block) b :
  NoDup (blk_id <$> l) → b ∈ l →
  List.find (λ b', bool_decide (blk_id b' = blk_id b)) l = Some b.
Proof.
  induction l as [|b0 l IH]; intros Hnd Hin; [by apply elem_of_nil in Hin|].
  rewrite fmap_cons in Hnd. apply NoDup_cons in Hnd as [Hfresh Hnd].
  simpl. apply elem_of_cons in Hin as [->|Hin].
  - by rewrite bool_decide_eq_true_2.
  - rewrite bool_decide_eq_false_2; [by apply IH|].
    intros Heq. apply Hfresh. rewrite Heq. by apply list_elem_of_fmap_2.
Qed.

(** A live message sender with a parent on record turns a reaction body
    into one event. *)
Lemma deliver_reaction a action r w i prefix :
  NoDup (blk_id <$> registry w) →
  i ∈ live_subscribers prefix "sendMessage" w →
  JS.truthy (act_replyToId a ≫= λ k, block_store w i !! k) = true →
  trace (deliver_to (reaction_body a action r) i w) =
    [reaction_event a action r w i].
Proof.
  intros Hnd Hin Hparent.
  apply elem_of_live_subscribers in Hin as (_ & b & Hb & Hty & <-).
  unfold deliver_to. rewrite (find_block _ b Hnd Hb).
  unfold onInternalMessage. rewrite Hty. cbn [String.eqb Ascii.eqb Bool.eqb].
  rewrite sendMessage_onInternalMessage_run. cbn [trace]. cbn zeta.
  cbn [b_activityId reaction_body b_type]. rewrite Hparent. reflexivity.
Qed.

Lemma bind_ext_in {A B} (f g : A → list B) (xs : list A) :
  (∀ x, x ∈ xs → f x = g x) → xs ≫= f = xs ≫= g.
Proof.
  induction xs as [|x xs IH]; intros Hfg; [done|].
  rewrite !bind_cons, Hfg by left. f_equal. apply IH.
  intros y Hy. apply Hfg. by right.
Qed.

Lemma bind_singleton_fmap {A B} (f : A → B) (xs : list A) :
  xs ≫= (λ x, [f x]) = f <$> xs.
Proof. induction xs as [|x xs IH]; [done|]. by rewrite bind_cons, IH. Qed.

Lemma quiet_deliver o : quiet (deliver o).
Proof.
  destruct o; simpl; [|apply quiet_ret].
  apply quiet_for_of. intros i. apply quiet_deliver_to.
Qed.

Lemma process_trace a appId w :
  trace (process a appId w) =
    trace (handleBotActivity a appId w) ≫= λ o, trace (deliver o w).
Proof.
  unfold process. cbn [trace].
  destruct (handleBotActivity_quiet a appId w) as [_ ->].
  by rewrite for_of_quiet by apply quiet_deliver.
Qed.

Lemma deliver_sends {A} (f : A → Body) (ev : A → string → Out) ids xs w :
  (∀ x i, i ∈ ids → trace (deliver_to (f x) i w) = [ev x i]) →
  ((λ x, SendToBlocks ids (f x)) <$> xs) ≫= (λ o, trace (deliver o w)) =
    xs ≫= λ x, ev x <$> ids.
Proof.
  intros Hev. induction xs as [|x xs IH]; [done|].
  rewrite fmap_cons, !bind_cons, IH. f_equal. simpl.
  rewrite for_of_quiet by (intros; apply quiet_deliver_to). cbn [trace].
  rewrite (bind_ext_in _ (λ i, [ev x i])) by (intros; by apply Hev).
  apply bind_singleton_fmap.
Qed.

(** C8. A reaction activity with a reply target and at least one live
    subscriber yields one internal message per reaction change, each fanned
    out to every live subscriber: the added reactions first, in their order,
    with action ["add"], then the removed ones with action ["remove"], each
    carrying the type of its reaction. When every live subscriber has a
    parent event on record for the reacted message, the blocks emit exactly
    one event per change and subscriber, in that order. In a well-formed
    index no subscriber is listed twice. *)
Theorem reaction_fan_out (a : Activity) (appId : string) (w : World) :
  act_type a = MessageReactionT →
  JS.truthy (act_replyToId a) = true →
  let subscribers :=
    validBlockIds
      (index_lookup ("events|" +:+ JS.interpolate (act_replyToId a) +:+ "|")
         (kv_app w))
      (live "sendMessage" w) in
  let added := default [] (act_reactionsAdded a) in
  let removed := default [] (act_reactionsRemoved a) in
  subscribers ≠ [] →
  trace (handleBotActivity a appId w) =
    ((λ r, SendToBlocks subscribers (reaction_body a "add" r)) <$> added) ++
    ((λ r, SendToBlocks subscribers (reaction_body a "remove" r)) <$> removed) ∧
  deliveries (trace (handleBotActivity a appId w)) =
    (added ≫= λ r, (λ i, (i, reaction_body a "add" r)) <$> subscribers) ++
    (removed ≫= λ r, (λ i, (i, reaction_body a "remove" r)) <$> subscribers) ∧
  length (deliveries (trace (handleBotActivity a appId w))) =
    (length added + length removed) * length subscribers ∧
  (∀ action r,
     b_type (reaction_body a action r) = "reaction" ∧
     b_action (reaction_body a action r) = Some action ∧
     b_reactionType (reaction_body a action r) = reaction_type r ∧
     b_activityId (reaction_body a action r) = act_replyToId a) ∧
  (NoDup (blk_id <$> registry w) →
   (∀ i, i ∈ subscribers →
         JS.truthy (act_replyToId a ≫= λ k, block_store w i !! k) = true) →
   trace (process a appId w) =
     (added ≫= λ r, reaction_event a "add" r w <$> subscribers) ++
     (removed ≫= λ r, reaction_event a "remove" r w <$> subscribers) ∧
   length (trace (process a appId w)) =
     (length added + length removed) * length subscribers) ∧
  (wf_index (kv_app w) →
   pipe_free (JS.interpolate (act_replyToId a)) = true →
   NoDup subscribers).
Proof.
  intros Hty Hreply subscribers added removed Hne.
  assert (trace (handleBotActivity a appId w) =
    ((λ r, SendToBlocks subscribers (reaction_body a "add" r)) <$> added) ++
    ((λ r, SendToBlocks subscribers (reaction_body a "remove" r)) <$> removed))
    as Htrace.
  { unfold handleBotActivity. rewrite Hty, handleReactionActivity_run.
    cbn [trace]. rewrite Hreply. cbn zeta. fold subscribers.
    unfold live_subscribers. fold subscribers.
    by destruct subscribers. }
  rewrite Htrace, deliveries_app, !deliveries_fmap.
  split_and!; [done|done| |done| |].
  - rewrite length_app.
    rewrite !(length_bind_const _ _ (length subscribers))
      by (intros; by rewrite length_fmap).
    lia.
  - intros Hnd Hparent.
    assert (trace (process a appId w) =
      (added ≫= λ r, reaction_event a "add" r w <$> subscribers) ++
      (removed ≫= λ r, reaction_event a "remove" r w <$> subscribers))
      as Hevents.
    { rewrite process_trace, Htrace, bind_app.
      rewrite (deliver_sends _ (λ r, reaction_event a "add" r w)),
        (deliver_sends _ (λ r, reaction_event a "remove" r w)); [done|..].
      all: intros r i Hi; eapply deliver_reaction; eauto. }
    split; [done|]. rewrite Hevents, length_app.
    rewrite !(length_bind_const _ _ (length subscribers))
      by (intros; by rewrite length_fmap).
    lia.
  - intros Hwf Hanchor. apply validBlockIds_NoDup.
    by apply (index_lookup_NoDup _ "events").
Qed.

Lemma two_senders_registry_NoDup :
  NoDup (blk_id <$> registry two_senders_world).
Proof. apply (bool_decide_unpack _). vm_compute. exact I. Qed.

Lemma two_senders_subscribers :
  validBlockIds (index_lookup "events|7|" (kv_app two_senders_world))
    (live "sendMessage" two_senders_world) = ["S1"; "S2"].
Proof. vm_compute. reflexivity. Qed.

Lemma two_senders_parents i :
  i ∈ ["S1"; "S2"] →
  JS.truthy (Some "7" ≫= λ k, block_store two_senders_world i !! k) = true.
Proof.
  intros Hi. apply elem_of_cons in Hi as [->|Hi]; [reflexivity|].
  apply list_elem_of_singleton in Hi as ->. reflexivity.
Qed.

Lemma reaction_fan_out_witness :
  deliveries (trace (handleBotActivity like_on_7 "bot" two_senders_world)) =
    [("S1", reaction_body like_on_7 "add" (reaction "like"));
     ("S2", reaction_body like_on_7 "add" (reaction "like"))] ∧
  length (deliveries
            (trace (handleBotActivity like_on_7 "bot" two_senders_world))) = 2 ∧
  trace (process like_on_7 "bot" two_senders_world) =
    [Emit "S1"
       (ReactionEvent (Some "like") (Some "add") "reaction" (Some "user1")
          None (Some "7") (Some "conv1") (Some "2025-01-01T00:00:00Z"))
       (Some "evtA") (Some "events");
     Emit "S2"
       (ReactionEvent (Some "like") (Some "add") "reaction" (Some "user1")
          None (Some "7") (Some "conv1") (Some "2025-01-01T00:00:00Z"))
       (Some "evtB") (Some "events")].
Proof.
  pose proof (reaction_fan_out like_on_7 "bot" two_senders_world
                eq_refl eq_refl) as Hfan.
  cbn zeta in Hfan.
  change ("events|" +:+ JS.interpolate (act_replyToId like_on_7) +:+ "|")
    with "events|7|" in Hfan.
  rewrite two_senders_subscribers in Hfan.
  destruct (Hfan ltac:(discriminate))
    as (_ & Hdeliveries & Hlength & _ & Hevents & _).
  split; [exact Hdeliveries|]. split; [exact Hlength|].
  apply Hevents; [apply two_senders_registry_NoDup|apply two_senders_parents].
Defined.

(** ** The channel filter of mentions *)

Lemma elem_of_mention_targets block a w :
  block ∈ mention_targets a w ↔
  block ∈ registry w ∧ blk_typeId block = "mentionsSubscription" ∧
  (JS.truthy (blk_channelId block) = false ∨
   blk_channelId block = channel_id a).
Proof.
  unfold mention_targets. rewrite list_elem_of_filter, elem_of_live.
  unfold JS.strict_eq. rewrite orb_True, negb_True, Is_true_false.
  rewrite bool_decide_spec. tauto.
Qed.

(** C9. When a message mentions the bot, the mention is sent, once, to the
    mention subscribers that pass the channel filter, if there are any. A
    subscriber without a configured channel (none, or the empty string)
    passes for every activity; a subscriber with a configured channel passes
    exactly when that channel is the activity's [teamsChannelId]. *)
Theorem mention_channel_filter (a : Activity) (appId : string) (w : World) :
  act_type a = Message →
  botMentioned a = true →
  (∀ block,
     block ∈ registry w → blk_typeId block = "mentionsSubscription" →
     (JS.truthy (blk_channelId block) = false → block ∈ mention_targets a w) ∧
     (JS.truthy (blk_channelId block) = true →
      (block ∈ mention_targets a w ↔ blk_channelId block = channel_id a))) ∧
  (∀ ids body,
     SendToBlocks ids body ∈ trace (handleBotActivity a appId w) ∧
     b_type body = "mention" ↔
     mention_targets a w ≠ [] ∧ ids = blk_id <$> mention_targets a w ∧
     body = mention_body a) ∧
  (∀ i, (∃ body, (i, body) ∈ deliveries (trace (handleBotActivity a appId w)) ∧
                 b_type body = "mention") ↔
        ∃ block, block ∈ mention_targets a w ∧ blk_id block = i).
Proof.
  intros Hty Hbot.
  assert (∀ ids body,
     SendToBlocks ids body ∈ trace (handleBotActivity a appId w) ∧
     b_type body = "mention" ↔
     mention_targets a w ≠ [] ∧ ids = blk_id <$> mention_targets a w ∧
     body = mention_body a) as Hsend.
  { intros ids body. unfold handleBotActivity. rewrite Hty.
    destruct (handleMessageActivity_run a appId w) as (_ & _ & ->).
    rewrite routeMention_run; cbn [trace]. rewrite Hbot. split.
    - intros [Hin Hbody]. apply elem_of_app in Hin as [Hin|Hin].
      + destruct (mention_targets a w) eqn:Ht; [by apply elem_of_nil in Hin|].
        apply list_elem_of_singleton in Hin. by injection Hin as -> ->.
      + destruct (routeThread_run a appId w) as (_ & _ & Hroute).
        destruct Hroute; [by apply elem_of_nil in Hin|..];
          apply list_elem_of_singleton in Hin; injection Hin as -> ->;
          discriminate Hbody.
    - intros (Hne & -> & ->). split; [|done]. apply elem_of_app. left.
      destruct (mention_targets a w) eqn:Ht; [done|].
      by apply list_elem_of_singleton. }
  split_and!; [|done|].
  - intros block Hin Htype. split.
    + intros Hf. apply elem_of_mention_targets. tauto.
    + intros Ht. rewrite elem_of_mention_targets. split; [|tauto].
      intros (_ & _ & [Hf|Heq]); [congruence|done].
  - intros i. split.
    + intros (body & Hin & Hbody). unfold deliveries in Hin.
      apply list_elem_of_bind in Hin as (o & Hio & Ho).
      destruct o as [ids body'|]; [|by apply elem_of_nil in Hio].
      apply list_elem_of_fmap in Hio as (j & Heq & Hj).
      injection Heq as -> ->.
      destruct (proj1 (Hsend ids body')) as (_ & -> & _); [done|].
      apply list_elem_of_fmap in Hj as (block & -> & Hblock). eauto.
    + intros (block & Hblock & <-). exists (mention_body a). split; [|done].
      unfold deliveries.
      apply list_elem_of_bind.
      exists (SendToBlocks (blk_id <$> mention_targets a w) (mention_body a)).
      split.
      * apply list_elem_of_fmap. exists (blk_id block). split; [done|].
        by apply list_elem_of_fmap_2.
      * apply Hsend. split_and!; [|done|done].
        intros Hnil. rewrite Hnil in Hblock. by apply elem_of_nil in Hblock.
Qed.

Lemma mention_channel_filter_witness :
  let a := sample_activity Message (Some "5") None (Some "conv1") "user1" None
             [mention_of "28:11111111-aaaa"] (Some "19:xyz") [] [] in
  let M1 := block_of "M1" "mentionsSubscription" (Some "19:abc") in
  let M2 := block_of "M2" "mentionsSubscription" None in
  (M1 ∉ mention_targets a fresh_world) ∧
  M2 ∈ mention_targets a fresh_world ∧
  trace (handleBotActivity a "11111111-aaaa" fresh_world) =
    [SendToBlocks ["M2"] (mention_body a)].
Proof.
  intros a M1 M2.
  pose proof (mention_channel_filter a "11111111-aaaa" fresh_world
                eq_refl eq_refl) as (Hfilter & Hsend & _).
  split; [|split].
  - intros Hin.
    apply (proj2 (Hfilter M1 ltac:(repeat constructor) eq_refl) eq_refl)
      in Hin.
    discriminate Hin.
  - apply (proj1 (Hfilter M2 ltac:(repeat constructor) eq_refl) eq_refl).
  - reflexivity.
Defined.

(** ** Registration is idempotent *)

(** C5 (as the code has it). Registering the same block for the same anchor
    twice leaves the index exactly as one registration does, for any
    strings. When the anchor and the block id hold no [|], and the index
    holds only keys built from such parts, the lookup under the anchor's
    prefix then returns the block id exactly once, and the index stays
    well-formed. This holds for thread subscriptions ([replies|...]) and for
    sent messages ([events|...], when the platform names the same activity
    both times). *)
Theorem registration_idempotent :
  (∀ w block conv e1 e2,
     let w1 := world (subscribeToReplies.onEvent block e1 conv w) in
     let w2 := world (subscribeToReplies.onEvent block e2 conv w1) in
     kv_app w2 = kv_app w1 ∧
     (wf_index (kv_app w) → pipe_free conv = true → pipe_free block = true →
      wf_index (kv_app w2) ∧
      length (filter (λ o, o = Some block)
                (index_lookup ("replies|" +:+ conv +:+ "|") (kv_app w2))) = 1)) ∧
  (∀ p cfg w block e1 e2,
     let o1 := sendMessage.onEvent p block e1 cfg w in
     let o2 := sendMessage.onEvent p block e2 cfg (world o1) in
     kv_app (world o2) = kv_app (world o1) ∧
     ∀ aid cid ch ts,
       Emit block (MessageSent aid cid ch ts) None None ∈ trace o1 →
       wf_index (kv_app w) → pipe_free aid = true → pipe_free block = true →
       wf_index (kv_app (world o2)) ∧
       length (filter (λ o, o = Some block)
                 (index_lookup ("events|" +:+ aid +:+ "|")
                    (kv_app (world o2)))) = 1).
Proof.
  split.
  - intros w block conv e1 e2 w1 w2. subst w1 w2.
    rewrite !subscribeToReplies_onEvent_run. cbn [world kv_app].
    rewrite insert_insert_eq. split; [done|]. intros Hwf Hc Hb. split.
    + by apply (wf_index_insert _ "replies").
    + by apply (occurrences_registered _ "replies").
  - intros p cfg w block e1 e2 o1 o2. subst o1 o2.
    destruct (sendMessage_onEvent_run p cfg) as [[msg Hrun]|[r Hrun]];
      rewrite !Hrun; cbn [world kv_app trace].
    + split; [done|]. intros aid cid ch ts Hin. by apply elem_of_nil in Hin.
    + rewrite insert_insert_eq. split; [done|].
      intros aid cid ch ts Hin Hwf Ha Hb.
      apply list_elem_of_singleton in Hin. injection Hin as -> _ _ _. split.
      * by apply (wf_index_insert _ "events").
      * by apply (occurrences_registered _ "events").
Qed.

Lemma registration_idempotent_witness :
  let w1 := world (subscribeToReplies.onEvent "T1" "evtA" "conv1"
                     two_senders_world) in
  let w2 := world (subscribeToReplies.onEvent "T1" "evtB" "conv1" w1) in
  (index_lookup "replies|conv1|" (kv_app w2) = [Some "T1"] ∧
   wf_index (kv_app w2) ∧
   length (filter (λ o, o = Some "T1")
             (index_lookup "replies|conv1|" (kv_app w2))) = 1) ∧
  (wf_index (kv_app two_senders_world) ∧
   length (filter (λ o, o = Some "S1")
             (index_lookup "events|7|" (kv_app two_senders_world))) = 1).
Proof.
  intros w1 w2.
  assert (wf_index (kv_app fresh_world)) as Hwf0 by apply wf_index_empty.
  assert (wf_index (kv_app two_senders_world)) as Hwf.
  { apply (wf_index_insert _ "events" "7" "S2"); [|done..].
    by apply (wf_index_insert _ "events" "7" "S1"). }
  split.
  - split; [reflexivity|].
    apply (proj2 (proj1 registration_idempotent two_senders_world "T1" "conv1"
                    "evtA" "evtB")); [exact Hwf|reflexivity..].
  - split; [exact Hwf|].
    apply (proj2 (proj2 registration_idempotent platform_ok text_message
                    fresh_world "S1" "evtA" "evtA") "7" "conv1" "19:abc"
             "2025-01-01T00:00:00Z");
      [apply list_elem_of_singleton; reflexivity|exact Hwf0|reflexivity..].
Defined.

(** C5 as stated fails for ids that hold a [|]: registered twice
    under the conversation [a|b], the block [T1] is not among the subscribers
    looked up under that anchor (the third segment of its key is [b]); and
    once another block is registered under the conversation [c|T1], the
    lookup under [c] returns [T1] twice. *)
Lemma registration_idempotent_counterexample :
  let w1 := world (subscribeToReplies.onEvent "T1" "evtA" "a|b" fresh_world) in
  let w2 := world (subscribeToReplies.onEvent "T1" "evtA" "a|b" w1) in
  let w3 := world (subscribeToReplies.onEvent "X" "evtB" "c|T1" fresh_world) in
  let w4 := world (subscribeToReplies.onEvent "T1" "evtC" "c" w3) in
  let w5 := world (subscribeToReplies.onEvent "T1" "evtC" "c" w4) in
  (index_lookup "replies|a|b|" (kv_app w2) = [Some "b"] ∧
   length (filter (λ o, o = Some "T1")
             (index_lookup "replies|a|b|" (kv_app w2))) = 0) ∧
  (index_lookup "replies|c|" (kv_app w5) = [Some "T1"; Some "T1"] ∧
   length (filter (λ o, o = Some "T1")
             (index_lookup "replies|c|" (kv_app w5))) = 2).
Proof. vm_compute. repeat split. Qed.

(** ** The scenarios of the specification, end to end *)

(** A card submit on message [3], sent by [blockX] for event [evtP]: one
    action event from [blockX], parented to [evtP]. *)
Example action_submit_scenario :
  let platform := {| token_reply := Ok "token"; post_reply := Ok ("conv1", "3");
                     now := "2025-01-01T00:00:00Z" |} in
  let w0 := {| kv_app := ∅; kv_block := ∅;
               registry := [block_of "blockX" "sendMessage" None] |} in
  let w := world (sendMessage.onEvent platform "blockX" "evtP" text_message w0) in
  let a := sample_activity Message (Some "5") (Some "3") (Some "conv1") "user1"
             (Some (JS.VObj [("approve", JS.VBool true)])) [] None [] [] in
  trace (process a "bot" w) =
    [Emit "blockX"
       (ActionEvent (Some "submit")
          (Some (JS.VObj [("approve", JS.VBool true)])) "action"
          (Some "user1") None (Some "3") (Some "conv1")
          (Some "2025-01-01T00:00:00Z"))
       (Some "evtP") (Some "events")].
Proof. vm_compute. reflexivity. Qed.

(** Two senders registered under message [7], one of them deleted since:
    only the other one emits. *)
Example stale_subscriber_scenario :
  trace (process like_on_7 "bot" (delete_block "S2" two_senders_world)) =
    [reaction_event like_on_7 "add" (reaction "like") two_senders_world "S1"].
Proof. vm_compute. reflexivity. Qed.

(** A reply of the bot itself in a subscribed thread is not routed. *)
Example own_reply_is_ignored :
  let w := world (subscribeToReplies.onEvent "T1" "evtP" "conv1" fresh_world) in
  let a := sample_activity Message (Some "5") (Some "3") (Some "conv1")
             "28:11111111-aaaa" None [] None [] [] in
  trace (handleBotActivity a "11111111-aaaa" w) = [].
Proof. vm_compute. reflexivity. Qed.

(** After a block subscribed twice to one conversation, a reply in it is
    emitted as a child of the second subscription's event. *)
Example resubscription_scenario :
  let w1 := world (subscribeToReplies.onEvent "T1" "evtA" "conv1" fresh_world) in
  let w2 := world (subscribeToReplies.onEvent "T1" "evtB" "conv1" w1) in
  let a := sample_activity Message (Some "5") (Some "3") (Some "conv1")
             "user1" None [] None [] [] in
  trace (process a "bot" w2) =
    [Emit "T1"
       (ReplyEvent (Some "hello") None (Some "user1") None None (Some "5")
          (Some "2025-01-01T00:00:00Z"))
       (Some "evtB") None].
Proof. vm_compute. reflexivity. Qed.

(** * Further properties of the code *)

(** ** Processing an inbound activity *)

Lemma onInternalMessage_emits typeId i body w o :
  o ∈ trace (onInternalMessage typeId i body w) →
  ∃ payload parent key,
    o = Emit i payload parent key ∧
    (JS.truthy parent = true ∨
     (typeId = "mentionsSubscription" ∧ parent = None)).
Proof.
  unfold onInternalMessage.
  destruct (String.eqb typeId "sendMessage").
  { rewrite sendMessage_onInternalMessage_run. cbn [trace]. cbn zeta.
    destruct (JS.truthy _) eqn:Hp; [|by intros ?%elem_of_nil].
    intros [Hin|Hin]%elem_of_app.
    - destruct (String.eqb (b_type body) "reaction");
        [|by apply elem_of_nil in Hin].
      apply list_elem_of_singleton in Hin as ->. eauto 10.
    - destruct (String.eqb (b_type body) "action");
        [|by apply elem_of_nil in Hin].
      apply list_elem_of_singleton in Hin as ->. eauto 10. }
  destruct (String.eqb typeId "threadSubscription").
  { unfold subscribeToReplies.onInternalMessage.
    rewrite (bind_pure _ _ _ _ (kv_block_get_run _ _ _)).
    destruct (JS.truthy _) eqn:Hp; cbn [negb]; [|by intros ?%elem_of_nil].
    intros ->%list_elem_of_singleton. eauto 10. }
  destruct (String.eqb typeId "mentionsSubscription") eqn:Hty;
    [|by intros ?%elem_of_nil].
  apply String.eqb_eq in Hty.
  intros ->%list_elem_of_singleton. eauto 10.
Qed.

Lemma onInternalMessage_length typeId i body w :
  length (trace (onInternalMessage typeId i body w)) ≤ 1.
Proof.
  unfold onInternalMessage.
  destruct (String.eqb typeId "sendMessage").
  { rewrite sendMessage_onInternalMessage_run. cbn [trace]. cbn zeta.
    destruct (JS.truthy _); [|simpl; lia].
    destruct (String.eqb (b_type body) "reaction") eqn:Hr.
    - apply String.eqb_eq in Hr. rewrite Hr. simpl. lia.
    - destruct (String.eqb (b_type body) "action"); simpl; lia. }
  destruct (String.eqb typeId "threadSubscription").
  { unfold subscribeToReplies.onInternalMessage.
    rewrite (bind_pure _ _ _ _ (kv_block_get_run _ _ _)).
    destruct (JS.truthy _); simpl; lia. }
  destruct (String.eqb typeId "mentionsSubscription"); simpl; lia.
Qed.

Lemma deliver_trace ids body w :
  trace (deliver (SendToBlocks ids body) w) =
    ids ≫= λ i, trace (deliver_to body i w).
Proof.
  cbn [deliver]. by rewrite for_of_quiet by (intros; apply quiet_deliver_to).
Qed.


Lemma elem_of_dispatch ids bodies o :
  o ∈ dispatch ids bodies →
  ids ≠ [] ∧ ∃ body, body ∈ bodies ∧ o = SendToBlocks ids body.
Proof.
  unfold dispatch. destruct ids as [|i ids]; [by intros ?%elem_of_nil|].
  intros (body & -> & Hin)%list_elem_of_fmap. eauto.
Qed.

(** Whom the router addresses: blocks in the registry, of the type that
    handles the message. *)
Lemma addressed_block a appId w ids body i :
  SendToBlocks ids body ∈ trace (handleBotActivity a appId w) → i ∈ ids →
  ∃ b, b ∈ registry w ∧ blk_id b = i ∧
    ((b_type body = "mention" ∧ blk_typeId b = "mentionsSubscription") ∨
     (b_type body = "reply" ∧ blk_typeId b = "threadSubscription") ∨
     ((b_type body = "action" ∨ b_type body = "reaction") ∧
      blk_typeId b = "sendMessage")).
Proof.
  intros Hsend Hi.
  assert (b_type body = "mention" →
          ∃ b, b ∈ registry w ∧ blk_id b = i ∧
               blk_typeId b = "mentionsSubscription") as Hmention.
  { intros Hty. revert Hsend. unfold handleBotActivity.
    destruct (act_type a).
    - rewrite handleMessageActivity_trace. intros [Hin|Hin]%elem_of_app.
      + unfold mention_dispatch in Hin.
        destruct (botMentioned a); [|by apply elem_of_nil in Hin].
        apply elem_of_dispatch in Hin as (_ & body' & Hb & Heq).
        apply list_elem_of_singleton in Hb as ->. injection Heq as -> ->.
        apply list_elem_of_fmap in Hi as (b & -> & Hb).
        unfold mention_targets in Hb.
        apply list_elem_of_filter in Hb as [_ Hb].
        apply elem_of_live in Hb as [Hb Hbty]. eauto.
      + destruct (routeThread_run a appId w) as (_ & _ & Hroute).
        destruct Hroute; [by apply elem_of_nil in Hin|..];
          apply list_elem_of_singleton in Hin; injection Hin as -> ->;
          discriminate Hty.
    - rewrite handleReactionActivity_run; cbn [trace]. intros Hin.
      destruct (JS.truthy (act_replyToId a)); [|by apply elem_of_nil in Hin].
      cbn zeta in Hin.
      destruct (live_subscribers _ _ _); [by apply elem_of_nil in Hin|].
      apply elem_of_app in Hin as [Hin|Hin];
        apply list_elem_of_fmap in Hin as (r & Heq & _);
        injection Heq as -> ->; discriminate Hty.
    - by intros ?%elem_of_nil.
    - rewrite handleInvokeActivity_run; cbn [trace]. intros Hin.
      destruct (JS.truthy (act_replyToId a)); [|by apply elem_of_nil in Hin].
      cbn zeta in Hin.
      destruct (live_subscribers _ _ _); [by apply elem_of_nil in Hin|].
      apply list_elem_of_singleton in Hin. injection Hin as -> ->.
      discriminate Hty.
    - by intros ?%elem_of_nil. }
  destruct (dispatch_recipients _ _ _ _ _ Hsend)
    as [Hty|[(Hty & _ & Hids)|(Hty & _ & Hids)]].
  - destruct (Hmention Hty) as (b & Hb & Hid & Hbty). exists b. eauto 10.
  - rewrite Hids in Hi.
    apply elem_of_live_subscribers in Hi as (_ & b & Hb & Hbty & Hid).
    exists b. eauto 10.
  - rewrite Hids in Hi.
    apply elem_of_live_subscribers in Hi as (_ & b & Hb & Hbty & Hid).
    exists b. eauto 10.
Qed.

(** X2. The router addresses an internal message only to blocks that are in
    the registry at that moment and whose type has the handler for it: a
    mention to a mention subscriber, a reply to a thread subscriber, an
    action or a reaction to a message sender. What the handler of such a
    block emits for the message are events of that block only, each with a
    non-empty parent event id or, for a mention subscriber, without one. *)
Theorem only_live_blocks_emit (a : Activity) (appId : string) (w : World)
    (ids : list string) (body : Body) (i : string) :
  SendToBlocks ids body ∈ trace (handleBotActivity a appId w) → i ∈ ids →
  ∃ b, b ∈ registry w ∧ blk_id b = i ∧
    ((b_type body = "mention" ∧ blk_typeId b = "mentionsSubscription") ∨
     (b_type body = "reply" ∧ blk_typeId b = "threadSubscription") ∨
     ((b_type body = "action" ∨ b_type body = "reaction") ∧
      blk_typeId b = "sendMessage")) ∧
    ∀ o, o ∈ trace (onInternalMessage (blk_typeId b) i body w) →
      ∃ payload parent key,
        o = Emit i payload parent key ∧
        (JS.truthy parent = true ∨
         (blk_typeId b = "mentionsSubscription" ∧ parent = None)).
Proof.
  intros Hsend Hi.
  destruct (addressed_block _ _ _ _ _ _ Hsend Hi) as (b & Hb & Hid & Hty).
  exists b. split_and!; [done|done|done|].
  intros o Ho. by apply onInternalMessage_emits in Ho.
Qed.

Lemma only_live_blocks_emit_witness :
  let w := delete_block "S2" two_senders_world in
  let body := reaction_body like_on_7 "add" (reaction "like") in
  ∃ b, b ∈ registry w ∧ blk_id b = "S1" ∧
    ((b_type body = "mention" ∧ blk_typeId b = "mentionsSubscription") ∨
     (b_type body = "reply" ∧ blk_typeId b = "threadSubscription") ∨
     ((b_type body = "action" ∨ b_type body = "reaction") ∧
      blk_typeId b = "sendMessage")) ∧
    ∀ o, o ∈ trace (onInternalMessage (blk_typeId b) "S1" body w) →
      ∃ payload parent key,
        o = Emit "S1" payload parent key ∧
        (JS.truthy parent = true ∨
         (blk_typeId b = "mentionsSubscription" ∧ parent = None)).
Proof.
  intros w body.
  apply (only_live_blocks_emit like_on_7 "bot" w ["S1"] body "S1").
  - apply list_elem_of_singleton. reflexivity.
  - apply list_elem_of_singleton. reflexivity.
Defined.

(** X3. One internal message handed to one block yields at most one event:
    the reaction and the action branch of a message sender never both fire,
    a thread subscriber emits at most one reply event and a mention
    subscriber exactly one mention event. A message sender that is handed a
    message of another type than reaction or action emits nothing. *)
Theorem one_event_per_delivery (block : string) (body : Body) (w : World) :
  length (trace (sendMessage.onInternalMessage block body w)) ≤ 1 ∧
  length (trace (subscribeToReplies.onInternalMessage block body w)) ≤ 1 ∧
  length (trace (mentionsSubscription.onInternalMessage block body w)) = 1 ∧
  (b_type body ≠ "reaction" → b_type body ≠ "action" →
   trace (sendMessage.onInternalMessage block body w) = []).
Proof.
  split_and!.
  - apply (onInternalMessage_length "sendMessage").
  - apply (onInternalMessage_length "threadSubscription").
  - done.
  - intros Hr Ha. rewrite sendMessage_onInternalMessage_run. cbn [trace].
    cbn zeta. apply String.eqb_neq in Hr, Ha. rewrite Hr, Ha.
    by destruct (JS.truthy _).
Qed.

Lemma one_event_per_delivery_witness :
  let a := sample_activity Message (Some "9") (Some "7") (Some "conv1")
             "user1" None [] None [] [] in
  let body :=
    {| b_type := "reply"; b_action := None; b_reactionType := None;
       b_actionId := None; b_actionData := None;
       b_activity := a; b_text := act_text a; b_from := act_from a;
       b_replyToId := Some "7"; b_activityId := Some "7";
       b_conversationId := Some "conv1";
       b_conversation := act_conversation a;
       b_channelData := act_channelData a; b_timestamp := act_timestamp a |} in
  block_store two_senders_world "S1" !! "7" = Some "evtA" ∧
  trace (sendMessage.onInternalMessage "S1" body two_senders_world) = [].
Proof.
  intros a body. split; [reflexivity|].
  apply (one_event_per_delivery "S1" body two_senders_world); discriminate.
Defined.

(** ** Sending a message *)

(** X4. A send that throws (no content, no token, or a refused POST) has
    written nothing and emitted nothing: no subscription and no parent event
    is left behind by a failed send. A message without text and without
    cards throws before the platform is asked, whatever it would answer. *)
Theorem failed_send_registers_nothing (p : Platform) (block eventId : string)
    (cfg : sendMessage.InputConfig) (w : World) :
  (∀ msg, result (sendMessage.onEvent p block eventId cfg w) = Err msg →
          world (sendMessage.onEvent p block eventId cfg w) = w ∧
          trace (sendMessage.onEvent p block eventId cfg w) = []) ∧
  (JS.truthy (sendMessage.cfg_text cfg) = false →
   default [] (sendMessage.cfg_attachments cfg) = [] →
   result (sendMessage.onEvent p block eventId cfg w) =
     Err "Message must have either text content or adaptive cards").
Proof.
  split.
  - intros msg Herr.
    destruct (sendMessage_onEvent_run p cfg) as [[msg' Hrun]|[r Hrun]];
      rewrite Hrun in *; [done|discriminate Herr].
  - intros Htext Hcards. unfold sendMessage.onEvent. rewrite Htext.
    destruct (sendMessage.cfg_attachments cfg) as [cards|]; [|done].
    simpl in Hcards. by rewrite Hcards.
Qed.

Lemma failed_send_registers_nothing_witness :
  (world (sendMessage.onEvent platform_down "S1" "evtA" text_message
            fresh_world) = fresh_world ∧
   trace (sendMessage.onEvent platform_down "S1" "evtA" text_message
            fresh_world) = []) ∧
  result (sendMessage.onEvent platform_ok "S1" "evtA" empty_message
            fresh_world) =
    Err "Message must have either text content or adaptive cards".
Proof.
  split.
  - apply (proj1 (failed_send_registers_nothing platform_down "S1" "evtA"
                    text_message fresh_world)
             "Failed to get bot token: invalid_client").
    reflexivity.
  - apply (proj2 (failed_send_registers_nothing platform_ok "S1" "evtA"
                    empty_message fresh_world)); reflexivity.
Defined.

(** X5. A send with content that the platform accepts emits exactly one
    [MessageSent] event. In a thread (a non-empty conversation id in the
    input) the event reports that conversation id and the [id] of the
    platform's reply as the activity; otherwise it reports the [activityId]
    and the [id] of the reply as activity and conversation. The reported
    activity is the one registered: it resolves to the triggering event and
    its key is in the index. *)
Theorem send_reports_registered_activity (p : Platform)
    (block eventId token result_id result_activityId : string)
    (cfg : sendMessage.InputConfig) (w : World) :
  JS.truthy (sendMessage.cfg_text cfg) = true ∨
    default [] (sendMessage.cfg_attachments cfg) ≠ [] →
  token_reply p = Ok token →
  post_reply p = Ok (result_id, result_activityId) →
  let thread := JS.truthy (sendMessage.cfg_conversationId cfg) in
  let aid := if thread then result_id else result_activityId in
  let cid := if thread
             then JS.interpolate (sendMessage.cfg_conversationId cfg)
             else result_id in
  let o := sendMessage.onEvent p block eventId cfg w in
  result o = Ok tt ∧
  trace o = [Emit block
               (MessageSent aid cid (sendMessage.cfg_channelId cfg) (now p))
               None None] ∧
  result (kv_block_get block (Some aid) (world o)) = Ok (Some eventId) ∧
  kv_app (world o) !! subscription_key "events" aid block = Some true ∧
  registry (world o) = registry w.
Proof.
  intros Hcontent Htoken Hpost thread aid cid o. subst thread aid cid o.
  unfold sendMessage.onEvent.
  assert (negb (JS.truthy (sendMessage.cfg_text cfg))
          && match sendMessage.cfg_attachments cfg with
             | Some cards => (length cards =? 0)%nat
             | None => true
             end = false) as ->.
  { destruct Hcontent as [->|Hcards]; [done|].
    destruct (sendMessage.cfg_attachments cfg) as [[|c cards]|];
      simpl in *; try done; by rewrite andb_false_r. }
  unfold getBotAccessToken, sendMessageToChannel, bind.
  rewrite Htoken, Hpost. simpl.
  destruct (JS.truthy (sendMessage.cfg_conversationId cfg)); simpl;
    (split_and!; [done|done| |apply lookup_insert_eq|done]);
    unfold block_store at 1; simpl;
    rewrite lookup_insert_eq; simpl; by rewrite lookup_insert_eq.
Qed.

Lemma send_reports_registered_activity_witness :
  let platform := {| token_reply := Ok "token"; post_reply := Ok ("8", "");
                     now := "2025-01-01T00:00:00Z" |} in
  let cfg := {| sendMessage.cfg_channelId := "19:abc";
                sendMessage.cfg_text := Some "on it";
                sendMessage.cfg_attachments := None;
                sendMessage.cfg_conversationId := Some "thread1" |} in
  let o := sendMessage.onEvent platform "S1" "evtA" cfg fresh_world in
  result o = Ok tt ∧
  trace o = [Emit "S1"
               (MessageSent "8" "thread1" "19:abc" "2025-01-01T00:00:00Z")
               None None] ∧
  result (kv_block_get "S1" (Some "8") (world o)) = Ok (Some "evtA") ∧
  kv_app (world o) !! subscription_key "events" "8" "S1" = Some true ∧
  registry (world o) = registry fresh_world.
Proof.
  intros platform cfg.
  apply (send_reports_registered_activity platform "S1" "evtA" "token"
           "8" "" cfg fresh_world); [left|..]; reflexivity.
Defined.

(** ** Looking up the index *)

Lemma registered_is_found (index : gmap string bool) ns anchor subscriber :
  pipe_free ns = true → pipe_free anchor = true →
  pipe_free subscriber = true →
  is_Some (index !! subscription_key ns anchor subscriber) →
  Some subscriber ∈ index_lookup (ns +:+ "|" +:+ anchor +:+ "|") index.
Proof.
  intros Hns Ha Hs [v Hv]. unfold index_lookup.
  apply list_elem_of_fmap.
  exists (subscription_key ns anchor subscriber, v). split.
  - simpl. by rewrite split_subscription_key.
  - apply list_elem_of_filter. split.
    + simpl. apply Is_true_true. by apply startsWith_subscription_key.
    + by apply elem_of_map_to_list.
Qed.

(** X6. In an index whose keys were built from [|]-free parts, the lookup
    under the prefix of a namespace and an anchor returns exactly the
    subscribers registered under that namespace and anchor: nothing
    registered under another anchor or namespace shows up, nothing
    registered is missed, and no entry is [undefined]. *)
Theorem lookup_finds_the_registered (index : gmap string bool)
    (ns anchor : string) :
  wf_index index → pipe_free ns = true → pipe_free anchor = true →
  (∀ subscriber,
     Some subscriber ∈ index_lookup (ns +:+ "|" +:+ anchor +:+ "|") index ↔
     pipe_free subscriber = true ∧
     is_Some (index !! subscription_key ns anchor subscriber)) ∧
  None ∉ index_lookup (ns +:+ "|" +:+ anchor +:+ "|") index.
Proof.
  intros Hwf Hns Ha.
  assert (∀ o, o ∈ index_lookup (ns +:+ "|" +:+ anchor +:+ "|") index →
               ∃ s, o = Some s ∧ pipe_free s = true ∧
                    is_Some (index !! subscription_key ns anchor s)) as Hsound.
  { intros o Hin. unfold index_lookup in Hin.
    apply list_elem_of_fmap in Hin as ([k v] & -> & Hin).
    apply list_elem_of_filter in Hin as [Hpre Hin]. simpl in *.
    apply elem_of_map_to_list in Hin.
    destruct (Hwf k v Hin) as (ns' & a' & s' & -> & Hns' & Ha' & Hs').
    apply Is_true_true in Hpre.
    apply startsWith_subscription_key in Hpre as [-> ->]; [|done..].
    exists s'. rewrite split_subscription_key by done. eauto. }
  split.
  - intros subscriber. split.
    + intros Hin. destruct (Hsound _ Hin) as (s & [= ->] & Hs & Hreg). done.
    + intros [Hs Hreg]. by apply registered_is_found.
  - intros Hin. by destruct (Hsound _ Hin) as (s & [=] & _).
Qed.

Lemma lookup_finds_the_registered_witness :
  (Some "S1" ∈ index_lookup "events|7|" (kv_app two_senders_world)) ∧
  (Some "T1" ∉ index_lookup "events|7|" (kv_app two_senders_world)) ∧
  (None ∉ index_lookup "events|7|" (kv_app two_senders_world)).
Proof.
  assert (wf_index (kv_app two_senders_world)) as Hwf.
  { apply (wf_index_insert _ "events" "7" "S2"); [|done..].
    apply (wf_index_insert _ "events" "7" "S1"); [|done..].
    apply wf_index_empty. }
  pose proof (lookup_finds_the_registered (kv_app two_senders_world)
                "events" "7" Hwf eq_refl eq_refl) as [Hiff Hnone].
  split; [|split].
  - apply Hiff. split; [reflexivity|]. by exists true.
  - intros Hin. apply Hiff in Hin as [_ [v Hv]]. vm_compute in Hv.
    discriminate Hv.
  - exact Hnone.
Defined.

(** ** What a registration leaves alone *)

Lemma block_store_insert w block key value block' :
  default ∅ (<[block := <[key := value]> (block_store w block)]> (kv_block w)
             !! block') =
    if decide (block = block') then <[key := value]> (block_store w block)
    else block_store w block'.
Proof.
  unfold block_store. rewrite lookup_insert. by case_decide.
Qed.

(** X7. Nothing is ever unregistered: after a subscription or a send,
    successful or not, every key that was in the index is still there, every
    anchor a block had a parent event for still has one, and the registry is
    as it was. *)
Theorem registrations_persist (p : Platform) (block eventId conv : string)
    (cfg : sendMessage.InputConfig) (w w' : World) :
  w' = world (sendMessage.onEvent p block eventId cfg w) ∨
  w' = world (subscribeToReplies.onEvent block eventId conv w) →
  (∀ key, is_Some (kv_app w !! key) → is_Some (kv_app w' !! key)) ∧
  (∀ b anchor, is_Some (block_store w b !! anchor) →
               is_Some (block_store w' b !! anchor)) ∧
  registry w' = registry w.
Proof.
  assert (∀ key key' (index : gmap string bool),
            is_Some (index !! key) → is_Some (<[key' := true]> index !! key))
    as Happ.
  { intros key key' index Hk. rewrite lookup_insert. by case_decide. }
  assert (∀ b anchor key value,
            is_Some (block_store w b !! anchor) →
            is_Some (default ∅
                       (<[block := <[key := value]> (block_store w block)]>
                          (kv_block w) !! b) !! anchor)) as Hblock.
  { intros b anchor key value Hk. rewrite block_store_insert.
    case_decide; [subst b|done]. rewrite lookup_insert. by case_decide. }
  intros [->| ->].
  - destruct (sendMessage_onEvent_run p cfg) as [[msg Hrun]|[r Hrun]];
      rewrite Hrun; cbn [world]; [done|].
    split_and!; [intros key; apply Happ|intros b anchor; apply Hblock|done].
  - rewrite subscribeToReplies_onEvent_run; cbn [world].
    split_and!; [intros key; apply Happ|intros b anchor; apply Hblock|done].
Qed.

Lemma registrations_persist_witness :
  let w' := world (subscribeToReplies.onEvent "T1" "evtC" "conv1"
                     two_senders_world) in
  (∀ key, is_Some (kv_app two_senders_world !! key) →
          is_Some (kv_app w' !! key)) ∧
  (∀ b anchor, is_Some (block_store two_senders_world b !! anchor) →
               is_Some (block_store w' b !! anchor)) ∧
  registry w' = registry two_senders_world.
Proof.
  intros w'.
  apply (registrations_persist platform_ok "T1" "evtC" "conv1" text_message
           two_senders_world w').
  right. reflexivity.
Defined.

(** X8. A registration is local to the registering block and to the
    registered anchor: a subscription or a send by one block changes no
    other block's parent events, and for the same block no other anchor's
    parent event; a subscription changes the index at its own key only. *)
Theorem registration_is_local (p : Platform) (block eventId conv : string)
    (cfg : sendMessage.InputConfig) (w : World) :
  let sent := sendMessage.onEvent p block eventId cfg w in
  let subscribed := subscribeToReplies.onEvent block eventId conv w in
  (∀ b, b ≠ block →
        block_store (world sent) b = block_store w b ∧
        block_store (world subscribed) b = block_store w b) ∧
  (∀ anchor, anchor ≠ conv →
             block_store (world subscribed) block !! anchor =
               block_store w block !! anchor) ∧
  (∀ anchor,
     (∀ cid ch ts,
        Emit block (MessageSent anchor cid ch ts) None None ∉ trace sent) →
     block_store (world sent) block !! anchor = block_store w block !! anchor) ∧
  (∀ key, key ≠ subscription_key "replies" conv block →
          kv_app (world subscribed) !! key = kv_app w !! key).
Proof.
  intros sent subscribed. subst sent subscribed.
  rewrite subscribeToReplies_onEvent_run.
  destruct (sendMessage_onEvent_run p cfg) as [[msg Hrun]|[r Hrun]];
    rewrite Hrun; cbn [world trace kv_app].
  - split_and!.
    + intros b Hb. split; [done|]. unfold block_store at 1; cbn [kv_block].
      rewrite block_store_insert. by case_decide.
    + intros anchor Hne. unfold block_store at 1; cbn [kv_block].
      rewrite block_store_insert. case_decide; [|done].
      by rewrite lookup_insert_ne.
    + done.
    + intros key Hne. by rewrite lookup_insert_ne.
  - split_and!.
    + intros b Hb. split; unfold block_store at 1; cbn [kv_block];
        rewrite block_store_insert; by case_decide.
    + intros anchor Hne. unfold block_store at 1; cbn [kv_block].
      rewrite block_store_insert. case_decide; [|done].
      by rewrite lookup_insert_ne.
    + intros anchor Hnot. unfold block_store at 1; cbn [kv_block].
      rewrite block_store_insert. case_decide; [|done].
      rewrite lookup_insert_ne; [done|]. intros <-.
      eapply Hnot. apply list_elem_of_singleton. reflexivity.
    + intros key Hne. by rewrite lookup_insert_ne.
Qed.

Lemma registration_is_local_witness :
  let w' := world (sendMessage.onEvent platform_ok "S1" "evtC" text_message
                     two_senders_world) in
  block_store w' "S2" = block_store two_senders_world "S2" ∧
  block_store w' "S1" !! "6" = block_store two_senders_world "S1" !! "6".
Proof.
  intros w'.
  pose proof (registration_is_local platform_ok "S1" "evtC" "conv1"
                text_message two_senders_world) as (Hother & _ & Hanchor & _).
  split.
  - apply (Hother "S2"). discriminate.
  - apply (Hanchor "6"). intros cid ch ts Hin.
    apply list_elem_of_singleton in Hin. discriminate Hin.
Defined.

(** ** From a registration to the events of a block *)

Lemma process_delivers a appId w ids body i o :
  SendToBlocks ids body ∈ trace (handleBotActivity a appId w) →
  i ∈ ids → o ∈ trace (deliver_to body i w) →
  o ∈ trace (process a appId w).
Proof.
  intros Hsend Hi Ho. rewrite process_trace.
  apply list_elem_of_bind. eexists. split; [|exact Hsend].
  rewrite deliver_trace. apply list_elem_of_bind. eauto.
Qed.

Lemma deliver_to_live body i prefix typeId w :
  NoDup (blk_id <$> registry w) →
  i ∈ live_subscribers prefix typeId w →
  deliver_to body i w = onInternalMessage typeId i body w.
Proof.
  intros Hnd Hin.
  apply elem_of_live_subscribers in Hin as (_ & b & Hb & Hty & <-).
  unfold deliver_to. by rewrite (find_block _ b Hnd Hb), Hty.
Qed.

Lemma registered_is_live ns anchor block typeId w :
  pipe_free ns = true → pipe_free anchor = true → pipe_free block = true →
  is_Some (kv_app w !! subscription_key ns anchor block) →
  (∃ b, b ∈ registry w ∧ blk_id b = block ∧ blk_typeId b = typeId) →
  block ∈ live_subscribers (ns +:+ "|" +:+ anchor +:+ "|") typeId w.
Proof.
  intros Hns Ha Hb Hreg (b & Hin & Hid & Hty).
  apply elem_of_live_subscribers. split; [by apply registered_is_found|].
  eauto.
Qed.

Lemma routeThread_reply a botId w r c :
  message_replyToId a = Some r → JS.truthy (Some r) = true →
  isFromBot a botId = false → JS.truthy_value (act_value a) = false →
  conversation_id a = Some c → JS.truthy (Some c) = true →
  live_subscribers ("replies|" +:+ c +:+ "|") "threadSubscription" w ≠ [] →
  trace (routeThread a botId w) =
    [SendToBlocks
       (live_subscribers ("replies|" +:+ c +:+ "|") "threadSubscription" w)
       (reply_body a (Some r) (Some c))].
Proof.
  intros Hr Htr Hbot Hval Hc Htc Hlive. unfold routeThread.
  rewrite Hr, Htr, Hbot, Hval, Hc, Htc. cbn [negb JS.interpolate].
  rewrite (bind_pure _ _ _ _ (subscribedBlockIds_lookup _ _)).
  unfold live_subscribers in Hlive.
  destruct (index_lookup _ _) as [|o l] eqn:Hlookup; [done|].
  cbn [length Nat.ltb Nat.leb].
  rewrite (bind_pure _ _ _ _ (blocks_list_live _ _)).
  unfold live_subscribers. rewrite Hlookup.
  by destruct (validBlockIds _ _).
Qed.

(** X9. Round trip of a sent message: once a message-sender block has sent
    a message (the send reported activity [aid]), a reaction activity on
    [aid] makes that block emit the reaction event, for every added and
    every removed reaction, as a child of the event that triggered the send
    - provided the block is in the registry under a unique id, and neither
    [aid] nor the block id holds a [|] or the event id is empty. *)
Theorem sent_message_receives_reactions (p : Platform)
    (block eventId aid cid ch ts appId action : string)
    (cfg : sendMessage.InputConfig) (w : World) (a : Activity)
    (r : MessageReaction) :
  let w' := world (sendMessage.onEvent p block eventId cfg w) in
  Emit block (MessageSent aid cid ch ts) None None
    ∈ trace (sendMessage.onEvent p block eventId cfg w) →
  NoDup (blk_id <$> registry w) →
  (∃ b, b ∈ registry w ∧ blk_id b = block ∧ blk_typeId b = "sendMessage") →
  pipe_free aid = true → pipe_free block = true →
  JS.truthy (Some aid) = true → JS.truthy (Some eventId) = true →
  act_type a = MessageReactionT → act_replyToId a = Some aid →
  (action = "add" ∧ r ∈ default [] (act_reactionsAdded a)) ∨
  (action = "remove" ∧ r ∈ default [] (act_reactionsRemoved a)) →
  Emit block
    (ReactionEvent (reaction_type r) (Some action) "reaction"
       (from_id a) (act_from a ≫= acc_aadObjectId)
       (Some aid) (conversation_id a) (act_timestamp a))
    (Some eventId) (Some "events")
  ∈ trace (process a appId w').
Proof.
  intros w' Hsent Hnd Hblock Haid Hb Htaid Hte Hty Hreply Hr. subst w'.
  destruct (sendMessage_onEvent_run p cfg) as [[msg Hrun]|[res Hrun]];
    rewrite Hrun in *; cbn [trace world] in *;
    [by apply elem_of_nil in Hsent|].
  apply list_elem_of_singleton in Hsent. injection Hsent as <- _ _ _.
  set (w' := {| kv_app := _; kv_block := _; registry := registry w |}).
  assert (block ∈ live_subscribers ("events|" +:+ aid +:+ "|") "sendMessage" w')
    as Hlive.
  { apply (registered_is_live "events"); [done..| |done].
    exists true. apply lookup_insert_eq. }
  assert (block_store w' block !! aid = Some eventId) as Hparent.
  { unfold block_store; cbn [kv_block w'].
    rewrite lookup_insert_eq; simpl. apply lookup_insert_eq. }
  assert (SendToBlocks
            (live_subscribers ("events|" +:+ aid +:+ "|") "sendMessage" w')
            (reaction_body a action r)
          ∈ trace (handleBotActivity a appId w')) as Hsend.
  { unfold handleBotActivity. rewrite Hty, handleReactionActivity_run.
    cbn [trace]. rewrite Hreply, Htaid. cbn [JS.interpolate]. cbn zeta.
    destruct (live_subscribers _ _ _) as [|i l] eqn:Hl;
      [by apply elem_of_nil in Hlive|].
    apply elem_of_app.
    destruct Hr as [[-> Hr]|[-> Hr]]; [left|right];
      by apply (list_elem_of_fmap_2
                  (λ r, SendToBlocks _ (reaction_body a _ r))). }
  eapply process_delivers; [exact Hsend|exact Hlive|].
  rewrite (deliver_reaction a action r w' block _ Hnd Hlive)
    by (by rewrite Hreply; cbn [mbind option_bind]; rewrite Hparent).
  apply list_elem_of_singleton. unfold reaction_event.
  rewrite Hreply. cbn [mbind option_bind]. by rewrite Hparent.
Qed.

Lemma sent_message_receives_reactions_witness :
  Emit "S1"
    (ReactionEvent (Some "like") (Some "add") "reaction" (Some "user1") None
       (Some "7") (Some "conv1") (Some "2025-01-01T00:00:00Z"))
    (Some "evtA") (Some "events")
  ∈ trace (process like_on_7 "bot"
             (world (sendMessage.onEvent platform_ok "S1" "evtA" text_message
                       fresh_world))).
Proof.
  apply (sent_message_receives_reactions platform_ok "S1" "evtA" "7" "conv1"
           "19:abc" "2025-01-01T00:00:00Z" "bot" "add" text_message
           fresh_world like_on_7 (reaction "like")).
  - apply list_elem_of_singleton. reflexivity.
  - apply (bool_decide_unpack _). vm_compute. exact I.
  - exists (block_of "S1" "sendMessage" None).
    split; [repeat constructor|split; reflexivity].
  - reflexivity.
  - reflexivity.
  - reflexivity.
  - reflexivity.
  - reflexivity.
  - reflexivity.
  - left. split; [reflexivity|]. apply list_elem_of_singleton. reflexivity.
Defined.

(** X10. Round trip of a card: once a message-sender block has sent a
    message, an invoke activity on it makes that block emit one action event
    as a child of the event that triggered the send, carrying the invoke's
    name as action id and its value (an empty object when the value is
    absent or falsy) as action data - under the same provisos. *)
Theorem sent_message_receives_card_actions (p : Platform)
    (block eventId aid cid ch ts appId : string)
    (cfg : sendMessage.InputConfig) (w : World) (a : Activity) :
  let w' := world (sendMessage.onEvent p block eventId cfg w) in
  Emit block (MessageSent aid cid ch ts) None None
    ∈ trace (sendMessage.onEvent p block eventId cfg w) →
  NoDup (blk_id <$> registry w) →
  (∃ b, b ∈ registry w ∧ blk_id b = block ∧ blk_typeId b = "sendMessage") →
  pipe_free aid = true → pipe_free block = true →
  JS.truthy (Some aid) = true → JS.truthy (Some eventId) = true →
  act_type a = Invoke → act_replyToId a = Some aid →
  Emit block
    (ActionEvent (act_name a)
       (Some (if JS.truthy_value (act_value a)
              then default (JS.VObj []) (act_value a) else JS.VObj []))
       "action" (from_id a) (act_from a ≫= acc_aadObjectId)
       (Some aid) (conversation_id a) (act_timestamp a))
    (Some eventId) (Some "events")
  ∈ trace (process a appId w').
Proof.
  intros w' Hsent Hnd Hblock Haid Hb Htaid Hte Hty Hreply. subst w'.
  destruct (sendMessage_onEvent_run p cfg) as [[msg Hrun]|[res Hrun]];
    rewrite Hrun in *; cbn [trace world] in *;
    [by apply elem_of_nil in Hsent|].
  apply list_elem_of_singleton in Hsent. injection Hsent as <- _ _ _.
  set (w' := {| kv_app := _; kv_block := _; registry := registry w |}).
  assert (block ∈ live_subscribers ("events|" +:+ aid +:+ "|") "sendMessage" w')
    as Hlive.
  { apply (registered_is_live "events"); [done..| |done].
    exists true. apply lookup_insert_eq. }
  assert (block_store w' block !! aid = Some eventId) as Hparent.
  { unfold block_store; cbn [kv_block w'].
    rewrite lookup_insert_eq; simpl. apply lookup_insert_eq. }
  assert (SendToBlocks
            (live_subscribers ("events|" +:+ aid +:+ "|") "sendMessage" w')
            (invoke_body a)
          ∈ trace (handleBotActivity a appId w')) as Hsend.
  { unfold handleBotActivity. rewrite Hty, handleInvokeActivity_run.
    cbn [trace]. rewrite Hreply, Htaid. cbn [JS.interpolate]. cbn zeta.
    destruct (live_subscribers _ _ _) as [|i l] eqn:Hl;
      [by apply elem_of_nil in Hlive|].
    by apply list_elem_of_singleton. }
  eapply process_delivers; [exact Hsend|exact Hlive|].
  rewrite (deliver_to_live _ _ _ _ w' Hnd Hlive).
  unfold onInternalMessage. cbn [String.eqb Ascii.eqb Bool.eqb].
  rewrite sendMessage_onInternalMessage_run. cbn [trace]. cbn zeta.
  cbn [b_activityId b_type invoke_body]. rewrite Hreply.
  cbn [mbind option_bind]. rewrite Hparent, Hte.
  apply list_elem_of_singleton. reflexivity.
Qed.

Lemma sent_message_receives_card_actions_witness :
  let a := sample_activity Invoke (Some "9") (Some "7") (Some "conv1") "user1"
             None [] None [] [] in
  Emit "S1"
    (ActionEvent None (Some (JS.VObj [])) "action" (Some "user1") None
       (Some "7") (Some "conv1") (Some "2025-01-01T00:00:00Z"))
    (Some "evtA") (Some "events")
  ∈ trace (process a "bot"
             (world (sendMessage.onEvent platform_ok "S1" "evtA" text_message
                       fresh_world))).
Proof.
  intros a.
  apply (sent_message_receives_card_actions platform_ok "S1" "evtA" "7"
           "conv1" "19:abc" "2025-01-01T00:00:00Z" "bot" text_message
           fresh_world a).
  - apply list_elem_of_singleton. reflexivity.
  - apply (bool_decide_unpack _). vm_compute. exact I.
  - exists (block_of "S1" "sendMessage" None).
    split; [repeat constructor|split; reflexivity].
  - reflexivity.
  - reflexivity.
  - reflexivity.
  - reflexivity.
  - reflexivity.
  - reflexivity.
Defined.

(** X11. Round trip of a thread subscription: once a thread-subscriber
    block has subscribed to a conversation, a message in that conversation
    that has a reply target, is not from the bot and carries no value makes
    that block emit the reply event, with the reply's own activity id, as a
    child of the event that triggered the subscription - provided the block
    is in the registry under a unique id, neither the conversation id nor
    the block id holds a [|], and the conversation and event ids are not
    empty. *)
Theorem subscribed_thread_receives_replies
    (block eventId conv appId : string) (w : World) (a : Activity) :
  let w' := world (subscribeToReplies.onEvent block eventId conv w) in
  NoDup (blk_id <$> registry w) →
  (∃ b, b ∈ registry w ∧ blk_id b = block ∧
        blk_typeId b = "threadSubscription") →
  pipe_free conv = true → pipe_free block = true →
  JS.truthy (Some conv) = true → JS.truthy (Some eventId) = true →
  act_type a = Message → conversation_id a = Some conv →
  JS.truthy (message_replyToId a) = true →
  isFromBot a appId = false → JS.truthy_value (act_value a) = false →
  Emit block
    (ReplyEvent (act_text a) (act_attachments a) (from_id a)
       (act_from a ≫= acc_name) (act_from a ≫= acc_aadObjectId)
       (act_id a) (act_timestamp a))
    (Some eventId) None
  ∈ trace (process a appId w').
Proof.
  intros w' Hnd Hblock Hconv Hb Htc Hte Hty Hc Hreply Hbot Hval. subst w'.
  rewrite subscribeToReplies_onEvent_run. cbn [world].
  set (w' := {| kv_app := _; kv_block := _; registry := registry w |}).
  assert (block ∈ live_subscribers ("replies|" +:+ conv +:+ "|")
                    "threadSubscription" w') as Hlive.
  { apply (registered_is_live "replies"); [done..| |done].
    exists true. apply lookup_insert_eq. }
  assert (block_store w' block !! conv = Some eventId) as Hparent.
  { unfold block_store; cbn [kv_block w'].
    rewrite lookup_insert_eq; simpl. apply lookup_insert_eq. }
  destruct (truthy_Some _ Hreply) as [r Hr]. rewrite Hr in Hreply.
  assert (SendToBlocks
            (live_subscribers ("replies|" +:+ conv +:+ "|")
               "threadSubscription" w')
            (reply_body a (Some r) (Some conv))
          ∈ trace (handleBotActivity a appId w')) as Hsend.
  { unfold handleBotActivity. rewrite Hty.
    destruct (handleMessageActivity_run a appId w') as (_ & _ & ->).
    apply elem_of_app. right.
    rewrite (routeThread_reply a appId w' r conv) by
      (try done; intros Hnil; rewrite Hnil in Hlive;
       by apply elem_of_nil in Hlive).
    by apply list_elem_of_singleton. }
  eapply process_delivers; [exact Hsend|exact Hlive|].
  rewrite (deliver_to_live _ _ _ _ w' Hnd Hlive).
  unfold onInternalMessage. cbn [String.eqb Ascii.eqb Bool.eqb].
  unfold subscribeToReplies.onInternalMessage.
  rewrite (bind_pure _ _ _ _ (kv_block_get_run _ _ _)).
  cbn [b_conversationId reply_body mbind option_bind].
  rewrite Hparent, Hte. cbn [negb].
  apply list_elem_of_singleton. reflexivity.
Qed.

Lemma subscribed_thread_receives_replies_witness :
  let a := sample_activity Message (Some "5") (Some "3") (Some "conv1")
             "user1" None [] None [] [] in
  Emit "T1"
    (ReplyEvent (Some "hello") None (Some "user1") None None (Some "5")
       (Some "2025-01-01T00:00:00Z"))
    (Some "evtP") None
  ∈ trace (process a "bot"
             (world (subscribeToReplies.onEvent "T1" "evtP" "conv1"
                       fresh_world))).
Proof.
  intros a.
  apply (subscribed_thread_receives_replies "T1" "evtP" "conv1" "bot"
           fresh_world a).
  - apply (bool_decide_unpack _). vm_compute. exact I.
  - exists (block_of "T1" "threadSubscription" None).
    split; [repeat constructor|split; reflexivity].
  - reflexivity.
  - reflexivity.
  - reflexivity.
  - reflexivity.
  - reflexivity.
  - reflexivity.
  - reflexivity.
  - reflexivity.
  - reflexivity.
Defined.

(** X12. Mentions need no registration: when a message mentions the bot,
    every mention subscriber that passes the channel filter emits one
    mention event without a parent, carrying the text, ids, channel and
    sender of the message, whatever the stores hold - provided block ids
    are unique in the registry. *)
Theorem mention_reaches_every_subscriber (a : Activity) (appId : string)
    (w : World) (block : Block) :
  act_type a = Message → botMentioned a = true →
  NoDup (blk_id <$> registry w) →
  block ∈ mention_targets a w →
  mention_event a (blk_id block) ∈ trace (process a appId w).
Proof.
  intros Hty Hbot Hnd Hblock.
  assert (SendToBlocks (blk_id <$> mention_targets a w) (mention_body a)
          ∈ trace (handleBotActivity a appId w)) as Hsend.
  { unfold handleBotActivity. rewrite Hty.
    destruct (handleMessageActivity_run a appId w) as (_ & _ & ->).
    apply elem_of_app. left. rewrite routeMention_run. cbn [trace].
    rewrite Hbot. destruct (mention_targets a w) eqn:Ht;
      [by apply elem_of_nil in Hblock|].
    by apply list_elem_of_singleton. }
  eapply process_delivers;
    [exact Hsend|by apply list_elem_of_fmap_2|].
  apply elem_of_mention_targets in Hblock as (Hin & Htype & _).
  unfold deliver_to. rewrite (find_block _ block Hnd Hin).
  unfold onInternalMessage. rewrite Htype.
  cbn [String.eqb Ascii.eqb Bool.eqb].
  apply list_elem_of_singleton. reflexivity.
Qed.

Lemma mention_reaches_every_subscriber_witness :
  let a := sample_activity Message (Some "5") None (Some "conv1") "user1" None
             [mention_of "28:11111111-aaaa"] (Some "19:abc") [] [] in
  Emit "M1"
    (MentionEvent (Some "hello") (Some "5") (Some "19:abc") None
       (Some "conv1") (Some (account "user1"))
       (Some "2025-01-01T00:00:00Z"))
    None None
  ∈ trace (process a "11111111-aaaa" fresh_world).
Proof.
  intros a.
  apply (mention_reaches_every_subscriber a "11111111-aaaa" fresh_world
           (block_of "M1" "mentionsSubscription" (Some "19:abc"))).
  - reflexivity.
  - reflexivity.
  - apply (bool_decide_unpack _). vm_compute. exact I.
  - apply elem_of_mention_targets.
    split; [repeat constructor|]. split; [reflexivity|]. right. reflexivity.
Defined.

(** ** Which messages the thread routes skip *)

(** X13. A message of the bot itself - its sender id contains the app id,
    with a leading ["28:"] of the configured id stripped - is never routed as
    a reply or as an action, whatever is subscribed. *)
Theorem own_messages_are_not_routed (a : Activity) (appId : string)
    (w : World) :
  act_type a = Message → isFromBot a appId = true →
  sent_count "reply" (trace (handleBotActivity a appId w)) = 0 ∧
  sent_count "action" (trace (handleBotActivity a appId w)) = 0.
Proof.
  intros Hty Hbot. unfold handleBotActivity. rewrite Hty.
  destruct (handleMessageActivity_run a appId w) as (_ & _ & ->).
  rewrite !sent_count_app, !routeMention_sent. simpl.
  destruct (routeThread_run a appId w) as (_ & _ & Hroute).
  destruct Hroute as [|r ids _ _ Hnot _ _ _|r c ids _ _ Hnot _ _ _ _ _];
    [done|congruence|congruence].
Qed.

Lemma own_messages_are_not_routed_witness :
  let a := sample_activity Message (Some "5") (Some "3") (Some "conv1")
             "28:11111111-aaaa" None [] None [] [] in
  let w := world (subscribeToReplies.onEvent "T1" "evtP" "conv1" fresh_world) in
  sent_count "reply" (trace (handleBotActivity a "28:11111111-aaaa" w)) = 0 ∧
  sent_count "action" (trace (handleBotActivity a "28:11111111-aaaa" w)) = 0.
Proof.
  intros a w.
  apply (own_messages_are_not_routed a "28:11111111-aaaa" w); reflexivity.
Defined.

(** X14. A message with a truthy value is a card submit and nothing else:
    it is never routed as a reply, even when the thread has subscribers and
    the submitted-to message has none. *)
Theorem submit_is_never_a_reply (a : Activity) (appId : string) (w : World) :
  act_type a = Message → JS.truthy_value (act_value a) = true →
  sent_count "reply" (trace (handleBotActivity a appId w)) = 0.
Proof.
  intros Hty Hval. unfold handleBotActivity. rewrite Hty.
  destruct (handleMessageActivity_run a appId w) as (_ & _ & ->).
  rewrite !sent_count_app, !routeMention_sent. simpl.
  destruct (routeThread_run a appId w) as (_ & _ & Hroute).
  destruct Hroute as [|r ids _ _ _ _ _ _|r c ids _ _ _ Hnot _ _ _ _];
    [done|done|congruence].
Qed.

Lemma submit_is_never_a_reply_witness :
  let a := sample_activity Message (Some "5") (Some "3") (Some "conv1")
             "user1" (Some (JS.VObj [("approve", JS.VBool true)])) [] None
             [] [] in
  let w := world (subscribeToReplies.onEvent "T1" "evtP" "conv1" fresh_world) in
  trace (handleBotActivity a "bot" w) = [] ∧
  sent_count "reply" (trace (handleBotActivity a "bot" w)) = 0.
Proof.
  intros a w. split; [reflexivity|].
  apply (submit_is_never_a_reply a "bot" w); reflexivity.
Defined.

(** ** The reply target of a message *)

Lemma strip_prefix_Some p s rest :
  JS.strip_prefix p s = Some rest → s = p +:+ rest.
Proof.
  revert s. induction p as [|a p IH]; intros s H; simpl in H.
  - by injection H as ->.
  - destruct s as [|b s]; [done|].
    destruct (Ascii.eqb a b) eqn:Hab; [|done].
    apply Ascii.eqb_eq in Hab as ->. rewrite append_cons. f_equal. by apply IH.
Qed.

Lemma strip_prefix_app p rest : JS.strip_prefix p (p +:+ rest) = Some rest.
Proof.
  induction p as [|a p IH]; [done|].
  rewrite append_cons. simpl. by rewrite Ascii.eqb_refl.
Qed.

Lemma take_digits_split s :
  all_digits (JS.take_digits s) = true ∧
  ∃ post, s = JS.take_digits s +:+ post ∧ no_leading_digit post = true.
Proof.
  induction s as [|c s [IHd (post & IHs & IHp)]]; simpl.
  - split; [done|]. by exists "".
  - destruct (JS.is_digit c) eqn:Hc; simpl.
    + rewrite Hc, IHd. split; [done|]. exists post.
      rewrite append_cons. by rewrite <- IHs.
    + split; [done|]. exists (String c s). simpl. by rewrite Hc.
Qed.

Lemma match_messageid_here_Some s d :
  JS.match_messageid_here s = Some d →
  d ≠ "" ∧ all_digits d = true ∧
  ∃ post, s = ";messageid=" +:+ d +:+ post ∧ no_leading_digit post = true.
Proof.
  unfold JS.match_messageid_here.
  destruct (JS.strip_prefix ";messageid=" s) as [rest|] eqn:Hstrip; [|done].
  apply strip_prefix_Some in Hstrip as ->.
  destruct (take_digits_split rest) as [Hd (post & Hrest & Hpost)].
  destruct (JS.take_digits rest) as [|c ds] eqn:Htake; [done|].
  intros [= <-]. split_and!; [done|done|].
  exists post. by rewrite <- Hrest.
Qed.

Lemma match_messageid_Some s d :
  JS.match_messageid s = Some d →
  d ≠ "" ∧ all_digits d = true ∧
  ∃ pre post, s = pre +:+ ";messageid=" +:+ d +:+ post ∧
              no_leading_digit post = true.
Proof.
  induction s as [|a s IH]; cbn [JS.match_messageid].
  - destruct (JS.match_messageid_here "") as [d'|] eqn:Hhere; [|done].
    intros [= ->].
    apply match_messageid_here_Some in Hhere as (? & ? & post & ? & ?).
    split_and!; [done..|]. by exists "", post.
  - destruct (JS.match_messageid_here (String a s)) as [d'|] eqn:Hhere.
    + intros [= ->].
      apply match_messageid_here_Some in Hhere as (? & ? & post & ? & ?).
      split_and!; [done..|]. by exists "", post.
    + intros Hrec. destruct (IH Hrec) as (? & ? & pre & post & -> & ?).
      split_and!; [done..|]. by exists (String a pre), post.
Qed.

Lemma match_messageid_occurrence pre c post :
  JS.is_digit c = true →
  JS.match_messageid (pre +:+ ";messageid=" +:+ String c post) ≠ None.
Proof.
  intros Hc. induction pre as [|a pre IH].
  - rewrite append_nil_l.
    assert (JS.match_messageid_here (";messageid=" +:+ String c post) =
            Some (String c (JS.take_digits post))) as Hhere.
    { unfold JS.match_messageid_here. rewrite strip_prefix_app.
      simpl. by rewrite Hc. }
    destruct (";messageid=" +:+ String c post);
      cbn [JS.match_messageid]; by rewrite Hhere.
  - rewrite append_cons. cbn [JS.match_messageid].
    by destruct (JS.match_messageid_here _).
Qed.

(** X15. The match of [/;messageid=(\d+)/] on a conversation id: a capture
    is a non-empty run of digits that follows [;messageid=] in the id and is
    not followed by a further digit; and there is no capture exactly when
    the id holds no [;messageid=] followed by a digit. *)
Theorem messageid_capture (s : string) :
  (∀ d, JS.match_messageid s = Some d →
        d ≠ "" ∧ all_digits d = true ∧
        ∃ pre post, s = pre +:+ ";messageid=" +:+ d +:+ post ∧
                    no_leading_digit post = true) ∧
  (JS.match_messageid s = None ↔
   ∀ pre c post, JS.is_digit c = true →
                 s ≠ pre +:+ ";messageid=" +:+ String c post).
Proof.
  split; [intros d; apply match_messageid_Some|]. split.
  - intros Hnone pre c post Hc ->.
    by apply (match_messageid_occurrence pre c post Hc).
  - intros Hno. destruct (JS.match_messageid s) as [d|] eqn:Hm; [|done].
    apply match_messageid_Some in Hm as (Hne & Hd & pre & post & -> & _).
    destruct d as [|c d]; [done|].
    simpl in Hd. apply andb_true_iff in Hd as [Hc _].
    destruct (Hno pre c (d +:+ post) Hc). by rewrite append_cons.
Qed.

Lemma messageid_capture_witness :
  ("1700" ≠ "" ∧ all_digits "1700" = true ∧
   ∃ pre post,
     "19:abc@thread.tacv2;messageid=1700;x" =
       pre +:+ ";messageid=" +:+ "1700" +:+ post ∧
     no_leading_digit post = true) ∧
  JS.match_messageid "19:abc@thread.tacv2;messageid=" = None.
Proof.
  split.
  - apply (proj1 (messageid_capture "19:abc@thread.tacv2;messageid=1700;x")).
    reflexivity.
  - reflexivity.
Defined.

(** X16. The reply target of a message is its explicit [replyToId] whenever
    that is non-empty, and also whenever the message has no id or no
    conversation id; otherwise it can only be the digits captured from the
    conversation id, which are then non-empty and differ from the message's
    own id. *)
Theorem reply_target_of_a_message (a : Activity) :
  (JS.truthy (act_replyToId a) = true ∨ JS.truthy (act_id a) = false ∨
   JS.truthy (conversation_id a) = false →
   message_replyToId a = act_replyToId a) ∧
  (message_replyToId a ≠ act_replyToId a →
   ∃ conv d,
     conversation_id a = Some conv ∧ JS.match_messageid conv = Some d ∧
     message_replyToId a = Some d ∧ act_id a ≠ Some d ∧
     JS.truthy (Some d) = true).
Proof.
  unfold message_replyToId. split.
  - intros Hcase. destruct (conversation_id a) as [conv|]; [|done].
    destruct Hcase as [-> | [-> | ->]].
    + done.
    + by rewrite andb_false_r.
    + by rewrite andb_false_r.
  - destruct (conversation_id a) as [conv|]; [|done].
    destruct (negb _ && _ && _); [|done].
    destruct (JS.match_messageid conv) as [d|] eqn:Hm; [|done].
    unfold JS.strict_eq. case_bool_decide as Hself; simpl; [done|].
    intros _. exists conv, d. split_and!; [done..|congruence|].
    apply match_messageid_Some in Hm as (Hne & _).
    simpl. by destruct d.
Qed.

Lemma reply_target_of_a_message_witness :
  let explicit := sample_activity Message (Some "43") (Some "41")
                    (Some "19:abc@thread.tacv2;messageid=42") "user1" None []
                    None [] [] in
  let parsed := sample_activity Message (Some "43") None
                  (Some "19:abc@thread.tacv2;messageid=42") "user1" None []
                  None [] [] in
  message_replyToId explicit = Some "41" ∧
  ∃ conv d,
    conversation_id parsed = Some conv ∧ JS.match_messageid conv = Some d ∧
    message_replyToId parsed = Some d ∧ act_id parsed ≠ Some d ∧
    JS.truthy (Some d) = true.
Proof.
  intros explicit parsed. split.
  - apply (proj1 (reply_target_of_a_message explicit)). left. reflexivity.
  - apply (proj2 (reply_target_of_a_message parsed)). discriminate.
Defined.

(** ** Updating and deleting a message *)

Lemma lift_token p w :
  lift (getBotAccessToken p) w =
    match token_reply p with
    | Ok t => app_ret t w
    | Err e => app_throw ("Failed to get bot token: " +:+ e) w
    end.
Proof. unfold lift, getBotAccessToken. by destruct (token_reply p). Qed.

(** X17. Updating or deleting a message never touches the application
    store, a block store or the registry - a deleted message keeps its
    subscription and its parent event, so activities on it are processed as
    before. Each of the two emits exactly one event, echoing the activity
    and conversation id of its input, when it succeeds, and nothing when it
    throws; a delete succeeds exactly when the token and the DELETE do. *)
Theorem changes_leave_the_stores (p : Platform) (reply : Res unit)
    (block appId : string) (ucfg : updateMessage.InputConfig)
    (dcfg : deleteMessage.InputConfig) (a : Activity) (w : World) :
  let u := updateMessage.onEvent p reply block ucfg w in
  let d := deleteMessage.onEvent p reply block dcfg w in
  app_world u = w ∧ app_world d = w ∧
  process a appId (app_world d) = process a appId w ∧
  app_trace u =
    match app_result u with
    | Ok _ => [EmitChanged block (updateMessage.cfg_activityId ucfg)
                 (updateMessage.cfg_conversationId ucfg) (now p)]
    | Err _ => []
    end ∧
  app_trace d =
    match app_result d with
    | Ok _ => [EmitChanged block (deleteMessage.cfg_activityId dcfg)
                 (deleteMessage.cfg_conversationId dcfg) (now p)]
    | Err _ => []
    end ∧
  (app_result d = Ok tt ↔ (∃ t, token_reply p = Ok t) ∧ reply = Ok tt).
Proof.
  intros u d. subst u d.
  unfold updateMessage.onEvent, deleteMessage.onEvent, app_bind.
  rewrite !lift_token.
  destruct (token_reply p) as [t|e]; cbn.
  - destruct reply as [[]|e']; cbn.
    + destruct (negb _ && _); cbn; split_and!; try done.
      all: split; [eauto|done].
    + destruct (negb _ && _); cbn; split_and!; try done.
      all: split; [done|]; by intros [_ ?].
  - split_and!; try done. split; [done|]. by intros [[t ?] _].
Qed.

(** X18. The two blocks report an empty content at different points: a
    send without text and cards throws the content error before it asks for
    a token, while an update without text and cards asks for the token
    first, so that a token failure is what it reports; with a token, the
    update throws its content error whatever the PUT would answer, and
    emits nothing. *)
Theorem update_authenticates_before_validating (p : Platform)
    (reply : Res unit) (block eventId : string)
    (ucfg : updateMessage.InputConfig) (scfg : sendMessage.InputConfig)
    (w : World) :
  JS.truthy (updateMessage.cfg_text ucfg) = false →
  default [] (updateMessage.cfg_attachments ucfg) = [] →
  JS.truthy (sendMessage.cfg_text scfg) = false →
  default [] (sendMessage.cfg_attachments scfg) = [] →
  result (sendMessage.onEvent p block eventId scfg w) =
    Err "Message must have either text content or adaptive cards" ∧
  app_result (updateMessage.onEvent p reply block ucfg w) =
    match token_reply p with
    | Ok _ =>
        Err "Updated message must have either text content or adaptive cards"
    | Err e => Err ("Failed to get bot token: " +:+ e)
    end ∧
  app_trace (updateMessage.onEvent p reply block ucfg w) = [].
Proof.
  intros Hut Huc Hst Hsc. split.
  - unfold sendMessage.onEvent. rewrite Hst.
    destruct (sendMessage.cfg_attachments scfg) as [cards|]; [|done].
    simpl in Hsc. by rewrite Hsc.
  - unfold updateMessage.onEvent, app_bind. rewrite lift_token, Hut.
    assert (match updateMessage.cfg_attachments ucfg with
            | Some cards => (length cards =? 0)%nat
            | None => true
            end = true) as ->.
    { destruct (updateMessage.cfg_attachments ucfg) as [cards|]; [|done].
      simpl in Huc. by rewrite Huc. }
    by destruct (token_reply p).
Qed.

Lemma update_authenticates_before_validating_witness :
  result (sendMessage.onEvent platform_down "S1" "evtA" empty_message
            fresh_world) =
    Err "Message must have either text content or adaptive cards" ∧
  app_result (updateMessage.onEvent platform_down (Ok tt) "U1" empty_update
                fresh_world) =
    Err "Failed to get bot token: invalid_client" ∧
  app_trace (updateMessage.onEvent platform_down (Ok tt) "U1" empty_update
               fresh_world) = [].
Proof.
  apply (update_authenticates_before_validating platform_down (Ok tt) "U1"
           "evtA" empty_update empty_message fresh_world); reflexivity.
Defined.

(** ** The HTTP endpoint *)

Lemma endsWith_app pre suffix : Http.endsWith (pre +:+ suffix) suffix = true.
Proof.
  induction pre as [|c pre IH].
  - rewrite append_nil_l.
    destruct suffix; cbn [Http.endsWith]; by rewrite String.eqb_refl.
  - rewrite append_cons. cbn [Http.endsWith]. rewrite IH. apply orb_true_r.
Qed.

Lemma endsWith_inv s suffix :
  Http.endsWith s suffix = true → ∃ pre, s = pre +:+ suffix.
Proof.
  induction s as [|c s IH]; cbn [Http.endsWith]; intros H.
  - apply orb_true_iff in H as [H|H]; [|done].
    apply String.eqb_eq in H as <-. by exists "".
  - apply orb_true_iff in H as [H|H].
    + apply String.eqb_eq in H as <-. by exists "".
    + destruct (IH H) as [pre ->]. by exists (String c pre).
Qed.

Lemma eqb_endsWith s suffix :
  String.eqb s suffix || Http.endsWith s suffix = Http.endsWith s suffix.
Proof.
  destruct (String.eqb s suffix) eqn:H; [|done].
  apply String.eqb_eq in H as ->. symmetry. apply (endsWith_app "").
Qed.

Lemma startsWith_app p rest : JS.startsWith (p +:+ rest) p = true.
Proof.
  unfold JS.startsWith. induction p as [|c p IH].
  - rewrite append_nil_l. by destruct rest.
  - rewrite append_cons. simpl. by destruct (Ascii.ascii_dec c c).
Qed.

Lemma lift_router a appId w :
  lift (handleBotActivity a appId) w =
    {| app_result := Ok tt; app_world := w;
       app_trace := Routed <$> trace (handleBotActivity a appId w) |}.
Proof.
  unfold lift. destruct (handleBotActivity_quiet a appId w) as [[[] ->] ->].
  done.
Qed.

Lemma routed_Routed (t : list Out) : routed (Routed <$> t) = t.
Proof.
  unfold routed. induction t as [|o t IH]; [done|].
  rewrite fmap_cons, bind_cons, IH. done.
Qed.

Lemma responses_Routed (t : list Out) : responses (Routed <$> t) = [].
Proof.
  unfold responses. induction t as [|o t IH]; [done|].
  rewrite fmap_cons, bind_cons, IH. done.
Qed.

Lemma messages_endpoint_run icons_ok appId req w pre :
  Http.req_path req = pre +:+ "/messages" →
  Http.onRequest icons_ok appId req w =
    if negb (JS.truthy (Http.authHeader req))
    then respond 401 (ErrorBody "Missing authorization") w
    else if negb (JS.startsWith (JS.interpolate (Http.authHeader req))
                    "Bearer ")
    then respond 403 (ErrorBody "Invalid authorization") w
    else
      match Http.req_body req with
      | None =>
          app_throw
            "TypeError: Cannot read properties of undefined (reading 'type')" w
      | Some a =>
          {| app_result := Ok tt; app_world := w;
             app_trace :=
               (Routed <$> trace (handleBotActivity a appId w))
               ++ [Respond 200 EmptyBody] |}
      end.
Proof.
  intros Hpath. unfold Http.onRequest. cbn zeta.
  rewrite eqb_endsWith, Hpath, endsWith_app.
  destruct (negb (JS.truthy _)); [done|].
  unfold Http.verifyBotFrameworkRequest.
  destruct (negb (JS.startsWith _ _)); [done|].
  destruct (Http.req_body req) as [a|]; [|done].
  unfold app_bind. by rewrite lift_router.
Qed.

(** X19. The bot endpoint - every path that ends in [/messages] - never
    writes and answers a request at most once. Without a non-empty
    [authorization] or [Authorization] header the answer is 401, with a
    header that does not start with ["Bearer "] it is 403; neither routes
    anything, whatever the body. An authorized request whose body is an
    activity has the activity routed and is then answered 200. An authorized
    request without a body throws before anything is routed and is never
    answered. *)
Theorem messages_endpoint_gate (icons_ok : bool) (appId pre : string)
    (req : Http.Request) (w : World) :
  Http.req_path req = pre +:+ "/messages" →
  let o := Http.onRequest icons_ok appId req w in
  let authorized :=
    JS.truthy (Http.authHeader req)
    && JS.startsWith (JS.interpolate (Http.authHeader req)) "Bearer " in
  app_world o = w ∧
  length (responses (app_trace o)) ≤ 1 ∧
  (authorized = false →
   app_result o = Ok tt ∧
   app_trace o =
     [if JS.truthy (Http.authHeader req)
      then Respond 403 (ErrorBody "Invalid authorization")
      else Respond 401 (ErrorBody "Missing authorization")]) ∧
  (authorized = true → ∀ a, Http.req_body req = Some a →
   app_result o = Ok tt ∧
   app_trace o =
     (Routed <$> trace (handleBotActivity a appId w))
     ++ [Respond 200 EmptyBody]) ∧
  (authorized = true → Http.req_body req = None →
   (∃ msg, app_result o = Err msg) ∧ app_trace o = []).
Proof.
  intros Hpath o authorized. subst o authorized.
  rewrite (messages_endpoint_run _ _ _ _ pre Hpath).
  destruct (JS.truthy (Http.authHeader req)); cbn [negb andb].
  2: { split_and!; [done|cbn; lia|done|done|done]. }
  destruct (JS.startsWith _ _); cbn [negb].
  2: { split_and!; [done|cbn; lia|done|done|done]. }
  destruct (Http.req_body req) as [a|].
  - split_and!; [done| |done| |done].
    + cbn [app_trace]. unfold responses. rewrite bind_app.
      fold (responses (Routed <$> trace (handleBotActivity a appId w))).
      rewrite responses_Routed. cbn. lia.
    + intros _ a' [= <-]. done.
  - split_and!; [done|cbn; lia|done|done|].
    intros _ _. cbn. eauto.
Qed.

Lemma messages_endpoint_gate_witness :
  let a := sample_activity Message (Some "5") None (Some "conv1") "user1" None
             [mention_of "28:11111111-aaaa"] (Some "19:xyz") [] [] in
  let upper := request_with "/hooks/app1/messages" "AUTHORIZATION"
                 "Bearer abc" a in
  let basic := request_with "/messages" "authorization" "Basic abc" a in
  let bearer := request_with "/messages" "Authorization" "Bearer abc" a in
  let empty := request_without_body "/messages" "authorization" "Bearer abc" in
  app_trace (Http.onRequest true "bot" upper fresh_world) =
    [Respond 401 (ErrorBody "Missing authorization")] ∧
  app_trace (Http.onRequest true "bot" basic fresh_world) =
    [Respond 403 (ErrorBody "Invalid authorization")] ∧
  app_trace (Http.onRequest true "bot" bearer fresh_world) =
    [Routed (SendToBlocks ["M2"] (mention_body a)); Respond 200 EmptyBody] ∧
  ((∃ msg, app_result (Http.onRequest true "bot" empty fresh_world) = Err msg) ∧
   app_trace (Http.onRequest true "bot" empty fresh_world) = []).
Proof.
  intros a upper basic bearer empty. split; [|split; [|split]].
  - apply (proj1 (proj2 (proj2 (messages_endpoint_gate true "bot"
             "/hooks/app1" upper fresh_world eq_refl))) eq_refl).
  - apply (proj1 (proj2 (proj2 (messages_endpoint_gate true "bot" "" basic
             fresh_world eq_refl))) eq_refl).
  - apply (proj1 (proj2 (proj2 (proj2 (messages_endpoint_gate true "bot" ""
             bearer fresh_world eq_refl)))) eq_refl a eq_refl).
  - apply (proj2 (proj2 (proj2 (proj2 (messages_endpoint_gate true "bot" ""
             empty fresh_world eq_refl)))) eq_refl eq_refl).
Defined.

(** X20. The token is never inspected: two requests to the bot endpoint
    with the same body whose authorization headers both start with
    ["Bearer "] are handled identically, whatever follows the prefix and
    whatever else the two requests carry; with an activity as the body both
    are answered 200. *)
Theorem bearer_token_is_not_inspected (icons_ok : bool)
    (appId pre1 pre2 token1 token2 : string) (req1 req2 : Http.Request)
    (w : World) :
  Http.req_path req1 = pre1 +:+ "/messages" →
  Http.req_path req2 = pre2 +:+ "/messages" →
  Http.authHeader req1 = Some ("Bearer " +:+ token1) →
  Http.authHeader req2 = Some ("Bearer " +:+ token2) →
  Http.req_body req1 = Http.req_body req2 →
  Http.onRequest icons_ok appId req1 w = Http.onRequest icons_ok appId req2 w ∧
  (is_Some (Http.req_body req1) →
   responses (app_trace (Http.onRequest icons_ok appId req1 w)) = [200]).
Proof.
  intros Hp1 Hp2 Hh1 Hh2 Hbody.
  rewrite (messages_endpoint_run _ _ _ _ pre1 Hp1),
    (messages_endpoint_run _ _ _ _ pre2 Hp2), Hh1, Hh2, Hbody.
  cbn [JS.interpolate].
  change (JS.truthy (Some ("Bearer " +:+ token1))) with true.
  change (JS.truthy (Some ("Bearer " +:+ token2))) with true.
  rewrite !startsWith_app.
  cbn [negb]. split; [done|]. intros [a Ha]. rewrite Ha.
  cbn [app_trace]. unfold responses. rewrite bind_app.
  fold (responses (Routed <$> trace (handleBotActivity a appId w))).
  by rewrite responses_Routed.
Qed.

Lemma bearer_token_is_not_inspected_witness :
  let a := sample_activity Message (Some "5") None (Some "conv1") "user1" None
             [mention_of "28:11111111-aaaa"] (Some "19:xyz") [] [] in
  Http.onRequest true "bot"
    (request_with "/messages" "authorization" "Bearer " a) fresh_world =
  Http.onRequest true "bot"
    (request_with "/x/messages" "Authorization" "Bearer eyJhbGciOi" a)
    fresh_world ∧
  responses (app_trace (Http.onRequest true "bot"
                          (request_with "/messages" "authorization" "Bearer " a)
                          fresh_world)) = [200].
Proof.
  intros a.
  destruct (bearer_token_is_not_inspected true "bot" "" "/x" "" "eyJhbGciOi"
              (request_with "/messages" "authorization" "Bearer " a)
              (request_with "/x/messages" "Authorization" "Bearer eyJhbGciOi" a)
              fresh_world eq_refl eq_refl eq_refl eq_refl eq_refl)
    as [Hsame Hok].
  split; [exact Hsame|]. apply Hok. by exists a.
Defined.

(** X21. Only the bot endpoint routes: a request whose path does not end in
    [/messages] never sends an internal message and never writes, whatever
    its headers and body. A path ending in [/manifest.zip] is served without
    any authorization (200 when both icons download, a throw otherwise); any
    other path is answered with 404. *)
Theorem only_the_messages_path_routes (icons_ok : bool) (appId : string)
    (req : Http.Request) (w : World) :
  (∀ pre, Http.req_path req ≠ pre +:+ "/messages") →
  let o := Http.onRequest icons_ok appId req w in
  routed (app_trace o) = [] ∧ app_world o = w ∧
  ((∃ pre, Http.req_path req = pre +:+ "/manifest.zip") →
   if icons_ok
   then app_result o = Ok tt ∧ app_trace o = [Respond 200 (ManifestZip appId)]
   else app_result o = Err "Failed to download icons from GitHub" ∧
        app_trace o = []) ∧
  ((∀ pre, Http.req_path req ≠ pre +:+ "/manifest.zip") →
   app_result o = Ok tt ∧
   app_trace o = [Respond 404 (ErrorBody "Endpoint not found")]).
Proof.
  intros Hnot o. subst o. unfold Http.onRequest. cbn zeta.
  rewrite !eqb_endsWith.
  destruct (Http.endsWith (Http.req_path req) "/messages") eqn:Hm.
  { apply endsWith_inv in Hm as [pre Hm]. by destruct (Hnot pre). }
  destruct (Http.endsWith (Http.req_path req) "/manifest.zip") eqn:Hz.
  - destruct icons_ok; cbn; split_and!; try done.
    all: intros Hno; apply endsWith_inv in Hz as [pre Hz]; by destruct (Hno pre).
  - cbn. split_and!; try done.
    intros [pre Hpre]. rewrite Hpre, endsWith_app in Hz. done.
Qed.

Lemma only_the_messages_path_routes_witness :
  let a := sample_activity Message (Some "5") None (Some "conv1") "user1" None
             [mention_of "28:11111111-aaaa"] (Some "19:xyz") [] [] in
  app_trace (Http.onRequest true "bot"
               (request_with "/message" "authorization" "Bearer abc" a)
               fresh_world) =
    [Respond 404 (ErrorBody "Endpoint not found")] ∧
  app_trace (Http.onRequest true "bot"
               (request_with "/app1/manifest.zip" "x" "y" a) fresh_world) =
    [Respond 200 (ManifestZip "bot")].
Proof.
  intros a.
  assert (∀ path, Http.endsWith path "/messages" = false →
                  ∀ pre, path ≠ pre +:+ "/messages") as Hno.
  { intros path Hf pre ->. by rewrite endsWith_app in Hf. }
  split.
  - apply (only_the_messages_path_routes true "bot"
             (request_with "/message" "authorization" "Bearer abc" a)
             fresh_world (Hno "/message" eq_refl)).
    intros pre Hpre.
    assert (Http.endsWith "/message" "/manifest.zip" = true) as Hz
      by (cbn [request_with Http.req_path] in Hpre;
          rewrite Hpre; apply endsWith_app).
    discriminate Hz.
  - apply (proj1 (proj2 (proj2 (only_the_messages_path_routes true "bot"
             (request_with "/app1/manifest.zip" "x" "y" a) fresh_world
             (Hno "/app1/manifest.zip" eq_refl))))).
    by exists "/app1".
Defined.

(** ** Index and parent events go together *)

Lemma split_subscription_key_full ns anchor subscriber :
  pipe_free ns = true → pipe_free anchor = true →
  pipe_free subscriber = true →
  JS.split "|" (subscription_key ns anchor subscriber) =
    [ns; anchor; subscriber].
Proof.
  intros Hns Ha Hs. unfold subscription_key.
  rewrite (split_sep ns) by done. rewrite (split_sep anchor) by done.
  by rewrite split_pipe_free.
Qed.

Lemma subscription_key_inj ns a s ns' a' s' :
  pipe_free ns = true → pipe_free a = true → pipe_free s = true →
  pipe_free ns' = true → pipe_free a' = true → pipe_free s' = true →
  subscription_key ns a s = subscription_key ns' a' s' →
  ns = ns' ∧ a = a' ∧ s = s'.
Proof.
  intros ? ? ? ? ? ? Heq.
  apply (f_equal (JS.split "|")) in Heq.
  rewrite !split_subscription_key_full in Heq by done.
  by injection Heq.
Qed.

Lemma coherent_insert w ns anchor block eventId :
  coherent w → pipe_free ns = true → pipe_free anchor = true →
  pipe_free block = true →
  coherent
    {| kv_app := <[subscription_key ns anchor block := true]> (kv_app w);
       kv_block := <[block := <[anchor := eventId]> (block_store w block)]>
                     (kv_block w);
       registry := registry w |}.
Proof.
  intros Hco Hns Ha Hb k v Hk. cbn [kv_app] in Hk.
  assert (∀ b a, is_Some (block_store w b !! a) →
                 is_Some (default ∅
                   (<[block := <[anchor := eventId]> (block_store w block)]>
                      (kv_block w) !! b) !! a)) as Hkeep.
  { intros b a Hs. rewrite block_store_insert.
    case_decide; [subst b|done]. rewrite lookup_insert. by case_decide. }
  destruct (decide (subscription_key ns anchor block = k)) as [<-|Hne].
  - exists ns, anchor, block. split_and!; [done..|].
    unfold block_store; cbn [kv_block]. rewrite lookup_insert_eq; simpl.
    rewrite lookup_insert_eq. by eexists.
  - rewrite lookup_insert_ne in Hk by done.
    destruct (Hco k v Hk) as (ns' & a' & b' & -> & ? & ? & ? & Hs).
    exists ns', a', b'. split_and!; [done..|].
    unfold block_store at 1; cbn [kv_block]. by apply Hkeep.
Qed.

(** X22. Index and parent events are written together: starting from empty
    stores, and as long as conversation ids, platform activity ids and block
    ids hold no [|], every subscription and every send keeps the invariant
    that each key of the index is built from three [|]-free parts and that
    its subscriber has a parent event on record for its anchor. Hence every
    subscriber a lookup returns can resolve the parent event of the
    anchor. *)
Theorem registered_subscribers_have_parents (p : Platform)
    (block eventId conv : string) (cfg : sendMessage.InputConfig)
    (w : World) :
  (kv_app w = ∅ → coherent w) ∧
  (coherent w →
   (pipe_free conv = true → pipe_free block = true →
    coherent (world (subscribeToReplies.onEvent block eventId conv w))) ∧
   (pipe_free block = true →
    (∀ aid cid ch ts,
       Emit block (MessageSent aid cid ch ts) None None
         ∈ trace (sendMessage.onEvent p block eventId cfg w) →
       pipe_free aid = true) →
    coherent (world (sendMessage.onEvent p block eventId cfg w))) ∧
   (∀ ns anchor subscriber,
      pipe_free ns = true → pipe_free anchor = true →
      Some subscriber ∈ index_lookup (ns +:+ "|" +:+ anchor +:+ "|") (kv_app w) →
      is_Some (block_store w subscriber !! anchor))).
Proof.
  split.
  { intros Hempty k v Hk. by rewrite Hempty, lookup_empty in Hk. }
  intros Hco. split_and!.
  - intros Hc Hb. rewrite subscribeToReplies_onEvent_run. cbn [world].
    by apply (coherent_insert w "replies").
  - intros Hb Haid.
    destruct (sendMessage_onEvent_run p cfg) as [[msg Hrun]|[r Hrun]];
      rewrite Hrun in *; cbn [world trace] in *; [done|].
    apply (coherent_insert w "events"); [done..| |done].
    eapply Haid. apply list_elem_of_singleton. reflexivity.
  - intros ns anchor subscriber Hns Ha Hin. unfold index_lookup in Hin.
    apply list_elem_of_fmap in Hin as ([k v] & Hseg & Hin).
    apply list_elem_of_filter in Hin as [Hpre Hin]. simpl in *.
    apply elem_of_map_to_list in Hin.
    destruct (Hco k v Hin) as (ns' & a' & b' & -> & ? & ? & ? & Hs).
    apply Is_true_true in Hpre.
    apply startsWith_subscription_key in Hpre as [-> ->]; [|done..].
    rewrite split_subscription_key in Hseg by done.
    by injection Hseg as ->.
Qed.

Lemma registered_subscribers_have_parents_witness :
  coherent two_senders_world ∧
  is_Some (block_store two_senders_world "S2" !! "7").
Proof.
  assert (coherent fresh_world) as H0.
  { apply (proj1 (registered_subscribers_have_parents platform_ok "S1" "evtA"
                    "conv1" text_message fresh_world)). reflexivity. }
  assert (∀ block e w aid cid ch ts,
            Emit block (MessageSent aid cid ch ts) None None
              ∈ trace (sendMessage.onEvent platform_ok block e text_message w) →
            pipe_free aid = true) as Hids.
  { intros block e w aid cid ch ts Hin.
    apply list_elem_of_singleton in Hin. by injection Hin as -> _ _ _. }
  assert (coherent (world (sendMessage.onEvent platform_ok "S1" "evtA"
                             text_message fresh_world))) as H1.
  { apply (proj1 (proj2 (proj2 (registered_subscribers_have_parents
             platform_ok "S1" "evtA" "conv1" text_message fresh_world) H0)));
      [reflexivity|apply Hids]. }
  assert (coherent two_senders_world) as H2.
  { apply (proj1 (proj2 (proj2 (registered_subscribers_have_parents
             platform_ok "S2" "evtB" "conv1" text_message _) H1)));
      [reflexivity|apply Hids]. }
  split; [exact H2|].
  apply (proj2 (proj2 (proj2 (registered_subscribers_have_parents
           platform_ok "S2" "evtB" "conv1" text_message two_senders_world)
           H2)) "events" "7" "S2"); [reflexivity..|].
  vm_compute. repeat constructor.
Defined.

(** ** Subscriptions under later registrations *)

Lemma reply_reaches_registered block eventId conv appId w a :
  NoDup (blk_id <$> registry w) →
  (∃ b, b ∈ registry w ∧ blk_id b = block ∧
        blk_typeId b = "threadSubscription") →
  pipe_free conv = true → pipe_free block = true →
  is_Some (kv_app w !! subscription_key "replies" conv block) →
  block_store w block !! conv = Some eventId →
  JS.truthy (Some conv) = true → JS.truthy (Some eventId) = true →
  act_type a = Message → conversation_id a = Some conv →
  JS.truthy (message_replyToId a) = true →
  isFromBot a appId = false → JS.truthy_value (act_value a) = false →
  Emit block
    (ReplyEvent (act_text a) (act_attachments a) (from_id a)
       (act_from a ≫= acc_name) (act_from a ≫= acc_aadObjectId)
       (act_id a) (act_timestamp a))
    (Some eventId) None
  ∈ trace (process a appId w).
Proof.
  intros Hnd Hblock Hconv Hb Hkey Hparent Htc Hte Hty Hc Hreply Hbot Hval.
  assert (block ∈ live_subscribers ("replies|" +:+ conv +:+ "|")
                    "threadSubscription" w) as Hlive
    by by apply (registered_is_live "replies").
  destruct (truthy_Some _ Hreply) as [r Hr]. rewrite Hr in Hreply.
  assert (SendToBlocks
            (live_subscribers ("replies|" +:+ conv +:+ "|")
               "threadSubscription" w)
            (reply_body a (Some r) (Some conv))
          ∈ trace (handleBotActivity a appId w)) as Hsend.
  { unfold handleBotActivity. rewrite Hty.
    destruct (handleMessageActivity_run a appId w) as (_ & _ & ->).
    apply elem_of_app. right.
    rewrite (routeThread_reply a appId w r conv) by
      (try done; intros Hnil; rewrite Hnil in Hlive;
       by apply elem_of_nil in Hlive).
    by apply list_elem_of_singleton. }
  eapply process_delivers; [exact Hsend|exact Hlive|].
  rewrite (deliver_to_live _ _ _ _ w Hnd Hlive).
  unfold onInternalMessage. cbn [String.eqb Ascii.eqb Bool.eqb].
  unfold subscribeToReplies.onInternalMessage.
  rewrite (bind_pure _ _ _ _ (kv_block_get_run _ _ _)).
  cbn [b_conversationId reply_body mbind option_bind].
  rewrite Hparent, Hte. cbn [negb].
  apply list_elem_of_singleton. reflexivity.
Qed.

(** X23. A thread subscription survives what other blocks register later:
    after a block subscribed to a conversation, any subscription and any
    send (successful or not) by other blocks leave it in place - a reply in
    that conversation still makes the block emit the reply event as a child
    of its own subscription's event. *)
Theorem subscription_survives_later_registrations (p : Platform)
    (block eventId conv other1 event1 conv1 other2 event2 appId : string)
    (cfg : sendMessage.InputConfig) (w : World) (a : Activity) :
  let w1 := world (subscribeToReplies.onEvent block eventId conv w) in
  let w2 := world (subscribeToReplies.onEvent other1 event1 conv1 w1) in
  let w3 := world (sendMessage.onEvent p other2 event2 cfg w2) in
  other1 ≠ block → other2 ≠ block →
  NoDup (blk_id <$> registry w) →
  (∃ b, b ∈ registry w ∧ blk_id b = block ∧
        blk_typeId b = "threadSubscription") →
  pipe_free conv = true → pipe_free block = true →
  JS.truthy (Some conv) = true → JS.truthy (Some eventId) = true →
  act_type a = Message → conversation_id a = Some conv →
  JS.truthy (message_replyToId a) = true →
  isFromBot a appId = false → JS.truthy_value (act_value a) = false →
  Emit block
    (ReplyEvent (act_text a) (act_attachments a) (from_id a)
       (act_from a ≫= acc_name) (act_from a ≫= acc_aadObjectId)
       (act_id a) (act_timestamp a))
    (Some eventId) None
  ∈ trace (process a appId w3).
Proof.
  intros w1 w2 w3 Hne1 Hne2 Hnd Hblock Hconv Hb Htc Hte Hty Hc Hreply Hbot
    Hval.
  assert (registry w3 = registry w ∧
          is_Some (kv_app w3 !! subscription_key "replies" conv block) ∧
          block_store w3 block !! conv = Some eventId) as (Hreg & Hkey & Hpar).
  { subst w3 w2 w1.
    rewrite !subscribeToReplies_onEvent_run. cbn [world].
    set (w1 := {| kv_app := _; kv_block := _; registry := registry w |}).
    set (w2 := {| kv_app := _; kv_block := _; registry := registry w1 |}).
    assert (is_Some (kv_app w2 !! subscription_key "replies" conv block) ∧
            block_store w2 block !! conv = Some eventId) as [Hk2 Hp2].
    { split.
      - cbn [w2 w1 kv_app]. rewrite lookup_insert. case_decide; [done|].
        rewrite lookup_insert_eq. done.
      - unfold block_store at 1. cbn [w2 kv_block].
        rewrite block_store_insert. case_decide; [done|].
        unfold block_store. cbn [w1 kv_block].
        rewrite lookup_insert_eq; simpl. apply lookup_insert_eq. }
    destruct (sendMessage_onEvent_run p cfg) as [[msg Hrun]|[r Hrun]];
      rewrite Hrun; cbn [world]; [done|].
    split_and!.
    - done.
    - cbn [kv_app]. rewrite lookup_insert. by case_decide.
    - unfold block_store at 1. cbn [kv_block].
      rewrite block_store_insert. by case_decide. }
  apply (reply_reaches_registered block eventId conv appId w3 a);
    try done; by rewrite Hreg.
Qed.

Lemma subscription_survives_later_registrations_witness :
  let a := sample_activity Message (Some "5") (Some "3") (Some "conv1")
             "user1" None [] None [] [] in
  let w1 := world (subscribeToReplies.onEvent "T1" "evtP" "conv1" fresh_world) in
  let w2 := world (subscribeToReplies.onEvent "T2" "evtQ" "conv1" w1) in
  let w3 := world (sendMessage.onEvent platform_ok "S1" "evtR" text_message w2) in
  Emit "T1"
    (ReplyEvent (Some "hello") None (Some "user1") None None (Some "5")
       (Some "2025-01-01T00:00:00Z"))
    (Some "evtP") None
  ∈ trace (process a "bot" w3).
Proof.
  intros a w1 w2 w3.
  apply (subscription_survives_later_registrations platform_ok "T1" "evtP"
           "conv1" "T2" "evtQ" "conv1" "S1" "evtR" "bot" text_message
           fresh_world a).
  - discriminate.
  - discriminate.
  - apply (bool_decide_unpack _). vm_compute. exact I.
  - exists (block_of "T1" "threadSubscription" None).
    split; [repeat constructor|split; reflexivity].
  - reflexivity.
  - reflexivity.
  - reflexivity.
  - reflexivity.
  - reflexivity.
  - reflexivity.
  - reflexivity.
  - reflexivity.
  - reflexivity.
Defined.

(** ** Edge cases of the router *)

Lemma includes_empty s : JS.includes s "" = true.
Proof. destruct s; simpl; done. Qed.

(** X24. With an empty configured app id (or just the prefix ["28:"])
    every sender looks like the bot: no message that has a non-empty sender
    id is then routed as a reply or as an action, whatever is subscribed. *)
Theorem empty_app_id_silences_threads (a : Activity) (appId : string)
    (w : World) :
  appId = "" ∨ appId = "28:" →
  act_type a = Message → JS.truthy (from_id a) = true →
  isFromBot a appId = true ∧
  sent_count "reply" (trace (handleBotActivity a appId w)) = 0 ∧
  sent_count "action" (trace (handleBotActivity a appId w)) = 0.
Proof.
  intros Happ Hty Hfrom.
  assert (isFromBot a appId = true) as Hbot.
  { unfold isFromBot.
    assert (JS.replace_prefix "28:" appId = "") as ->
      by by destruct Happ as [-> | ->].
    destruct (from_id a) as [i|]; [|done].
    by rewrite Hfrom, includes_empty. }
  split; [done|]. unfold handleBotActivity. rewrite Hty.
  destruct (handleMessageActivity_run a appId w) as (_ & _ & ->).
  rewrite !sent_count_app, !routeMention_sent. simpl.
  destruct (routeThread_run a appId w) as (_ & _ & Hroute).
  destruct Hroute as [|r ids _ _ Hnot _ _ _|r c ids _ _ Hnot _ _ _ _ _];
    [done|congruence|congruence].
Qed.

Lemma empty_app_id_silences_threads_witness :
  let a := sample_activity Message (Some "5") (Some "3") (Some "conv1")
             "user1" None [] None [] [] in
  let w := world (subscribeToReplies.onEvent "T1" "evtP" "conv1" fresh_world) in
  isFromBot a "" = true ∧
  sent_count "reply" (trace (handleBotActivity a "" w)) = 0 ∧
  sent_count "action" (trace (handleBotActivity a "" w)) = 0.
Proof.
  intros a w.
  apply (empty_app_id_silences_threads a "" w); [left|..]; reflexivity.
Defined.

(** X25. A reaction activity that lists no change - both lists absent or
    empty - sends nothing, even when the reacted message has live
    subscribers; and so does every conversation update and every activity
    of a kind the router does not know. *)
Theorem nothing_to_report_sends_nothing (a : Activity) (appId : string)
    (w : World) :
  (act_type a = MessageReactionT ∧
   default [] (act_reactionsAdded a) = [] ∧
   default [] (act_reactionsRemoved a) = []) ∨
  act_type a = ConversationUpdate ∨ (∃ tag, act_type a = OtherType tag) →
  handleBotActivity a appId w = noop w ∧ trace (process a appId w) = [].
Proof.
  intros Hcase.
  assert (handleBotActivity a appId w = noop w) as Hnoop.
  { unfold handleBotActivity.
    destruct Hcase as [(-> & Hadd & Hrem)|[-> |[tag ->]]]; [|done..].
    rewrite handleReactionActivity_run, Hadd, Hrem.
    destruct (JS.truthy (act_replyToId a)); [|done]. cbn zeta.
    by destruct (live_subscribers _ _ _). }
  split; [done|]. rewrite process_trace, Hnoop. done.
Qed.

Lemma nothing_to_report_sends_nothing_witness :
  let a := sample_activity MessageReactionT (Some "9") (Some "7")
             (Some "conv1") "user1" None [] None [] [] in
  handleBotActivity a "bot" two_senders_world = noop two_senders_world ∧
  trace (process a "bot" two_senders_world) = [].
Proof.
  intros a.
  apply (nothing_to_report_sends_nothing a "bot" two_senders_world).
  left. split; [reflexivity|split; reflexivity].
Defined.

(** ** The serialized key *)

(** X26. Round trip of the index key: the key a send or a subscription
    writes ([events|anchor|block], [replies|anchor|block]) splits at [|]
    into exactly its namespace, anchor and block id when the anchor and the
    block id hold no [|], so the third segment the router reads is the block
    id; and two such registrations write the same key only if they agree in
    namespace, anchor and block. *)
Theorem subscription_key_round_trip (anchor block : string) :
  pipe_free anchor = true → pipe_free block = true →
  JS.split "|" ("events|" +:+ anchor +:+ "|" +:+ block) =
    ["events"; anchor; block] ∧
  JS.split "|" ("replies|" +:+ anchor +:+ "|" +:+ block) =
    ["replies"; anchor; block] ∧
  ∀ ns ns' anchor' block',
    pipe_free ns = true → pipe_free ns' = true →
    pipe_free anchor' = true → pipe_free block' = true →
    subscription_key ns anchor block = subscription_key ns' anchor' block' →
    ns = ns' ∧ anchor = anchor' ∧ block = block'.
Proof.
  intros Ha Hb. split_and!.
  - by apply (split_subscription_key_full "events").
  - by apply (split_subscription_key_full "replies").
  - intros ns ns' anchor' block' Hns Hns' Ha' Hb'.
    by apply subscription_key_inj.
Qed.

Lemma subscription_key_round_trip_witness :
  JS.split "|" "events|1700000000000|S1" = ["events"; "1700000000000"; "S1"] ∧
  JS.split "|" "replies|1700000000000|S1" = ["replies"; "1700000000000"; "S1"].
Proof.
  pose proof (subscription_key_round_trip "1700000000000" "S1" eq_refl eq_refl)
    as (Hevents & Hreplies & _).
  split; [exact Hevents|exact Hreplies].
Defined.
